(** * Alfred: the authenticated conversational-turn pipeline

    A shallow embedding of the Flask handlers of the iterations of the
    application (src/v2, src/v3, src/v4 and src/v5; src/v3.1 has the
    helpers of v4), over a model of the services they call: the document
    database, the credential hashing library, the generative model client
    and the speech clients.

    Strings are sequences of code points of the Latin-1 range; a Python
    [dict] is a [gmap]; a message document is a record of the fields that
    [chat] writes; handlers run in a state-and-exception monad over the
    database, so that [try]/[except] reads as in the source. What a remote
    service answers, and where a database call fails, is given by an
    environment [Env], over which every statement quantifies. *)

From Stdlib Require Import ZArith String Ascii List Lia Bool.
From stdpp Require Import base option gmap strings pretty list sorting.
From Equations Require Import Equations.

(** Unfolding lemmas of recursive definitions are proved without
    functional extensionality. *)
Unset Equations With Funext.

Open Scope Z_scope.
Open Scope nat_scope.

(** ** Python values and strings *)

Module Py.

(** The values a document field holds: text, [None], a stored timestamp,
    and the write-time marker [firestore.SERVER_TIMESTAMP]. *)
Inductive pyval : Type :=
| VStr (s : string)
| VNone
| VTime (t : Z)
| VSentinel.

Global Instance pyval_eq_dec : EqDecision pyval.
Proof. solve_decision. Defined.

Abbreviation dict := (gmap string pyval).

(** [bool(s)] of a string. *)
Definition nonempty (s : string) : bool := negb (String.eqb s "").

(** [bool(v)]: [None] and the empty string are falsy, the other values
    truthy. *)
Definition truthy (v : pyval) : bool :=
  match v with
  | VStr s => nonempty s
  | VNone => false
  | VTime _ | VSentinel => true
  end.

(** A Python variable that holds a string or [None]. *)
Definition value_of (o : option string) : pyval :=
  match o with
  | Some s => VStr s
  | None => VNone
  end.

(** [d.get(k)]: the value, or [None]. *)
Definition dict_get (d : dict) (k : string) : pyval :=
  default VNone (d !! k).

(** [str.isspace] on the code points below 256. *)
Definition isspace (c : ascii) : bool :=
  let n := nat_of_ascii c in
  ((9 <=? n) && (n <=? 13)) || ((28 <=? n) && (n <=? 32))
  || (n =? 133) || (n =? 160).

Fixpoint lstrip (s : string) : string :=
  match s with
  | EmptyString => EmptyString
  | String c s' => if isspace c then lstrip s' else s
  end.

Fixpoint rstrip (s : string) : string :=
  match s with
  | EmptyString => EmptyString
  | String c s' =>
      match rstrip s' with
      | EmptyString => if isspace c then EmptyString else String c EmptyString
      | r => String c r
      end
  end.

(** [s.strip()] *)
Definition strip (s : string) : string := rstrip (lstrip s).

(** [sep.join(parts)] over strings. *)
Definition join (sep : string) (parts : list string) : string :=
  String.concat sep parts.

End Py.
Export Py.

(** ** Results and exceptions *)

Inductive result (A : Type) : Type :=
| Ok (a : A)
| Raise (e : string).
Arguments Ok {A} a.
Arguments Raise {A} e.

Definition is_ok {A} (r : result A) : bool :=
  match r with Ok _ => true | Raise _ => false end.

(** ** The services the handlers call *)

(** One entry of the [contents] list of a model call:
    [{"role": r, "parts": [{"text": t}]}]. *)
Record entry : Type := Entry { role : string; text : string }.

Global Instance entry_eq_dec : EqDecision entry.
Proof. solve_decision. Defined.

(** A Message Turn as [chat] writes it under default/<user>/messages. *)
Record turn : Type := Turn {
  t_user : option string;
  t_user_message : string;
  t_ai_response : string;
  t_timestamp : Z
}.

Global Instance turn_eq_dec : EqDecision turn.
Proof. solve_decision. Defined.

(** The places where a handler calls the database; a call may fail there
    with an exception. The loop of [clear_history] calls once per round. *)
Inductive site : Type :=
| AtUserGet
| AtUserSet
| AtProfileGet
| AtProfileSet
| AtHistoryStream
| AtMessagesAdd
| AtUsersStream
| AtClearStream (round : nat)
| AtClearCommit (round : nat).

(** What lies outside the repository: library functions and the replies
    and failures of the remote services. [bcrypt.checkpw] and
    [bcrypt.hashpw] raise [ValueError] on a password of more than 72 bytes,
    and [checkpw] on a stored hash that is none. [db_missing] is the state
    of the global [db] after start-up: [Some e] when [firestore.Client()]
    failed there, so that [db] is [None] (v5) or unbound (v4) and every use
    of it raises [e]; v2, v3 and v3.1 make the client without a [try] and
    do not start without it. *)
Record Env : Type := {
  py_str : pyval -> string;
  strftime : Z -> string;
  strftime_local : Z -> string;
  checkpw : string -> string -> result bool;
  hashpw : string -> result string;
  client_ready : bool;
  generate_content : string -> list entry -> result string;
  recognize : string -> result (list (list string));
  synthesize_speech : string -> result string;
  b64encode : string -> string;
  db_missing : option string;
  call_fault : site -> option string
}.

(** The failure of the database call at [s]: the error of the missing
    client, which every call meets, or the failure of this call itself. *)
Definition fault (E : Env) (s : site) : option string :=
  match db_missing E with
  | Some e => Some e
  | None => call_fault E s
  end.
Arguments fault : simpl never.

(** Calls that leave the process, in the order they were made. *)
Inductive event : Type :=
| ERecognize (audio : string)
| EGenerate (system_instruction : string) (contents : list entry)
| EAdd (username : option string) (t : turn)
| ECommit (username : option string) (refs : list nat)
| ESynthesize (input : string).

(** The database (collections users, default/<u>/user_data/profile and
    default/<u>/messages, each from document identifier to document), the
    server clock that resolves [SERVER_TIMESTAMP], and the trace of outgoing
    calls. *)
Record World : Type := {
  w_users : gmap string dict;
  w_profiles : gmap string dict;
  w_messages : gmap string (gmap nat turn);
  w_now : Z;
  w_trace : list event
}.

Definition with_users (f : gmap string dict -> gmap string dict) (w : World) : World :=
  {| w_users := f (w_users w); w_profiles := w_profiles w;
     w_messages := w_messages w; w_now := w_now w; w_trace := w_trace w |}.

Definition with_profiles (f : gmap string dict -> gmap string dict) (w : World) : World :=
  {| w_users := w_users w; w_profiles := f (w_profiles w);
     w_messages := w_messages w; w_now := w_now w; w_trace := w_trace w |}.

Definition with_messages
    (f : gmap string (gmap nat turn) -> gmap string (gmap nat turn))
    (w : World) : World :=
  {| w_users := w_users w; w_profiles := w_profiles w;
     w_messages := f (w_messages w); w_now := w_now w; w_trace := w_trace w |}.

Definition tick (w : World) : World :=
  {| w_users := w_users w; w_profiles := w_profiles w;
     w_messages := w_messages w; w_now := (w_now w + 1)%Z; w_trace := w_trace w |}.

Definition log (e : event) (w : World) : World :=
  {| w_users := w_users w; w_profiles := w_profiles w;
     w_messages := w_messages w; w_now := w_now w; w_trace := w_trace w ++ [e] |}.

(** The collection default/<username>/messages, from document identifier
    to turn; a user without documents has the empty collection. A session
    without a username names a fresh document, whose collection is empty. *)
Definition messages (w : World) (username : option string) : gmap nat turn :=
  match username with
  | Some u => default ∅ (w_messages w !! u)
  | None => ∅
  end.
Arguments messages : simpl never.

(** The number of turns persisted for a user. *)
Definition turn_count (w : World) (username : string) : nat :=
  size (messages w (Some username)).

(** ** The handler monad: state and exceptions *)

Definition M (A : Type) : Type := World -> result A * World.

Definition ret {A} (a : A) : M A := fun w => (Ok a, w).

Definition bind {A B} (m : M A) (k : A -> M B) : M B :=
  fun w =>
    match m w with
    | (Ok a, w') => k a w'
    | (Raise e, w') => (Raise e, w')
    end.

Definition raise {A} (e : string) : M A := fun w => (Raise e, w).

(** [try: body except Exception as e: handler e]; what [body] wrote before
    it raised stays written. *)
Definition try_except {A} (body : M A) (handler : string -> M A) : M A :=
  fun w =>
    match body w with
    | (Ok a, w') => (Ok a, w')
    | (Raise e, w') => handler e w'
    end.

Definition lift_result {A} (r : result A) : M A := fun w => (r, w).

Definition modify (f : World -> World) : M unit := fun w => (Ok tt, f w).

Definition gets {A} (f : World -> A) : M A := fun w => (Ok (f w), w).

Declare Scope handler_scope.
Delimit Scope handler_scope with handler.
Notation "x <- c1 ;; c2" := (bind c1 (fun x => c2))
  (at level 100, c1 at next level, right associativity) : handler_scope.
Notation "c1 ;; c2" := (bind c1 (fun _ => c2))
  (at level 100, right associativity) : handler_scope.
Open Scope handler_scope.

(** A database call at [s]: the failure the environment plans there, or the
    operation. A failed call writes nothing. *)
Definition db_call {A} (E : Env) (s : site) (op : M A) : M A :=
  match fault E s with
  | Some e => raise e
  | None => op
  end.

(** A use of the global [db] that calls nothing, as in
    [users_ref = db.collection("users")]: it raises when the client is
    missing. Where the call on the reference stands in the same [try], or
    like it in none, the failure is the one of the call. *)
Definition db_handle (E : Env) : M unit :=
  match db_missing E with
  | Some e => raise e
  | None => ret tt
  end.

(** ** The document database *)

(** A write replaces [SERVER_TIMESTAMP] by the time of the server. *)
Definition resolve (now : Z) (data : dict) : dict :=
  (fun v => match v with VSentinel => VTime now | _ => v end) <$> data.

(** [db.collection("users").document(id).get()]; [None] when the document
    does not exist. [document(None)] names a fresh document. *)
Definition users_document_get (E : Env) (s : site) (id : option string)
    : M (option dict) :=
  db_call E s (gets (fun w => id ≫= fun u => w_users w !! u)).

(** [db.collection("users").document(id).set(data)] *)
Definition users_document_set (E : Env) (s : site) (id : string) (data : dict)
    : M unit :=
  db_call E s
    (modify (fun w => tick (with_users (insert id (resolve (w_now w) data)) w))).

(** The document [document(id)] names: [document(None)] makes up a new
    identifier. *)
Definition document_id {V} (c : gmap string V) (id : option string) : string :=
  match id with
  | Some u => u
  | None => fresh (dom c)
  end.

(** [db.collection("users").document(id).set(data, merge=True)]: the fields
    of [data] are written, the other fields of the document stay. *)
Definition users_document_set_merge (E : Env) (s : site) (id : option string)
    (data : dict) : M unit :=
  db_call E s
    (modify (fun w =>
       let u := document_id (w_users w) id in
       tick (with_users
               (insert u (resolve (w_now w) data ∪ default ∅ (w_users w !! u)))
               w))).

(** The same for default/<id>/user_data/profile. *)
Definition profile_document_get (E : Env) (s : site) (id : string)
    : M (option dict) :=
  db_call E s (gets (fun w => w_profiles w !! id)).

Definition profile_document_set (E : Env) (s : site) (id : string) (data : dict)
    : M unit :=
  db_call E s
    (modify (fun w => tick (with_profiles (insert id (resolve (w_now w) data)) w))).

(** [db.collection("users").stream()] *)
Definition users_stream (E : Env) (s : site) : M (list dict) :=
  db_call E s (gets (fun w => (map_to_list (w_users w)).*2)).

(** A document snapshot of the messages collection: reference and data. *)
Abbreviation snapshot := (nat * turn)%type.

(** The order of [order_by("timestamp", direction=DESCENDING)]: later
    timestamps first, equal timestamps by document identifier, descending. *)
Definition newer (x y : snapshot) : Prop :=
  (t_timestamp y.2 < t_timestamp x.2)%Z
  ∨ (t_timestamp y.2 = t_timestamp x.2 ∧ y.1 ≤ x.1).

Global Instance newer_dec x y : Decision (newer x y).
Proof. unfold newer. apply _. Defined.

Definition order_by_timestamp_desc (c : gmap nat turn) : list snapshot :=
  merge_sort newer (map_to_list c).

(** [messages.order_by("timestamp", direction=DESCENDING).limit(n).stream()],
    read to the end. *)
Definition messages_recent (E : Env) (s : site) (username : option string)
    (n : nat) : M (list snapshot) :=
  db_call E s (gets (fun w => take n (order_by_timestamp_desc (messages w username)))).

(** [messages.limit(n).stream()], read to the end. *)
Definition messages_limit (E : Env) (s : site) (username : option string)
    (n : nat) : M (list snapshot) :=
  db_call E s (gets (fun w => take n (map_to_list (messages w username)))).

(** [messages.add({"user": u, "user_message": m, "ai_response": r,
    "timestamp": SERVER_TIMESTAMP})]: a new document under a fresh
    identifier. *)
Definition messages_add (E : Env) (s : site) (username : option string)
    (user_message ai_response : string) : M unit :=
  db_call E s
    (modify (fun w =>
       let c := messages w username in
       let t := Turn username user_message ai_response (w_now w) in
       log (EAdd username t)
         (tick (with_messages
                  (insert (document_id (w_messages w) username)
                     (<[fresh (dom c) := t]> c)) w)))).

(** The collection of [username] without the documents [refs]. *)
Definition delete_documents (username : option string) (refs : list nat)
    (w : World) : World :=
  match username with
  | Some u =>
      tick (with_messages (insert u (foldr delete (messages w (Some u)) refs)) w)
  | None => tick w
  end.

(** [batch.commit()] of a batch of [batch.delete(ref)]: all the references
    are deleted, or on failure none. *)
Definition batch_commit (E : Env) (s : site) (username : option string)
    (refs : list nat) : M unit :=
  db_call E s
    (modify (fun w => log (ECommit username refs) (delete_documents username refs w))).

(** [doc.reference.delete()] *)
Definition document_delete (E : Env) (s : site) (username : option string)
    (ref : nat) : M unit :=
  db_call E s (modify (delete_documents username [ref])).

(** ** Sessions, requests and responses *)

(** The signed session cookie: [session["authenticated"]],
    [session["username"]], [session["is_admin"]] and the flashed messages,
    as (category, message). A key that is absent reads as [false] or
    [None]. *)
Record Session : Type := {
  s_authenticated : bool;
  s_username : option string;
  s_is_admin : bool;
  s_flashes : list (string * string)
}.

Definition flash (message category : string) (s : Session) : Session :=
  {| s_authenticated := s_authenticated s; s_username := s_username s;
     s_is_admin := s_is_admin s;
     s_flashes := s_flashes s ++ [(category, message)] |}.

Inductive http_method : Type := GET | POST.

Inductive jval : Type :=
| JStr (s : string)
| JBool (b : bool)
| JInt (n : Z).

(** One row of the history a chat page shows. *)
Record display_turn : Type := Display {
  d_user_message : string;
  d_ai_response : string;
  d_timestamp : string
}.

Inductive template_context : Type :=
| NoContext
| ChatContext (username : option string) (history : list display_turn)
| IndexContext (username : option string)
    (history : list (option string * display_turn))
| AdminContext (allowed_usernames : list string) (users : list dict).

Inductive response : Type :=
| Redirect (endpoint : string)
| RenderTemplate (template : string) (context : template_context)
| Jsonify (body : gmap string jval) (status : nat).

(** [jsonify({"error": message}), status] *)
Definition json_error (message : string) (status : nat) : response :=
  Jsonify {[ "error" := JStr message ]} status.

(** ** Prompt assembly (the same text in v3, v3.1, v4 and v5) *)

(** [f"{v}"] *)
Definition format_value (E : Env) (v : pyval) : string :=
  match v with
  | VStr s => s
  | VNone => "None"
  | _ => py_str E v
  end.

Definition type_name (v : pyval) : string :=
  match v with
  | VStr _ => "str"
  | VNone => "NoneType"
  | VTime _ => "DatetimeWithNanoseconds"
  | VSentinel => "Sentinel"
  end.

(** The items of a [join], which must all be strings; [i] counts them. *)
Fixpoint as_strings (i : nat) (parts : list pyval) : result (list string) :=
  match parts with
  | [] => Ok []
  | VStr s :: rest =>
      match as_strings (S i) rest with
      | Ok l => Ok (s :: l)
      | Raise e => Raise e
      end
  | v :: _ =>
      Raise ("sequence item " +:+ pretty i +:+ ": expected str instance, "
             +:+ type_name v +:+ " found")
  end.

Definition system_instruction_parts (E : Env) (user_profile : dict)
    (username : option string) : list pyval :=
  let agent_name := "Alfred" in
  let user_display_name :=
    default (value_of username) (user_profile !! "user_display_name") in
  let system_instruction_parts :=
    [ VStr (format_value E
              (default (VStr "You are a helpful and friendly AI assistant.")
                 (user_profile !! "agent_persona")));
      VStr ("Your name is " +:+ agent_name +:+ ".");
      VStr (format_value E
              (default (VStr "Answer questions and engage in natural conversation.")
                 (user_profile !! "agent_goal"))) ] in
  let system_instruction_parts :=
    if truthy (dict_get user_profile "special_instructions")
    then system_instruction_parts ++ [dict_get user_profile "special_instructions"]
    else system_instruction_parts in
  system_instruction_parts
    ++ [ VStr ("The user you are interacting with is named "
               +:+ format_value E user_display_name +:+ ".") ].

(** [" ".join(part for part in system_instruction_parts if part).strip()] *)
Definition system_instruction_text (E : Env) (user_profile : dict)
    (username : option string) : result string :=
  match as_strings 0 (List.filter truthy
                        (system_instruction_parts E user_profile username)) with
  | Ok parts => Ok (strip (join " " parts))
  | Raise e => Raise e
  end.

(** The loop over the fetched history: each document appends its user side
    and then its model side, when they are not empty. *)
Definition history_entries (docs : list snapshot) : list entry :=
  fold_left
    (fun current_conversation doc =>
       let data := doc.2 in
       let current_conversation :=
         if nonempty (t_user_message data)
         then current_conversation ++ [Entry "user" (t_user_message data)]
         else current_conversation in
       if nonempty (t_ai_response data)
       then current_conversation ++ [Entry "model" (t_ai_response data)]
       else current_conversation)
    docs [].

(** [current_conversation] of [chat], from the documents as streamed. *)
Definition current_conversation (streamed : list snapshot) (user_input : string)
    : list entry :=
  history_entries (reverse streamed) ++ [Entry "user" user_input].

(** ** Profiles *)

Definition default_profile (username : option string) : dict :=
  list_to_map
    [ ("agent_persona", VStr "You are a helpful and friendly AI assistant.");
      ("agent_goal", VStr "Answer questions and engage in natural conversation.");
      ("special_instructions", VStr "");
      ("user_display_name", value_of username);
      ("created_at", VSentinel) ].

(** [get_user_data] of v3.1, v4 and v5. *)
Definition get_user_data (E : Env) (username : option string) : M (option dict) :=
  users_document_get E AtUserGet username.

(** [get_user_profile_data] of v3.1, v4 and v5. *)
Definition get_user_profile_data (E : Env) (username : option string) : M dict :=
  user_doc <- users_document_get E AtUserGet username;;
  match user_doc with
  | Some profile_data =>
      let profile_data := delete "hashed_password" profile_data in
      let profile_data := delete "last_updated_at" profile_data in
      let profile_data := delete "created_at" profile_data in
      ret profile_data
  | None =>
      users_document_set_merge E AtUserSet username (default_profile username);;
      ret (default_profile username)
  end.

(** ** The chat turn (the [try] block of [chat] in v3, v3.1, v4 and v5)

    [get_profile] is the profile read of the iteration and [limit] its
    history window. *)
Definition chat_turn (E : Env) (get_profile : M dict) (limit : nat)
    (username user_input : string) : M response :=
  try_except
    (user_profile <- get_profile;;
     system_instruction_text <-
       lift_result (system_instruction_text E user_profile (Some username));;
     streamed <- messages_recent E AtHistoryStream (Some username) limit;;
     let current_conversation := current_conversation streamed user_input in
     modify (log (EGenerate system_instruction_text current_conversation));;
     ai_response <-
       lift_result (generate_content E system_instruction_text current_conversation);;
     messages_add E AtMessagesAdd (Some username) user_input ai_response;;
     ret (Jsonify {[ "response" := JStr ai_response ]} 200))
    (fun e => ret (json_error e 500)).

(** ** Clearing the history (v3, v3.1, v4 and v5) *)

(** One round of the [while True] loop: the documents of the pending
    stream are put in a batch and counted; the round answers the new
    [deleted_count] and whether the loop goes on with a new stream. *)
Definition clear_round (E : Env) (username : option string)
    (round deleted_count : nat) : M (nat * bool) :=
  docs <- messages_limit E (AtClearStream round) username 50;;
  let batch := docs.*1 in
  let count_in_batch := length docs in
  if count_in_batch =? 0 then ret (deleted_count, false)
  else
    batch_commit E (AtClearCommit round) username batch;;
    let deleted_count := deleted_count + count_in_batch in
    if count_in_batch <? 50 then ret (deleted_count, false)
    else ret (deleted_count, true).

(** A value together with the equation that names it. *)
Definition inspect {A} (a : A) : {b : A | a = b} := exist _ a eq_refl.

(** The loop, from the state at the head of a round. *)
Equations? clear_loop (E : Env) (username : option string)
    (round deleted_count : nat) (w : World) : result nat * World
    by wf (size (messages w username)) lt :=
clear_loop E username round deleted_count w
    with inspect (clear_round E username round deleted_count w) := {
  | exist _ (Ok (d, true), w') _ => clear_loop E username (S round) d w'
  | exist _ (Ok (d, false), w') _ => (Ok d, w')
  | exist _ (Raise e, w') _ => (Raise e, w')
}.
Proof.
  (* a round that goes on has committed a batch of fifty, so fewer
     documents are left *)
  clear clear_loop. rename e into Hround. revert Hround.
  unfold clear_round, messages_limit, batch_commit, db_call, bind, gets,
    modify, raise, ret.
  destruct (fault E (AtClearStream round)); [done|].
  destruct (length (take 50 (map_to_list (messages w username))) =? 0) eqn:H0;
    [done|].
  destruct (fault E (AtClearCommit round)); [done|].
  destruct (length (take 50 (map_to_list (messages w username))) <? 50);
    [done|].
  intros [= _ <-]. apply Nat.eqb_neq in H0.
  destruct username as [u|];
    [|by unfold messages in H0; rewrite map_to_list_empty in H0].
  set (c := messages w (Some u)) in *.
  replace (messages _ (Some u))
    with (foldr delete c (take 50 (map_to_list c)).*1)
    by (unfold messages; simpl; by rewrite lookup_insert_eq).
  assert (forall refs : list nat, foldr delete c refs ⊆ c) as Hsub.
  { induction refs as [|ref refs IH]; simpl; [done|].
    etrans; [apply delete_subseteq|done]. }
  destruct (map_to_list c) as [|[k t] docs] eqn:Hdocs; [done|].
  assert (c !! k = Some t) as Hk
    by (apply elem_of_map_to_list; rewrite Hdocs; left).
  simpl. apply Nat.le_lt_trans with (size (delete k c)).
  - apply map_subseteq_size, delete_mono, Hsub.
  - rewrite map_size_delete, Hk. simpl.
    assert (size c <> 0) by (apply map_size_ne_0_lookup_2 with k; eauto). lia.
Qed.

(** [clear_history] of v3, v3.1, v4 and v5. *)
Definition clear_history (E : Env) (s : Session) : M response :=
  if negb (s_authenticated s) then ret (json_error "Unauthorized" 401)
  else
    let username := s_username s in
    try_except
      (deleted_count <- clear_loop E username 0 0;;
       ret (Jsonify {[ "success" := JBool true;
                       "deleted_count" := JInt (Z.of_nat deleted_count) ]} 200))
      (fun e => ret (json_error e 500)).

(** ** Users (v3.1, v4 and v5 differ in the allow-list only) *)

(** [v.encode('utf-8')], which only a string has. *)
Definition encode (v : pyval) : result string :=
  match v with
  | VStr s => Ok s
  | _ => Raise ("'" +:+ type_name v +:+ "' object has no attribute 'encode'")
  end.

Definition default_profile_parts (username : string) : list (string * pyval) :=
  [ ("agent_persona", VStr "You are a helpful and friendly AI assistant.");
    ("agent_goal", VStr "Answer questions and engage in natural conversation.");
    ("special_instructions", VStr "");
    ("user_display_name", VStr username) ].

(** [create_or_update_user]: the password is hashed first, outside the
    [try], which holds the write alone. The reference [user_doc_ref] is
    built from [db] before the read of [get_user_data] and, like it, in no
    [try]. *)
Definition create_or_update_user (ALLOWED_USERNAMES : list string) (E : Env)
    (username plain_password : string) (user_profile_data : option dict)
    : M (bool * string) :=
  if negb (bool_decide (username ∈ ALLOWED_USERNAMES))
  then ret (false, "Unauthorized username.")
  else
    hashed_password <- lift_result (hashpw E plain_password);;
    existing_profile <- get_user_data E (Some username);;
    let profile_to_set : dict := default ∅ existing_profile in
    let profile_to_set :=
      fold_left
        (fun (profile_to_set : dict) item =>
           match profile_to_set !! item.1 with
           | Some _ => profile_to_set
           | None => <[item.1 := item.2]> profile_to_set
           end)
        (default_profile_parts username) profile_to_set in
    let profile_to_set :=
      match user_profile_data with
      | Some data => data ∪ profile_to_set
      | None => profile_to_set
      end in
    let profile_to_set := <["hashed_password" := VStr hashed_password]> profile_to_set in
    let profile_to_set := <["last_updated_at" := VSentinel]> profile_to_set in
    let profile_to_set :=
      match profile_to_set !! "created_at" with
      | Some _ => profile_to_set
      | None => <["created_at" := VSentinel]> profile_to_set
      end in
    try_except
      (users_document_set E AtUserSet username profile_to_set;;
       ret (true, "User created/updated successfully."))
      (fun e => ret (false, "Firestore error: " +:+ e)).

(** The part of [admin_create_user] that v4 and v5 share: the form, then
    the listing, whose reference [users_ref] is built from [db] before the
    [try] that holds the read of the stream. *)
Definition admin_create_user_page (ALLOWED_USERNAMES : list string) (E : Env)
    (method : http_method) (form : gmap string string) (session : Session)
    : M (response * Session) :=
  session <-
    match method with
    | POST =>
        let username := default "" (form !! "username") in
        let password := default "" (form !! "password") in
        if nonempty username && nonempty password then
          outcome <- create_or_update_user ALLOWED_USERNAMES E username password None;;
          let '(success, message) := outcome in
          if success
          then ret (flash ("User '" +:+ username +:+ "' created/updated: " +:+ message)
                      "success" session)
          else ret (flash ("Error creating/updating user '" +:+ username +:+ "': "
                           +:+ message) "danger" session)
        else ret (flash "Username and password are required." "danger" session)
    | GET => ret session
    end;;
  db_handle E;;
  listing <-
    try_except
      (docs <- users_stream E AtUsersStream;;
       ret (map (fun data : dict => delete "hashed_password" data) docs, session))
      (fun e => ret ([], flash ("Error fetching user list: " +:+ e) "danger" session));;
  let '(user_list, session) := listing in
  ret (RenderTemplate "admin_create_user.html"
         (AdminContext ALLOWED_USERNAMES user_list), session).

(** The rows of the chat page, from the documents in display order. *)
Definition display_rows (E : Env) (docs : list snapshot) : list display_turn :=
  map (fun doc =>
         let data := doc.2 in
         Display (t_user_message data) (t_ai_response data)
           (strftime_local E (t_timestamp data)))
      docs.

(** [chat_page] of v4 and v5; [template] is index.html in v4 and chat.html
    in v5. The query [messages_ref] is built from [db] before the [try],
    which holds the read of the stream. *)
Definition chat_page_of (template : string) (E : Env) (session : Session)
    : M (response * Session) :=
  if negb (s_authenticated session) then ret (Redirect "login", session)
  else
    let username := s_username session in
    db_handle E;;
    loaded <-
      try_except
        (streamed <- messages_recent E AtHistoryStream username 10;;
         ret (display_rows E (reverse streamed), session))
        (fun e => ret ([], flash "Error loading chat history." "danger" session));;
    let '(messages, session) := loaded in
    ret (RenderTemplate template (ChatContext username messages), session).

(** ** Pages with keyword arguments

    The login page of v2 and v3, the settings page and the pages of v5
    render a template with keyword arguments. *)

(** One keyword argument of [render_template]: a value, or a profile. *)
Inductive template_arg : Type :=
| ArgValue (v : pyval)
| ArgProfile (user_profile : dict).

Inductive page : Type :=
| PageRedirect (endpoint : string)
| PageTemplate (template : string) (kwargs : gmap string template_arg).

(** ** Passwords from the process environment (v2 and v3) *)

(** The process at start-up: [os.getenv] and [str.upper]. *)
Record Process : Type := {
  getenv : string -> option string;
  upper : string -> string
}.

(** The loop that fills [USERS]: a known username gets the password of its
    variable, when the variable is set and not empty. *)
Definition load_users (P : Process) (KNOWN_USERNAMES : list string)
    : gmap string string :=
  fold_left
    (fun (USERS : gmap string string) username =>
       let env_var := "USER_" +:+ upper P username +:+ "_PASSWORD" in
       match getenv P env_var with
       | Some password =>
           if nonempty password then <[username := password]> USERS else USERS
       | None => USERS
       end)
    KNOWN_USERNAMES ∅.

(** ** Updates of a document *)

(** How the database answers an [update]: the failure of the call, if the
    environment plans one, and the message of the [NotFound] that it raises
    for a document that does not exist. *)
Record UpdateEnv : Type := {
  update_fault : option string;
  no_document : string -> string
}.

(** [db.collection("users").document(id).update(data)]: the fields of
    [data] are written into the document, which must exist; its other
    fields stay. *)
Definition users_document_update (U : UpdateEnv) (id : option string)
    (data : dict) : M unit :=
  match update_fault U with
  | Some e => raise e
  | None =>
      fun w =>
        let u := document_id (w_users w) id in
        match w_users w !! u with
        | Some old =>
            (Ok tt, tick (with_users (insert u (resolve (w_now w) data ∪ old)) w))
        | None => (Raise (no_document U u), w)
        end
  end.

(** The same for default/<id>/user_data/profile. *)
Definition profile_document_update (U : UpdateEnv) (id : option string)
    (data : dict) : M unit :=
  match update_fault U with
  | Some e => raise e
  | None =>
      fun w =>
        let u := document_id (w_profiles w) id in
        match w_profiles w !! u with
        | Some old =>
            (Ok tt, tick (with_profiles (insert u (resolve (w_now w) data ∪ old)) w))
        | None => (Raise (no_document U u), w)
        end
  end.

(** ** Settings (v3.1, v4 and v5)

    [E] is the environment at the profile read on entry, [U] answers the
    update, and [E'] is the environment at the read that follows it. The
    reference [user_doc_ref] is built, before the [try], from the [db] that
    the read on entry has used. *)
Definition agent_settings (E : Env) (U : UpdateEnv) (E' : Env)
    (method : http_method) (form : gmap string string) (session : Session)
    : M (page * Session) :=
  if negb (s_authenticated session) then ret (PageRedirect "login", session)
  else
    let username := s_username session in
    user_profile <- get_user_profile_data E username;;
    match method with
    | POST =>
        let updated_persona := strip (default "" (form !! "agent_persona")) in
        let updated_goal := strip (default "" (form !! "agent_goal")) in
        let updated_instructions :=
          strip (default "" (form !! "special_instructions")) in
        let updated_display_name :=
          strip (default "" (form !! "user_display_name")) in
        try_except
          (users_document_update U username
             {[ "agent_persona" := VStr updated_persona;
                "agent_goal" := VStr updated_goal;
                "special_instructions" := VStr updated_instructions;
                "user_display_name" := VStr updated_display_name ]};;
           user_profile <- get_user_profile_data E' username;;
           ret (PageTemplate "settings.html"
                  {[ "user_profile" := ArgProfile user_profile;
                     "username" := ArgValue (value_of username) ]},
                flash "Settings saved!" "success" session))
          (fun e =>
             ret (PageTemplate "settings.html"
                    {[ "user_profile" := ArgProfile user_profile;
                       "username" := ArgValue (value_of username) ]},
                  flash ("Failed to save settings: " +:+ e) "danger" session))
    | GET =>
        ret (PageTemplate "settings.html"
               {[ "user_profile" := ArgProfile user_profile;
                  "username" := ArgValue (value_of username) ]},
             session)
    end.

(** ** Second iteration *)

Module V2.

Definition KNOWN_USERNAMES : list string := ["replace this"].

Definition USERS (P : Process) : gmap string string :=
  load_users P KNOWN_USERNAMES.

Definition login (P : Process) (method : http_method) (form : gmap string string)
    (session : Session) : page * Session :=
  match method with
  | POST =>
      let username := form !! "username" in
      let password := form !! "password" in
      match username ≫= (fun u => USERS P !! u) with
      | Some stored =>
          if bool_decide (Some stored = password) then
            (PageRedirect "chat_page",
             {| s_authenticated := true; s_username := username;
                s_is_admin := s_is_admin session;
                s_flashes := s_flashes session |})
          else
            (PageTemplate "login.html"
               {[ "error" := ArgValue (VStr "Invalid username or password.") ]},
             session)
      | None =>
          (PageTemplate "login.html"
             {[ "error" := ArgValue (VStr "Invalid username or password.") ]},
           session)
      end
  | GET => (PageTemplate "login.html" ∅, session)
  end.

Definition chat_page (E : Env) (session : Session) : M (response * Session) :=
  if negb (s_authenticated session) then ret (Redirect "login", session)
  else
    let username := s_username session in
    streamed <- messages_recent E AtHistoryStream username 10;;
    let messages :=
      map (fun doc : snapshot =>
             let data := doc.2 in
             (t_user data,
              Display (t_user_message data) (t_ai_response data)
                (strftime E (t_timestamp data))))
          (reverse streamed) in
    ret (RenderTemplate "index.html" (IndexContext username messages), session).

(** [chat]: [generate] is the model called with the message alone, as
    [contents], without configuration. *)
Definition chat (generate : string -> result string) (E : Env)
    (json : gmap string string) (session : Session) : M response :=
  if negb (s_authenticated session) then ret (json_error "Unauthorized" 401)
  else
    let user_input := default "" (json !! "message") in
    let username := default "unknown_user" (s_username session) in
    try_except
      (ai_response <- lift_result (generate user_input);;
       messages_add E AtMessagesAdd (Some username) user_input ai_response;;
       ret (Jsonify {[ "response" := JStr ai_response ]} 200))
      (fun e => ret (json_error e 500)).

(** [doc.reference.delete()] for each streamed document, one call each. *)
Fixpoint delete_each (E : Env) (username : option string) (i : nat)
    (refs : list nat) : M unit :=
  match refs with
  | [] => ret tt
  | ref :: refs =>
      document_delete E (AtClearCommit i) username ref;;
      delete_each E username (S i) refs
  end.

Definition clear_history (E : Env) (session : Session) : M response :=
  if negb (s_authenticated session) then ret (json_error "Unauthorized" 401)
  else
    let username := s_username session in
    try_except
      (docs <- db_call E (AtClearStream 0)
                 (gets (fun w => map_to_list (messages w username)));;
       delete_each E username 0 docs.*1;;
       ret (Jsonify {[ "success" := JBool true ]} 200))
      (fun e => ret (json_error e 500)).

Definition logout (session : Session) : page * Session :=
  (PageRedirect "login",
   {| s_authenticated := false; s_username := None;
      s_is_admin := s_is_admin session; s_flashes := s_flashes session |}).

End V2.

(** ** Third iteration *)

Module V3.

(** [get_or_create_user_profile], on default/<username>/user_data/profile. *)
Definition get_or_create_user_profile (E : Env) (username : string) : M dict :=
  profile_doc <- profile_document_get E AtProfileGet username;;
  match profile_doc with
  | Some d => ret d
  | None =>
      profile_document_set E AtProfileSet username (default_profile (Some username));;
      ret (default_profile (Some username))
  end.

Definition chat (E : Env) (json : gmap string string) (session : Session)
    : M response :=
  if negb (s_authenticated session) then ret (json_error "Unauthorized" 401)
  else
    let user_input := default "" (json !! "message") in
    let username := default "unknown_user" (s_username session) in
    chat_turn E (get_or_create_user_profile E username) 10 username user_input.

Definition KNOWN_USERNAMES : list string := ["replace this"].

Definition USERS (P : Process) : gmap string string :=
  load_users P KNOWN_USERNAMES.

Definition login (P : Process) (E : Env) (method : http_method)
    (form : gmap string string) (session : Session) : M (page * Session) :=
  match method with
  | POST =>
      let username := form !! "username" in
      let password := form !! "password" in
      match username with
      | Some u =>
          match USERS P !! u with
          | Some stored =>
              if bool_decide (Some stored = password) then
                let session :=
                  {| s_authenticated := true; s_username := username;
                     s_is_admin := s_is_admin session;
                     s_flashes := s_flashes session |} in
                get_or_create_user_profile E u;;
                ret (PageRedirect "chat_page", session)
              else
                ret (PageTemplate "login.html"
                       {[ "error" := ArgValue (VStr "Invalid username or password.") ]},
                     session)
          | None =>
              ret (PageTemplate "login.html"
                     {[ "error" := ArgValue (VStr "Invalid username or password.") ]},
                   session)
          end
      | None =>
          ret (PageTemplate "login.html"
                 {[ "error" := ArgValue (VStr "Invalid username or password.") ]},
               session)
      end
  | GET => ret (PageTemplate "login.html" ∅, session)
  end.

(** [chat_page]: a failure while the history is read is passed over, and
    the page shows no history. *)
Definition chat_page (E : Env) (session : Session) : M (response * Session) :=
  if negb (s_authenticated session) then ret (Redirect "login", session)
  else
    let username := s_username session in
    messages <-
      try_except
        (streamed <- messages_recent E AtHistoryStream username 10;;
         ret (display_rows E (reverse streamed)))
        (fun _ => ret []);;
    ret (RenderTemplate "index.html" (ChatContext username messages), session).

Definition logout (session : Session) : page * Session :=
  (PageRedirect "login",
   {| s_authenticated := false; s_username := None;
      s_is_admin := s_is_admin session; s_flashes := s_flashes session |}).

(** [get_or_create_user_profile(session.get("username"))]: without a
    username, [document(None)] names a new document, which has no profile
    yet. *)
Definition get_or_create_user_profile_of (E : Env) (username : option string)
    : M dict :=
  match username with
  | Some u => get_or_create_user_profile E u
  | None =>
      db_call E AtProfileGet (ret tt);;
      db_call E AtProfileSet
        (modify (fun w =>
           tick (with_profiles
                   (insert (fresh (dom (w_profiles w)))
                      (resolve (w_now w) (default_profile None)))
                   w)));;
      ret (default_profile None)
  end.

Definition agent_settings (E : Env) (U : UpdateEnv) (method : http_method)
    (form : gmap string string) (session : Session) : M (page * Session) :=
  if negb (s_authenticated session) then ret (PageRedirect "login", session)
  else
    let username := s_username session in
    user_profile <- get_or_create_user_profile_of E username;;
    match method with
    | POST =>
        let updated_persona := strip (default "" (form !! "agent_persona")) in
        let updated_goal := strip (default "" (form !! "agent_goal")) in
        let updated_instructions :=
          strip (default "" (form !! "special_instructions")) in
        try_except
          (profile_document_update U username
             {[ "agent_persona" := VStr updated_persona;
                "agent_goal" := VStr updated_goal;
                "special_instructions" := VStr updated_instructions ]};;
           ret (PageTemplate "settings.html"
                  {[ "user_profile" := ArgProfile user_profile;
                     "success_message" := ArgValue (VStr "Settings saved!");
                     "username" := ArgValue (value_of username) ]},
                session))
          (fun _ =>
             ret (PageTemplate "settings.html"
                    {[ "user_profile" := ArgProfile user_profile;
                       "error_message" := ArgValue (VStr "Failed to save settings.");
                       "username" := ArgValue (value_of username) ]},
                  session))
    | GET =>
        ret (PageTemplate "settings.html"
               {[ "user_profile" := ArgProfile user_profile;
                  "username" := ArgValue (value_of username) ]},
             session)
    end.

End V3.

(** ** Fourth iteration *)

Module V4.

Definition ALLOWED_USERNAMES : list string := ["change this"].

Definition login (E : Env) (method : http_method) (form : gmap string string)
    (session : Session) : M (response * Session) :=
  if s_authenticated session then ret (Redirect "chat_page", session)
  else
    match method with
    | POST =>
        let username := form !! "username" in
        let password := form !! "password" in
        user_data <- get_user_data E username;;
        match user_data ≫= (fun d : dict => d !! "hashed_password") with
        | Some hashed_password =>
            password_bytes <- lift_result (encode (value_of password));;
            hash_bytes <- lift_result (encode hashed_password);;
            matches <- lift_result (checkpw E password_bytes hash_bytes);;
            if (matches : bool) then
              let session :=
                {| s_authenticated := true; s_username := username;
                   s_is_admin := s_is_admin session;
                   s_flashes := s_flashes session |} in
              ret (Redirect "chat_page",
                   flash "Logged in successfully!" "success" session)
            else
              ret (RenderTemplate "login.html" NoContext,
                   flash "Invalid username or password." "danger" session)
        | None =>
            ret (RenderTemplate "login.html" NoContext,
                 flash "Invalid username or password." "danger" session)
        end
    | GET => ret (RenderTemplate "login.html" NoContext, session)
    end.

Definition admin_create_user (E : Env) (method : http_method)
    (form : gmap string string) (session : Session) : M (response * Session) :=
  admin_create_user_page ALLOWED_USERNAMES E method form session.

Definition chat_page : Env -> Session -> M (response * Session) :=
  chat_page_of "index.html".

Definition chat (E : Env) (json : gmap string string) (session : Session)
    : M response :=
  if negb (s_authenticated session) then ret (json_error "Unauthorized" 401)
  else
    let user_input := default "" (json !! "message") in
    let username := default "unknown_user" (s_username session) in
    if negb (client_ready E)
    then ret (json_error "AI service not available. Please check server logs." 503)
    else
      chat_turn E (get_user_profile_data E (Some username)) 10 username user_input.

Definition logout (session : Session) : page * Session :=
  let session :=
    {| s_authenticated := false; s_username := None;
       s_is_admin := s_is_admin session; s_flashes := s_flashes session |} in
  (PageRedirect "login", flash "You have been logged out." "info" session).

End V4.

(** ** Fifth iteration *)

Module V5.

Definition ALLOWED_USERNAMES : list string := ["add here"].

Definition ADMIN_USERNAMES : list string := ["admin"].

Definition login (E : Env) (method : http_method) (form : gmap string string)
    (session : Session) : M (response * Session) :=
  if s_authenticated session then ret (Redirect "chat_page", session)
  else
    match method with
    | POST =>
        let username := form !! "username" in
        let password := form !! "password" in
        user_data <- get_user_data E username;;
        match user_data ≫= (fun d : dict => d !! "hashed_password") with
        | Some hashed_password =>
            password_bytes <- lift_result (encode (value_of password));;
            hash_bytes <- lift_result (encode hashed_password);;
            matches <- lift_result (checkpw E password_bytes hash_bytes);;
            if (matches : bool) then
              let session :=
                {| s_authenticated := true; s_username := username;
                   s_is_admin :=
                     match username with
                     | Some u =>
                         if bool_decide (u ∈ ADMIN_USERNAMES) then true
                         else s_is_admin session
                     | None => s_is_admin session
                     end;
                   s_flashes := s_flashes session |} in
              ret (Redirect "chat_page",
                   flash "Logged in successfully!" "success" session)
            else
              ret (RenderTemplate "login.html" NoContext,
                   flash "Invalid username or password." "danger" session)
        | None =>
            ret (RenderTemplate "login.html" NoContext,
                 flash "Invalid username or password." "danger" session)
        end
    | GET => ret (RenderTemplate "login.html" NoContext, session)
    end.

Definition chat_page : Env -> Session -> M (response * Session) :=
  chat_page_of "chat.html".

Definition chat (E : Env) (json : gmap string string) (session : Session)
    : M response :=
  if negb (s_authenticated session) then ret (json_error "Unauthorized" 401)
  else
    let user_input := default "" (json !! "message") in
    let username := default "unknown_user" (s_username session) in
    if negb (client_ready E)
    then ret (json_error "AI service not available." 503)
    else
      chat_turn E (get_user_profile_data E (Some username)) 10 username user_input.

(** [transcribe_and_chat]: a block answers [inl r] where the source returns
    [r] from the handler, and [inr x] where it goes on with [x]. *)
Definition transcribe_and_chat (E : Env) (files : gmap string string)
    (session : Session) : M response :=
  if negb (s_authenticated session) then ret (json_error "Unauthorized" 401)
  else
    let username := s_username session in
    match files !! "audio_data" with
    | None => ret (json_error "No audio file found" 400)
    | Some audio_content =>
        stt <-
          try_except
            (modify (log (ERecognize audio_content));;
             stt_response <- lift_result (recognize E audio_content);;
             match stt_response with
             | (transcript :: _) :: _ => ret (inr transcript)
             | _ => ret (inl (json_error "Could not understand audio" 400))
             end)
            (fun e => ret (inl (json_error ("Speech-to-Text failed: " +:+ e) 500)));;
        match stt with
        | inl r => ret r
        | inr transcript =>
            ai <-
              try_except
                (user_profile <- get_user_profile_data E username;;
                 system_instruction_text <-
                   lift_result (system_instruction_text E user_profile username);;
                 let current_conversation := [Entry "user" transcript] in
                 modify (log (EGenerate system_instruction_text current_conversation));;
                 ai_response_text <-
                   lift_result
                     (generate_content E system_instruction_text current_conversation);;
                 messages_add E AtMessagesAdd username transcript ai_response_text;;
                 ret (inr ai_response_text))
                (fun e => ret (inl (json_error ("AI chat failed: " +:+ e) 500)));;
            match ai with
            | inl r => ret r
            | inr ai_response_text =>
                try_except
                  (modify (log (ESynthesize ai_response_text));;
                   audio_content <- lift_result (synthesize_speech E ai_response_text);;
                   let audio_base64 := b64encode E audio_content in
                   ret (Jsonify {[ "user_transcript" := JStr transcript;
                                   "ai_response_text" := JStr ai_response_text;
                                   "ai_response_audio" := JStr audio_base64 ]} 200))
                  (fun e => ret (json_error ("Text-to-Speech failed: " +:+ e) 500))
            end
        end
    end.

Definition admin_create_user (E : Env) (method : http_method)
    (form : gmap string string) (session : Session) : M (response * Session) :=
  if negb (s_is_admin session)
  then ret (Redirect "chat_page",
            flash "You do not have permission to access this page." "danger" session)
  else admin_create_user_page ALLOWED_USERNAMES E method form session.

Definition landing_page (session : Session) : page * Session :=
  if s_authenticated session then (PageRedirect "chat_page", session)
  else (PageTemplate "landing.html" ∅, session).

Definition audio_chat_page (session : Session) : page * Session :=
  if negb (s_authenticated session) then (PageRedirect "login", session)
  else
    let username := s_username session in
    (PageTemplate "audiochat.html" {[ "username" := ArgValue (value_of username) ]},
     session).

Definition logout (session : Session) : page * Session :=
  let session :=
    {| s_authenticated := false; s_username := None; s_is_admin := false;
       s_flashes := s_flashes session |} in
  (PageRedirect "login", flash "You have been logged out." "info" session).

End V5.

(** ** The specification's wording, for comparison with the code *)

(** The text a profile holds under [k], when it holds text there. *)
Definition text_field (profile : dict) (k : string) : option string :=
  match profile !! k with
  | Some (VStr s) => Some s
  | _ => None
  end.

(** The four text fields of an Agent Profile hold text where present. *)
Definition text_profile (profile : dict) : Prop :=
  forall k v,
    k ∈ ["agent_persona"; "agent_goal"; "special_instructions"; "user_display_name"] ->
    profile !! k = Some v -> exists s, v = VStr s.

(** Section 4.2: persona or default, the assistant name sentence, goal or
    default, the special instructions if non-empty, the sentence naming the
    human by display name or username; the non-empty parts joined by single
    spaces, trimmed. *)
Definition spec_system_instruction (persona goal special display : option string)
    (username : string) : string :=
  strip
    (join " "
       (List.filter nonempty
          ([ default "You are a helpful and friendly AI assistant." persona;
             "Your name is Alfred.";
             default "Answer questions and engage in natural conversation." goal ]
           ++ match special with
              | Some s => if nonempty s then [s] else []
              | None => []
              end
           ++ [ "The user you are interacting with is named "
                +:+ default username display +:+ "." ]))).

(** Section 4.2: the two entries of a stored turn, each when its side is
    not empty. *)
Definition spec_flatten (t : turn) : list entry :=
  (if nonempty (t_user_message t) then [Entry "user" (t_user_message t)] else [])
  ++ (if nonempty (t_ai_response t) then [Entry "model" (t_ai_response t)] else []).

(** Section 4.2: the most recent [K] turns, read in descending time order,
    reversed to ascending, flattened, then the incoming message. *)
Definition spec_turn_list (K : nat) (stored : gmap nat turn) (incoming : string)
    : list entry :=
  let descending := take K (order_by_timestamp_desc stored) in
  let ascending := reverse descending in
  flat_map (fun doc : snapshot => spec_flatten doc.2) ascending
  ++ [Entry "user" incoming].

(** The model calls of a trace: system instruction and turn list. *)
Definition generate_calls (trace : list event) : list (string * list entry) :=
  omap (fun e => match e with
                 | EGenerate sys contents => Some (sys, contents)
                 | _ => None
                 end) trace.

(** A JSON error response: the body is [{"error": message}] and the status
    is not 200. *)
Definition error_response (r : response) : Prop :=
  exists message status, r = json_error message status /\ status <> 200.

(** ** Outcomes and sample data, for the statements below *)

(** A profile read leaves the messages and the trace alone. *)
Definition quiet_read (get_profile : M dict) : Prop :=
  forall w r w1, get_profile w = (r, w1) ->
    w_messages w1 = w_messages w /\ w_trace w1 = w_trace w.

(** What a run of [chat] leaves behind: a success response and one more
    turn for the user, or an error response and the stored turns as they
    were. *)
Definition one_turn_per_success (E : Env) (session : Session) (w : World)
    (run : result response * World) : Prop :=
  let u := default "unknown_user" (s_username session) in
  exists r w',
    run = (Ok r, w') /\
    (((exists ai, r = Jsonify {[ "response" := JStr ai ]} 200)
      /\ s_authenticated session = true
      /\ turn_count w' u = S (turn_count w u)
      /\ (forall u', u' <> u -> messages w' (Some u') = messages w (Some u')))
     \/ (error_response r /\ w_messages w' = w_messages w))
    /\ (is_Some (fault E AtMessagesAdd) -> error_response r).

(** What a run of [chat] sends to the model: nothing, with an error
    response, or one call whose turn list is the specification's. *)
Definition sends_turn_list (K : nat) (json : gmap string string)
    (session : Session) (w : World) (run : result response * World) : Prop :=
  let u := default "unknown_user" (s_username session) in
  let incoming := default "" (json !! "message") in
  exists r w',
    run = (Ok r, w') /\
    ((error_response r
      /\ generate_calls (w_trace w') = generate_calls (w_trace w))
     \/ (exists sys,
          s_authenticated session = true
          /\ generate_calls (w_trace w')
             = generate_calls (w_trace w)
               ++ [(sys, spec_turn_list K (messages w (Some u)) incoming)])).

(** What a run of [chat] does with an empty incoming message: any model
    call ends with the empty user entry, and a success stores a turn whose
    user text is empty. *)
Definition empty_message_run (session : Session) (w : World)
    (run : result response * World) : Prop :=
  let u := default "unknown_user" (s_username session) in
  exists r w',
    run = (Ok r, w') /\
    ((error_response r /\ w_messages w' = w_messages w
      /\ (generate_calls (w_trace w') = generate_calls (w_trace w)
          \/ exists sys prior,
               generate_calls (w_trace w')
               = generate_calls (w_trace w) ++ [(sys, prior ++ [Entry "user" ""])]))
     \/ (exists sys prior ai now,
           r = Jsonify {[ "response" := JStr ai ]} 200
           /\ generate_calls (w_trace w')
              = generate_calls (w_trace w) ++ [(sys, prior ++ [Entry "user" ""])]
           /\ messages w' (Some u)
              = <[fresh (dom (messages w (Some u))) := Turn (Some u) "" ai now]>
                  (messages w (Some u)))).

(** The stored user document of [u], if there is one, holds text in the
    profile fields. *)
Definition stored_profile_is_text (w : World) (u : string) : Prop :=
  forall d, w_users w !! u = Some d -> text_profile d.

(** The services a chat turn of v4 and v5 calls all answer. *)
Definition services_answer (E : Env) : Prop :=
  client_ready E = true
  /\ fault E AtUserGet = None /\ fault E AtUserSet = None
  /\ fault E AtHistoryStream = None /\ fault E AtMessagesAdd = None
  /\ forall sys contents, is_ok (generate_content E sys contents) = true.

(** No database call of the clearing loop fails. *)
Definition clears_reliably (E : Env) : Prop :=
  forall i, fault E (AtClearStream i) = None /\ fault E (AtClearCommit i) = None.

(** The batches a run committed for [u]: the trace grew by these commits. *)
Definition committed (u : string) (batches : list (list nat)) (w w' : World) : Prop :=
  w_trace w' = w_trace w ++ (ECommit (Some u) <$> batches).

(** The credential stored for a submitted username: the [hashed_password]
    field of its user document. *)
Definition stored_credential (w : World) (username : option string)
    : option pyval :=
  (username ≫= fun u => w_users w !! u) ≫= fun d : dict => d !! "hashed_password".

(** The answer to a failed login: the login page again, with the generic
    message flashed, the session otherwise as it was. *)
Definition login_failure (session : Session) (w : World)
    : result (response * Session) * World :=
  (Ok (RenderTemplate "login.html" NoContext,
       flash "Invalid username or password." "danger" session), w).

(** The answer to a successful login of [u]: a redirect to the chat page
    and a session of [u]. *)
Definition login_success (u : string) (w : World)
    (run : result (response * Session) * World) : Prop :=
  exists session',
    run = (Ok (Redirect "chat_page", session'), w)
    /\ s_authenticated session' = true
    /\ s_username session' = Some u.

(** The four documented profile fields. *)
Definition profile_fields : list string :=
  ["agent_persona"; "agent_goal"; "special_instructions"; "user_display_name"].

(** The documented defaults of [username]. *)
Definition documented_defaults (username : string) : dict :=
  list_to_map (default_profile_parts username).

(** A sample environment: every service answers and no call fails; its
    bcrypt refuses a password of more than 72 characters. *)
Definition sample_env : Env := {|
  py_str := fun _ => "<object>";
  strftime := fun t => pretty t;
  strftime_local := fun t => pretty t;
  checkpw := fun password hash =>
    if 72 <? String.length password
    then Raise "password cannot be longer than 72 bytes"
    else Ok (String.eqb hash ("bcrypt:" +:+ password));
  hashpw := fun password =>
    if 72 <? String.length password
    then Raise "password cannot be longer than 72 bytes"
    else Ok ("bcrypt:" +:+ password);
  client_ready := true;
  generate_content := fun _ _ => Ok "At your service.";
  recognize := fun _ => Ok [["hello"]];
  synthesize_speech := fun text => Ok ("mp3:" +:+ text);
  b64encode := fun audio => "base64:" +:+ audio;
  db_missing := None;
  call_fault := fun _ => None
|}.

(** The database before anything was stored. *)
Definition empty_world : World :=
  {| w_users := ∅; w_profiles := ∅; w_messages := ∅; w_now := 0; w_trace := [] |}.

(** Two reads in a row; the second starts where the first ended. *)
Definition read_twice (read : M dict) (w : World) : result dict * result dict :=
  let first := read w in ((first.1), (read first.2).1).

(** What a handler iterates over after a read of size [N]:
    [reversed(list(query.limit(N).stream()))]. *)
Definition history_read (N : nat) (c : gmap nat turn) : list snapshot :=
  reverse (take N (order_by_timestamp_desc c)).

(** Timestamps do not decrease from [x] to [y]. *)
Definition not_later (x y : snapshot) : Prop :=
  (t_timestamp x.2 <= t_timestamp y.2)%Z.

(** Eleven turns of alice, at the times 1 to 11, and her session. *)
Definition eleven_turns : World :=
  {| w_users := ∅; w_profiles := ∅;
     w_messages :=
       {[ "alice" :=
            list_to_map
              (map (fun i => (i, Turn (Some "alice") ("message " +:+ pretty i)
                                    ("reply " +:+ pretty i) (Z.of_nat i)))
                   (seq 1 11)) ]};
     w_now := 12; w_trace := [] |}.

Definition alice_session : Session :=
  {| s_authenticated := true; s_username := Some "alice"; s_is_admin := false;
     s_flashes := [] |}.

(** What serving the admin page does, under either allow-list: the users
    collection stays, or the document of the submitted, allow-listed
    username is replaced by one that carries the new hash; and the users it
    lists carry no [hashed_password]. *)
Definition admin_page_served (ALLOWED_USERNAMES : list string) (E : Env)
    (form : gmap string string) (w : World)
    (run : result (response * Session) * World) : Prop :=
  (w_users run.2 = w_users w
   \/ exists u password hash doc,
        form !! "username" = Some u /\ form !! "password" = Some password
        /\ u ∈ ALLOWED_USERNAMES
        /\ hashpw E password = Ok hash
        /\ w_users run.2 = <[u := doc]> (w_users w)
        /\ doc !! "hashed_password" = Some (VStr hash))
  /\ w_profiles run.2 = w_profiles w
  /\ w_messages run.2 = w_messages w
  /\ (forall r session',
        run.1 = Ok (r, session') ->
        exists users,
          r = RenderTemplate "admin_create_user.html"
                (AdminContext ALLOWED_USERNAMES users)
          /\ Forall (fun data : dict => data !! "hashed_password" = None) users).

(** A session that never logged in. *)
Definition anonymous : Session :=
  {| s_authenticated := false; s_username := None; s_is_admin := false;
     s_flashes := [] |}.

(** [results[0].alternatives[0].transcript], when there is one. *)
Definition first_transcript (stt_response : list (list string)) : option string :=
  match stt_response with
  | (transcript :: _) :: _ => Some transcript
  | _ => None
  end.

(** The sample environment with the model failing. *)
Definition model_down : Env := {|
  py_str := py_str sample_env;
  strftime := strftime sample_env;
  strftime_local := strftime_local sample_env;
  checkpw := checkpw sample_env;
  hashpw := hashpw sample_env;
  client_ready := true;
  generate_content := fun _ _ => Raise "503 unavailable";
  recognize := recognize sample_env;
  synthesize_speech := synthesize_speech sample_env;
  b64encode := b64encode sample_env;
  db_missing := None;
  call_fault := call_fault sample_env
|}.

(** The sample environment with the write of the turn failing. *)
Definition store_down : Env := {|
  py_str := py_str sample_env;
  strftime := strftime sample_env;
  strftime_local := strftime_local sample_env;
  checkpw := checkpw sample_env;
  hashpw := hashpw sample_env;
  client_ready := true;
  generate_content := generate_content sample_env;
  recognize := recognize sample_env;
  synthesize_speech := synthesize_speech sample_env;
  b64encode := b64encode sample_env;
  db_missing := None;
  call_fault := fun s => match s with
                         | AtMessagesAdd => Some "503 unavailable"
                         | _ => None
                         end
|}.

(** The stage at which a voice turn ends, with its answer, the calls made
    and the turns stored: speech-to-text; the chat block before the model
    call; the model call or the write of the turn; text-to-speech; or the
    end, with the three results. *)
Definition voice_outcome (E : Env) (audio : string) (session : Session)
    (w : World) (run : result response * World) : Prop :=
  let u := s_username session in
  exists r w',
    run = (Ok r, w') /\
    ((exists e,
        recognize E audio = Raise e
        /\ r = json_error ("Speech-to-Text failed: " +:+ e) 500
        /\ w_trace w' = w_trace w ++ [ERecognize audio]
        /\ w_messages w' = w_messages w)
     \/ (exists stt,
        recognize E audio = Ok stt /\ first_transcript stt = None
        /\ r = json_error "Could not understand audio" 400
        /\ w_trace w' = w_trace w ++ [ERecognize audio]
        /\ w_messages w' = w_messages w)
     \/ (exists stt transcript,
        recognize E audio = Ok stt /\ first_transcript stt = Some transcript
        /\ ((exists e,
               r = json_error ("AI chat failed: " +:+ e) 500
               /\ w_trace w' = w_trace w ++ [ERecognize audio]
               /\ w_messages w' = w_messages w)
            \/ (exists sys e,
               r = json_error ("AI chat failed: " +:+ e) 500
               /\ w_trace w'
                  = w_trace w
                    ++ [ERecognize audio; EGenerate sys [Entry "user" transcript]]
               /\ w_messages w' = w_messages w
               /\ (generate_content E sys [Entry "user" transcript] = Raise e
                   \/ (is_ok (generate_content E sys [Entry "user" transcript]) = true
                       /\ fault E AtMessagesAdd = Some e)))
            \/ (exists sys ai now,
               let t := Turn u transcript ai now in
               generate_content E sys [Entry "user" transcript] = Ok ai
               /\ fault E AtMessagesAdd = None
               /\ w_trace w'
                  = w_trace w
                    ++ [ERecognize audio; EGenerate sys [Entry "user" transcript];
                        EAdd u t; ESynthesize ai]
               /\ w_messages w'
                  = <[document_id (w_messages w) u :=
                        <[fresh (dom (messages w u)) := t]> (messages w u)]>
                      (w_messages w)
               /\ ((exists e,
                      synthesize_speech E ai = Raise e
                      /\ r = json_error ("Text-to-Speech failed: " +:+ e) 500)
                   \/ (exists speech,
                      synthesize_speech E ai = Ok speech
                      /\ r = Jsonify
                               {[ "user_transcript" := JStr transcript;
                                  "ai_response_text" := JStr ai;
                                  "ai_response_audio" := JStr (b64encode E speech) ]}
                               200)))))).

(** A profile with a persona of its own, empty special instructions and no
    goal and no display name. *)
Definition butler_profile : dict :=
  {[ "agent_persona" := VStr "You are a discreet butler.";
     "special_instructions" := VStr "" ]}.

(** The database with the credential of alice, whose password is secret. *)
Definition alice_registered : World :=
  {| w_users := {[ "alice" := {[ "hashed_password" := VStr "bcrypt:secret";
                                 "user_display_name" := VStr "Alice" ]} ]};
     w_profiles := ∅; w_messages := ∅; w_now := 0; w_trace := [] |}.

(** The session of bob, who is logged in. *)
Definition bob_session : Session :=
  {| s_authenticated := true; s_username := Some "bob"; s_is_admin := false;
     s_flashes := [] |}.

(** A session with the admin flag. *)
Definition admin_session : Session :=
  {| s_authenticated := true; s_username := Some "admin"; s_is_admin := true;
     s_flashes := [] |}.

(** ** Outcomes of the further properties *)

(** The document that a successful [create_or_update_user] writes: the hash
    and the time of the update, over the fields given, over the stored
    document, over the defaults. *)
Definition written_user_document (hashed_password : string) (now : Z)
    (username : string) (given existing : option dict) : dict :=
  resolve now
    (<["last_updated_at" := VSentinel]>
       (<["hashed_password" := VStr hashed_password]>
          (default ∅ given ∪ default ∅ existing ∪ default_profile (Some username)))).

(** What a write stores for a value: the time of the server for
    [SERVER_TIMESTAMP], the value itself otherwise. *)
Definition written (now : Z) (v : pyval) : pyval :=
  match v with VSentinel => VTime now | _ => v end.

(** The profile a page hands to its template. *)
Definition shown_profile (p : page) : option dict :=
  match p with
  | PageTemplate _ kwargs =>
      match kwargs !! "user_profile" with
      | Some (ArgProfile user_profile) => Some user_profile
      | _ => None
      end
  | PageRedirect _ => None
  end.

(** The admin flag of a session is sound when it is only set in the
    session of a logged-in user of [ADMIN_USERNAMES]. *)
Definition admin_flag_sound (s : Session) : Prop :=
  s_is_admin s = true ->
  s_authenticated s = true
  /\ exists u, s_username s = Some u /\ u ∈ V5.ADMIN_USERNAMES.

(** Two sessions of the same login: they differ in the flashed messages
    at most. *)
Definition same_login (s s' : Session) : Prop :=
  s_authenticated s' = s_authenticated s
  /\ s_username s' = s_username s
  /\ s_is_admin s' = s_is_admin s.

(** The sample environment with the history read failing. *)
Definition history_down : Env := {|
  py_str := py_str sample_env;
  strftime := strftime sample_env;
  strftime_local := strftime_local sample_env;
  checkpw := checkpw sample_env;
  hashpw := hashpw sample_env;
  client_ready := true;
  generate_content := generate_content sample_env;
  recognize := recognize sample_env;
  synthesize_speech := synthesize_speech sample_env;
  b64encode := b64encode sample_env;
  db_missing := None;
  call_fault := fun s => match s with
                         | AtHistoryStream => Some "503 unavailable"
                         | _ => None
                         end
|}.

(** What a clearing of the history leaves alone, whatever fails: the users,
    the profiles and the turns of the other users; of the turns of the
    session's user it only takes away. *)
Definition clears_own_turns_only (session : Session) (w : World)
    (run : result response * World) : Prop :=
  is_ok run.1 = true
  /\ w_users run.2 = w_users w
  /\ w_profiles run.2 = w_profiles w
  /\ (forall u, s_username session <> Some u ->
        messages run.2 (Some u) = messages w (Some u))
  /\ messages run.2 (s_username session) ⊆ messages w (s_username session).

(** The password that the process environment holds for a username: the
    value of USER_<USERNAME>_PASSWORD, when it is set and not empty. *)
Definition env_password (P : Process) (username : string) : option string :=
  match getenv P ("USER_" +:+ upper P username +:+ "_PASSWORD") with
  | Some password => if nonempty password then Some password else None
  | None => None
  end.

(** The session that a login of v2 and v3 establishes. *)
Definition logged_in (username : string) (session : Session) : Session :=
  {| s_authenticated := true; s_username := Some username;
     s_is_admin := s_is_admin session; s_flashes := s_flashes session |}.

(** The login page with the generic error. *)
Definition login_error_page : page :=
  PageTemplate "login.html"
    {[ "error" := ArgValue (VStr "Invalid username or password.") ]}.

(** The fields that a POST to /settings writes (v3.1, v4 and v5): each form
    value trimmed, a missing one as the empty string. *)
Definition saved_settings (form : gmap string string) : dict :=
  {[ "agent_persona" := VStr (strip (default "" (form !! "agent_persona")));
     "agent_goal" := VStr (strip (default "" (form !! "agent_goal")));
     "special_instructions"
       := VStr (strip (default "" (form !! "special_instructions")));
     "user_display_name"
       := VStr (strip (default "" (form !! "user_display_name"))) ]}.

(** The user document that the settings handler finds after its read on
    entry: the stored one, or the default document that the read wrote. *)
Definition document_on_entry (w : World) (username : string) : dict :=
  match w_users w !! username with
  | Some d => d
  | None => resolve (w_now w) (default_profile (Some username))
  end.

(** What [get_user_profile_data] answers for a stored document. *)
Definition profile_view (d : dict) : dict :=
  delete "created_at" (delete "last_updated_at" (delete "hashed_password" d)).

(** The settings page. *)
Definition settings_page (user_profile : dict) (username : option string) : page :=
  PageTemplate "settings.html"
    {[ "user_profile" := ArgProfile user_profile;
       "username" := ArgValue (value_of username) ]}.

(** What the read on entry answers: the view of the stored document, or
    the defaults that it wrote. *)
Definition profile_on_entry (w : World) (username : string) : dict :=
  match w_users w !! username with
  | Some d => profile_view d
  | None => default_profile (Some username)
  end.

(** The clock of the server is ahead of the stored turns of a user. *)
Definition clock_ahead (w : World) (u : string) : Prop :=
  forall k t, messages w (Some u) !! k = Some t -> (t_timestamp t < w_now w)%Z.

(** After a turn of [said] and [ai] was stored on top of the history of
    [w], the model context of any later request in [w1]: the most recent
    turns before it, then its two entries, then the incoming message. *)
Definition remembered (u said ai : string) (w w1 : World) : Prop :=
  clock_ahead w1 u
  /\ turn_count w1 u = S (turn_count w u)
  /\ forall N incoming,
       spec_turn_list (S N) (messages w1 (Some u)) incoming
       = history_entries (history_read N (messages w (Some u)))
         ++ (if nonempty said then [Entry "user" said] else [])
         ++ (if nonempty ai then [Entry "model" ai] else [])
         ++ [Entry "user" incoming].

(** No stored credential differs between two states of the database. *)
Definition credentials_kept (w w' : World) : Prop :=
  forall u, stored_credential w' (Some u) = stored_credential w (Some u).

(** The fields that a POST to /settings writes in v3. *)
Definition saved_settings_v3 (form : gmap string string) : dict :=
  {[ "agent_persona" := VStr (strip (default "" (form !! "agent_persona")));
     "agent_goal" := VStr (strip (default "" (form !! "agent_goal")));
     "special_instructions"
       := VStr (strip (default "" (form !! "special_instructions"))) ]}.

(** In v3, what the read on entry answers. *)
Definition profile_read_v3 (w : World) (username : string) : dict :=
  default (default_profile (Some username)) (w_profiles w !! username).

(** In v3, the profile document that the read on entry leaves in the
    database. *)
Definition profile_document_v3 (w : World) (username : string) : dict :=
  default (resolve (w_now w) (default_profile (Some username)))
    (w_profiles w !! username).

(** The users that the admin page lists: the documents of the users
    collection, each without its [hashed_password]. *)
Definition listed_users (w : World) : list dict :=
  map (fun data : dict => delete "hashed_password" data) (map_to_list (w_users w)).*2.

(** The admin page with the users of [w] listed and one message flashed. *)
Definition admin_page (ALLOWED_USERNAMES : list string) (w : World)
    (message category : string) (session : Session)
    : result (response * Session) * World :=
  (Ok (RenderTemplate "admin_create_user.html"
         (AdminContext ALLOWED_USERNAMES (listed_users w)),
       flash message category session), w).

(** An entry of the history part of a model context: its text is not empty
    and its role is the user's or the model's. *)
Definition history_entry (e : entry) : Prop :=
  text e <> "" /\ (role e = "user" \/ role e = "model").

(** ** The application of v5 as a transition system

    A request names a route with what the browser sends; the services
    answer each request by an environment of its own. *)
Inductive request : Type :=
| LandingPage
| Login (method : http_method) (form : gmap string string)
| ChatPage
| AgentSettings (U : UpdateEnv) (E' : Env) (method : http_method)
    (form : gmap string string)
| AudioChatPage
| Chat (json : gmap string string)
| TranscribeAndChat (files : gmap string string)
| ClearHistory
| Logout
| AdminCreateUser (method : http_method) (form : gmap string string).

(** The session and the database after a handler ran. A handler of v5
    writes the login of the session (the authenticated flag, the username,
    the admin flag) only on a path on which it returns, so a handler that
    raises leaves the login as it was; what it flashed before it raised, as
    the admin page can when the database client is missing, is a step of
    its own, [step_flash] below. *)
Definition after {A} (session : Session) (run : result (A * Session) * World)
    : Session * World :=
  match run with
  | (Ok (_, session'), w') => (session', w')
  | (Raise _, w') => (session, w')
  end.

(** The route of a request, run on the session of the browser. *)
Definition serve (E : Env) (req : request) (session : Session) (w : World)
    : Session * World :=
  match req with
  | LandingPage => ((V5.landing_page session).2, w)
  | Login method form => after session (V5.login E method form session w)
  | ChatPage => after session (V5.chat_page E session w)
  | AgentSettings U E' method form =>
      after session (agent_settings E U E' method form session w)
  | AudioChatPage => ((V5.audio_chat_page session).2, w)
  | Chat json => (session, (V5.chat E json session w).2)
  | TranscribeAndChat files => (session, (V5.transcribe_and_chat E files session w).2)
  | ClearHistory => (session, (clear_history E session w).2)
  | Logout => ((V5.logout session).2, w)
  | AdminCreateUser method form =>
      after session (V5.admin_create_user E method form session w)
  end.

(** The database and the sessions of the browsers that talk to it. *)
Record system : Type := System {
  db : World;
  browsers : list Session
}.

(** One step: a new browser arrives, without a session, a browser sends a
    request, or a session keeps a message that was flashed for it. *)
Inductive step : system -> system -> Prop :=
| step_arrive (s : system) :
    step s (System (db s) (browsers s ++ [anonymous]))
| step_request (s : system) (i : nat) (session : Session) (E : Env) (req : request) :
    browsers s !! i = Some session ->
    step s (System (serve E req session (db s)).2
                   (<[i := (serve E req session (db s)).1]> (browsers s)))
| step_flash (s : system) (i : nat) (session : Session) (message category : string) :
    browsers s !! i = Some session ->
    step s (System (db s) (<[i := flash message category session]> (browsers s))).

(** No user of [ADMIN_USERNAMES] has a credential, and no browser has the
    admin flag. *)
Definition no_admin (s : system) : Prop :=
  (forall u, u ∈ V5.ADMIN_USERNAMES -> stored_credential (db s) (Some u) = None)
  /\ Forall (fun session => s_is_admin session = false) (browsers s).

(** ** Sample data of the further properties *)

(** A process whose environment holds the password of the known user. *)
Definition sample_process : Process := {|
  getenv := fun name =>
    if String.eqb name "USER_REPLACE THIS_PASSWORD" then Some "secret" else None;
  upper := fun s =>
    string_of_list_ascii
      (map (fun c =>
              let n := nat_of_ascii c in
              if (97 <=? n) && (n <=? 122) then ascii_of_nat (n - 32) else c)
           (list_ascii_of_string s))
|}.

(** A password of 73 characters, one more than bcrypt takes. *)
Definition long_password : string := string_of_list_ascii (repeat "a"%char 73).

(** The sample environment of a process of v5 whose database client could
    not be made at start-up, so that [db] is [None]. *)
Definition db_down : Env := {|
  py_str := py_str sample_env;
  strftime := strftime sample_env;
  strftime_local := strftime_local sample_env;
  checkpw := checkpw sample_env;
  hashpw := hashpw sample_env;
  client_ready := true;
  generate_content := generate_content sample_env;
  recognize := recognize sample_env;
  synthesize_speech := synthesize_speech sample_env;
  b64encode := b64encode sample_env;
  db_missing := Some "'NoneType' object has no attribute 'collection'";
  call_fault := call_fault sample_env
|}.

(** The sample environment with the first commit of a clearing failing. *)
Definition commit_down : Env := {|
  py_str := py_str sample_env;
  strftime := strftime sample_env;
  strftime_local := strftime_local sample_env;
  checkpw := checkpw sample_env;
  hashpw := hashpw sample_env;
  client_ready := true;
  generate_content := generate_content sample_env;
  recognize := recognize sample_env;
  synthesize_speech := synthesize_speech sample_env;
  b64encode := b64encode sample_env;
  db_missing := None;
  call_fault := fun s => match s with
                         | AtClearCommit 0 => Some "503 unavailable"
                         | _ => None
                         end
|}.

(** A database that accepts updates. *)
Definition update_ok : UpdateEnv := {|
  update_fault := None;
  no_document := fun id => "404 No document to update: users/" +:+ id
|}.

(** The same database with the update failing. *)
Definition update_down : UpdateEnv := {|
  update_fault := Some "503 unavailable";
  no_document := fun id => "404 No document to update: users/" +:+ id
|}.

(** The settings form of alice. *)
Definition butler_form : gmap string string :=
  {[ "agent_persona" := "  You are a discreet butler. ";
     "agent_goal" := "Keep the house in order.";
     "user_display_name" := "Miss Alice" ]}.

(** The system before any user was created: nothing stored, one browser. *)
Definition fresh_system : system := System empty_world [anonymous].

(** * Properties *)

Lemma text_profile_field (profile : dict) (k : string) :
  text_profile profile ->
  k ∈ ["agent_persona"; "agent_goal"; "special_instructions"; "user_display_name"] ->
  profile !! k = VStr <$> text_field profile k.
Proof.
  intros Htext Hk. unfold text_field.
  destruct (profile !! k) as [v|] eqn:Hv; [|done].
  destruct (Htext k v Hk Hv) as [s ->]. done.
Qed.

Lemma as_strings_text (i : nat) (parts : list string) :
  as_strings i (VStr <$> parts) = Ok parts.
Proof.
  revert i. induction parts as [|s parts IH]; intros i; csimpl; [done|].
  by rewrite IH.
Qed.

Lemma filter_truthy_text (parts : list string) :
  List.filter truthy (VStr <$> parts) = VStr <$> List.filter nonempty parts.
Proof.
  induction parts as [|s parts IH]; csimpl; [done|].
  rewrite IH. by destruct (nonempty s).
Qed.

(** The parts of the system instruction, for a profile of text. *)
Lemma system_instruction_parts_text (E : Env) (profile : dict) (username : string) :
  text_profile profile ->
  system_instruction_parts E profile (Some username)
  = VStr <$>
      ([ default "You are a helpful and friendly AI assistant."
           (text_field profile "agent_persona");
         "Your name is Alfred.";
         default "Answer questions and engage in natural conversation."
           (text_field profile "agent_goal") ]
       ++ match text_field profile "special_instructions" with
          | Some s => if nonempty s then [s] else []
          | None => []
          end
       ++ [ "The user you are interacting with is named "
            +:+ default username (text_field profile "user_display_name") +:+ "." ]).
Proof.
  intros Htext. unfold system_instruction_parts, dict_get.
  rewrite !(text_profile_field profile) by (done || set_solver).
  destruct (text_field profile "agent_persona"), (text_field profile "agent_goal"),
    (text_field profile "special_instructions") as [sp|],
    (text_field profile "user_display_name"); simpl;
    try destruct (nonempty sp); reflexivity.
Qed.

(** The prompt assembly of a profile of text raises nothing. *)
Lemma system_instruction_text_ok (E : Env) (profile : dict) (username : string) :
  text_profile profile ->
  is_ok (system_instruction_text E profile (Some username)) = true.
Proof.
  intros Htext. unfold system_instruction_text.
  by rewrite system_instruction_parts_text, filter_truthy_text, as_strings_text.
Qed.

(** C4. For every Agent Profile document whose four fields, each present,
    absent or empty, hold text, and every username, the system instruction
    of chat (v3 to v5) is the trimmed join by single spaces of the non-empty
    parts among, in this order: the persona text, or the default persona
    when the field is absent; "Your name is Alfred."; the goal text, or the
    default goal when absent; the special instructions when not empty; and
    "The user you are interacting with is named X." where X is the display
    name, or the username when the field is absent. *)
Theorem system_instruction_assembly (E : Env) (profile : dict) (username : string) :
  text_profile profile ->
  system_instruction_text E profile (Some username)
  = Ok (spec_system_instruction
          (text_field profile "agent_persona")
          (text_field profile "agent_goal")
          (text_field profile "special_instructions")
          (text_field profile "user_display_name")
          username).
Proof.
  intros Htext.
  unfold system_instruction_text, spec_system_instruction.
  rewrite system_instruction_parts_text by done.
  rewrite filter_truthy_text, as_strings_text.
  reflexivity.
Qed.

(** ** Running handlers *)

Ltac run :=
  unfold bind, ret, raise, try_except, lift_result, modify, gets, db_call in *.

(** A database call that does not fail has a client to call. *)
Lemma fault_db_missing (E : Env) (s : site) :
  fault E s = None -> db_missing E = None.
Proof. unfold fault. by destruct (db_missing E). Qed.

Lemma db_handle_present (E : Env) (s : site) (w : World) :
  fault E s = None -> db_handle E w = (Ok tt, w).
Proof. intros Hs. unfold db_handle. by rewrite (fault_db_missing E s Hs). Qed.

(** Without the client, every database call fails with its error. *)
Lemma db_missing_fault (E : Env) (e : string) (s : site) :
  db_missing E = Some e -> fault E s = Some e.
Proof. unfold fault. by intros ->. Qed.

Lemma db_handle_cases (E : Env) (w : World) :
  (db_missing E = None /\ db_handle E w = (Ok tt, w))
  \/ (exists e, db_missing E = Some e /\ db_handle E w = (Raise e, w)).
Proof. unfold db_handle. destruct (db_missing E) as [e|]; eauto. Qed.

Lemma history_entries_flatten (docs : list snapshot) :
  history_entries docs = flat_map (fun doc : snapshot => spec_flatten doc.2) docs.
Proof.
  unfold history_entries.
  enough (forall acc,
    fold_left
      (fun current_conversation (doc : snapshot) =>
         let data := doc.2 in
         let current_conversation :=
           if nonempty (t_user_message data)
           then current_conversation ++ [Entry "user" (t_user_message data)]
           else current_conversation in
         if nonempty (t_ai_response data)
         then current_conversation ++ [Entry "model" (t_ai_response data)]
         else current_conversation) docs acc
    = acc ++ flat_map (fun doc : snapshot => spec_flatten doc.2) docs) as H
    by apply (H []).
  induction docs as [|doc docs IH]; intros acc; simpl.
  - by rewrite app_nil_r.
  - rewrite IH. unfold spec_flatten.
    destruct (nonempty (t_user_message doc.2)), (nonempty (t_ai_response doc.2));
      simpl; by rewrite <- ?app_assoc.
Qed.

Lemma current_conversation_spec (limit : nat) (c : gmap nat turn) (incoming : string) :
  current_conversation (take limit (order_by_timestamp_desc c)) incoming
  = spec_turn_list limit c incoming.
Proof. unfold current_conversation, spec_turn_list. by rewrite history_entries_flatten. Qed.

Lemma get_user_profile_data_quiet E username : quiet_read (get_user_profile_data E username).
Proof.
  intros w r w1. unfold get_user_profile_data, users_document_get,
    users_document_set_merge. run.
  destruct (fault E AtUserGet); [by intros [= <- <-]|].
  destruct (username ≫= _); [by intros [= <- <-]|].
  destruct (fault E AtUserSet); by intros [= <- <-].
Qed.

Lemma get_or_create_user_profile_quiet E username :
  quiet_read (V3.get_or_create_user_profile E username).
Proof.
  intros w r w1. unfold V3.get_or_create_user_profile, profile_document_get,
    profile_document_set. run.
  destruct (fault E AtProfileGet); [by intros [= <- <-]|].
  destruct (w_profiles w !! username); [by intros [= <- <-]|].
  destruct (fault E AtProfileSet); by intros [= <- <-].
Qed.

Lemma generate_calls_app tr1 tr2 :
  generate_calls (tr1 ++ tr2) = generate_calls tr1 ++ generate_calls tr2.
Proof. apply omap_app. Qed.

(** What one run of the chat turn does. *)
Lemma chat_turn_cases E get_profile limit u input w :
  quiet_read get_profile ->
  let contents := spec_turn_list limit (messages w (Some u)) input in
  exists r w',
    chat_turn E get_profile limit u input w = (Ok r, w') /\
    ((exists e, r = json_error e 500 /\ w_messages w' = w_messages w
        /\ generate_calls (w_trace w') = generate_calls (w_trace w))
     \/ (exists e sys, r = json_error e 500 /\ w_messages w' = w_messages w
        /\ generate_calls (w_trace w') = generate_calls (w_trace w) ++ [(sys, contents)]
        /\ (generate_content E sys contents = Raise e
            \/ (is_ok (generate_content E sys contents) = true
                /\ fault E AtMessagesAdd = Some e)))
     \/ (exists sys ai now, r = Jsonify {[ "response" := JStr ai ]} 200
        /\ generate_content E sys contents = Ok ai
        /\ fault E AtMessagesAdd = None
        /\ generate_calls (w_trace w') = generate_calls (w_trace w) ++ [(sys, contents)]
        /\ (forall u', messages w' (Some u') =
              if decide (u = u')
              then <[fresh (dom (messages w (Some u))) := Turn (Some u) input ai now]>
                     (messages w (Some u))
              else messages w (Some u')))).
Proof.
  intros Hquiet contents. unfold chat_turn. run.
  destruct (get_profile w) as [[profile|e] w1] eqn:Hread;
    destruct (Hquiet _ _ _ Hread) as [Hm Ht].
  2:{ eexists _, _; split; [done|]. left. exists e. by rewrite Hm, Ht. }
  destruct (system_instruction_text E profile (Some u)) as [sys|e].
  2:{ eexists _, _; split; [done|]. left. exists e. by rewrite Hm, Ht. }
  unfold messages_recent, messages_add. run.
  destruct (fault E AtHistoryStream) as [e|].
  { eexists _, _; split; [done|]. left. exists e. by rewrite Hm, Ht. }
  assert (messages w1 (Some u) = messages w (Some u)) as Hc
    by (unfold messages; by rewrite Hm).
  rewrite Hc, current_conversation_spec. fold contents.
  destruct (generate_content E sys contents) as [ai|e] eqn:Hgen.
  2:{ eexists _, _; split; [done|]. right; left. exists e, sys. simpl.
      rewrite Hm, Ht, generate_calls_app. eauto. }
  destruct (fault E AtMessagesAdd) as [e|] eqn:Hadd.
  { eexists _, _; split; [done|]. right; left. exists e, sys. simpl.
    rewrite Hm, Ht, generate_calls_app. split_and!; try done.
    right. by rewrite Hgen. }
  eexists _, _; split; [done|]. right; right. exists sys, ai, (w_now w1).
  split; [done|]. split; [done|]. split; [done|]. split.
  - simpl. rewrite Ht. unfold generate_calls. rewrite !omap_app. simpl.
    apply app_nil_r.
  - intros u'. unfold messages. simpl. rewrite lookup_insert, Hm.
    by destruct (decide (u = u')).
Qed.

Lemma turn_count_added (c : gmap nat turn) (t : turn) :
  size (<[fresh (dom c) := t]> c) = S (size c).
Proof. apply map_size_insert_None, not_elem_of_dom, is_fresh. Qed.

Lemma json_error_is_error (message : string) (status : nat) :
  status <> 200 -> error_response (json_error message status).
Proof. intros. by exists message, status. Qed.

(** The outcome of [chat] in v4 and v5, from the outcome of the chat
    turn. *)
Lemma chat_guards (E : Env) (unavailable : string) (json : gmap string string)
    (session : Session) (w : World) (run : result response * World) :
  run = (if negb (s_authenticated session) then ret (json_error "Unauthorized" 401)
         else
           let user_input := default "" (json !! "message") in
           let username := default "unknown_user" (s_username session) in
           if negb (client_ready E) then ret (json_error unavailable 503)
           else chat_turn E (get_user_profile_data E (Some username)) 10
                  username user_input) w ->
  (exists status, status <> 200 /\ s_authenticated session && client_ready E = false
     /\ exists message, run = (Ok (json_error message status), w))
  \/ (s_authenticated session = true /\ client_ready E = true
      /\ run = chat_turn E
                 (get_user_profile_data E
                    (Some (default "unknown_user" (s_username session))))
                 10 (default "unknown_user" (s_username session))
                 (default "" (json !! "message")) w).
Proof.
  intros ->. destruct (s_authenticated session); simpl.
  - destruct (client_ready E); simpl.
    + by right.
    + left. exists 503. split; [done|]. split; [done|]. by eexists.
  - left. exists 401. split; [done|]. split; [done|]. by eexists.
Qed.

Lemma chat_turn_one_turn E session w get_profile u input :
  quiet_read get_profile ->
  s_authenticated session = true ->
  u = default "unknown_user" (s_username session) ->
  one_turn_per_success E session w (chat_turn E get_profile 10 u input w).
Proof.
  intros Hquiet Hauth Hu.
  destruct (chat_turn_cases E get_profile 10 u input w Hquiet)
    as (r & w' & Hrun & Hcases).
  exists r, w'. split; [done|]. rewrite <- Hu.
  destruct Hcases as [(e & -> & Hm & _)|[(e & sys & -> & Hm & _)
                     |(sys & ai & now & -> & _ & Hadd & _ & Hm)]].
  - split; [right|]; eauto using json_error_is_error.
  - split; [right|]; eauto using json_error_is_error.
  - split.
    + left. split; [by eexists|]. split; [done|]. split.
      * unfold turn_count. rewrite (Hm u). destruct (decide (u = u)); [|done].
        apply turn_count_added.
      * intros u' Hu'. rewrite (Hm u'). by destruct (decide (u = u')).
    + rewrite Hadd. by intros [? [=]].
Qed.

(** C2. Every successful POST /chat appends exactly one Message Turn to the
    history of the session's user, whose turn count grows by one while the
    other histories stay; every failing POST /chat (no session, no model
    client, or a failure of the profile read, the prompt assembly, the
    history read, the model call or the database write that follows the
    model call) answers an error and leaves the stored turns unchanged. *)
Theorem chat_turn_count (E : Env) (json : gmap string string) (session : Session)
    (w : World) :
  one_turn_per_success E session w (V4.chat E json session w)
  /\ one_turn_per_success E session w (V5.chat E json session w).
Proof.
  split.
  - destruct (chat_guards E "AI service not available. Please check server logs."
                json session w (V4.chat E json session w) eq_refl)
      as [(status & Hs & _ & message & Hrun)|(Hauth & _ & Hrun)].
    + rewrite Hrun. exists (json_error message status), w.
      split; [done|]. split; [right|]; eauto using json_error_is_error.
    + rewrite Hrun.
      by apply chat_turn_one_turn; [apply get_user_profile_data_quiet|..].
  - destruct (chat_guards E "AI service not available." json session w
                (V5.chat E json session w) eq_refl)
      as [(status & Hs & _ & message & Hrun)|(Hauth & _ & Hrun)].
    + rewrite Hrun. exists (json_error message status), w.
      split; [done|]. split; [right|]; eauto using json_error_is_error.
    + rewrite Hrun.
      by apply chat_turn_one_turn; [apply get_user_profile_data_quiet|..].
Qed.

Lemma chat_turn_sends E K json session w get_profile :
  quiet_read get_profile ->
  s_authenticated session = true ->
  sends_turn_list K json session w
    (chat_turn E get_profile K (default "unknown_user" (s_username session))
       (default "" (json !! "message")) w).
Proof.
  intros Hquiet Hauth.
  destruct (chat_turn_cases E get_profile K
              (default "unknown_user" (s_username session))
              (default "" (json !! "message")) w Hquiet)
    as (r & w' & Hrun & Hcases).
  exists r, w'. split; [done|].
  destruct Hcases as [(e & -> & _ & Ht)|[(e & sys & -> & _ & Ht & _)
                     |(sys & ai & now & -> & _ & _ & Ht & _)]].
  - left. eauto using json_error_is_error.
  - right. eauto.
  - right. eauto.
Qed.


Lemma chat_turn_empty_message E session w get_profile :
  quiet_read get_profile ->
  empty_message_run session w
    (chat_turn E get_profile 10 (default "unknown_user" (s_username session)) "" w).
Proof.
  intros Hquiet.
  destruct (chat_turn_cases E get_profile 10
              (default "unknown_user" (s_username session)) "" w Hquiet)
    as (r & w' & Hrun & Hcases).
  exists r, w'. split; [done|]. unfold spec_turn_list in Hcases.
  destruct Hcases as [(e & -> & Hm & Ht)|[(e & sys & -> & Hm & Ht & _)
                     |(sys & ai & now & -> & _ & _ & Ht & Hm)]].
  - left. eauto using json_error_is_error.
  - left. split_and!; eauto using json_error_is_error.
  - right. eexists sys, _, ai, now. split_and!; [done|done|].
    rewrite Hm. by destruct (decide _).
Qed.

Lemma history_entries_app (docs1 docs2 : list snapshot) :
  history_entries (docs1 ++ docs2) = history_entries docs1 ++ history_entries docs2.
Proof. rewrite !history_entries_flatten. apply flat_map_app. Qed.

Lemma default_profile_is_text (u : string) : text_profile (default_profile (Some u)).
Proof.
  intros k v Hk.
  repeat (apply elem_of_cons in Hk as [->|Hk]); [..|by apply elem_of_nil in Hk];
    vm_compute; intros [= <-]; eauto.
Qed.

Lemma get_user_profile_data_text E u w :
  fault E AtUserGet = None -> fault E AtUserSet = None ->
  stored_profile_is_text w u ->
  exists profile w1,
    get_user_profile_data E (Some u) w = (Ok profile, w1) /\ text_profile profile.
Proof.
  intros Hget Hset Hstored.
  unfold get_user_profile_data, users_document_get, users_document_set_merge. run.
  rewrite Hget. simpl. destruct (w_users w !! u) as [d|] eqn:Hd.
  - eexists _, _. split; [reflexivity|]. intros k v Hk Hv.
    apply (Hstored d Hd k v Hk).
    by repeat (apply lookup_delete_Some in Hv as [_ Hv]).
  - rewrite Hset. eexists _, _. split; [reflexivity|]. apply default_profile_is_text.
Qed.

Lemma chat_turn_succeeds E get_profile limit u input w profile w1 :
  get_profile w = (Ok profile, w1) ->
  text_profile profile ->
  fault E AtHistoryStream = None -> fault E AtMessagesAdd = None ->
  (forall sys contents, is_ok (generate_content E sys contents) = true) ->
  exists ai w',
    chat_turn E get_profile limit u input w
    = (Ok (Jsonify {[ "response" := JStr ai ]} 200), w').
Proof.
  intros Hread Htext Hstream Hadd Hmodel. unfold chat_turn. run. rewrite Hread.
  pose proof (system_instruction_text_ok E profile u Htext) as Hsys.
  destruct (system_instruction_text E profile (Some u)) as [sys|]; [|done].
  unfold messages_recent, messages_add. run. rewrite Hstream.
  specialize (Hmodel sys
    (current_conversation (take limit (order_by_timestamp_desc (messages w1 (Some u))))
       input)).
  destruct (generate_content E sys _) as [ai|]; [|done].
  rewrite Hadd. by eexists _, _.
Qed.

Lemma chat_succeeds E json session w u :
  s_authenticated session = true -> s_username session = Some u ->
  services_answer E -> stored_profile_is_text w u ->
  (exists ai w', V4.chat E json session w
                 = (Ok (Jsonify {[ "response" := JStr ai ]} 200), w'))
  /\ (exists ai w', V5.chat E json session w
                    = (Ok (Jsonify {[ "response" := JStr ai ]} 200), w')).
Proof.
  intros Hauth Hu (Hready & Hget & Hset & Hstream & Hadd & Hmodel) Hstored.
  destruct (get_user_profile_data_text E u w Hget Hset Hstored)
    as (profile & w1 & Hread & Htext).
  unfold V4.chat, V5.chat. rewrite Hauth, Hready, Hu. simpl.
  split; eapply chat_turn_succeeds; eauto.
Qed.

(** C10. A POST /chat whose body has no "message" field is not rejected (v4
    and v5): it is served as the request whose message is the empty string,
    and it succeeds when the services answer; a model call it makes ends
    with the user entry of the empty string, a success persists a turn
    whose user text is empty, and when the history is flattened later that
    turn gives no user entry, only its model entry if that side is not
    empty. *)
Theorem chat_missing_message (E : Env) (json : gmap string string)
    (session : Session) (w : World) :
  json !! "message" = None ->
  V4.chat E json session w = V4.chat E (<["message" := ""]> json) session w
  /\ V5.chat E json session w = V5.chat E (<["message" := ""]> json) session w
  /\ empty_message_run session w (V4.chat E json session w)
  /\ empty_message_run session w (V5.chat E json session w)
  /\ (forall before after ref t,
        t_user_message t = "" ->
        history_entries (before ++ (ref, t) :: after)
        = history_entries before
          ++ (if nonempty (t_ai_response t)
              then [Entry "model" (t_ai_response t)] else [])
          ++ history_entries after)
  /\ (forall u,
        s_authenticated session = true -> s_username session = Some u ->
        services_answer E -> stored_profile_is_text w u ->
        (exists ai w', V4.chat E json session w
                       = (Ok (Jsonify {[ "response" := JStr ai ]} 200), w'))
        /\ (exists ai w', V5.chat E json session w
                          = (Ok (Jsonify {[ "response" := JStr ai ]} 200), w'))).
Proof.
  intros Hmissing. split_and!.
  - unfold V4.chat. by rewrite Hmissing, lookup_insert_eq.
  - unfold V5.chat. by rewrite Hmissing, lookup_insert_eq.
  - destruct (chat_guards E "AI service not available. Please check server logs."
                json session w (V4.chat E json session w) eq_refl)
      as [(status & Hs & _ & message & Hrun)|(Hauth & _ & Hrun)]; rewrite Hrun.
    + exists (json_error message status), w. split; [done|]. left.
      split_and!; eauto using json_error_is_error.
    + rewrite Hmissing. by apply chat_turn_empty_message, get_user_profile_data_quiet.
  - destruct (chat_guards E "AI service not available." json session w
                (V5.chat E json session w) eq_refl)
      as [(status & Hs & _ & message & Hrun)|(Hauth & _ & Hrun)]; rewrite Hrun.
    + exists (json_error message status), w. split; [done|]. left.
      split_and!; eauto using json_error_is_error.
    + rewrite Hmissing. by apply chat_turn_empty_message, get_user_profile_data_quiet.
  - intros before after ref t Hempty.
    change (before ++ (ref, t) :: after) with (before ++ [(ref, t)] ++ after).
    rewrite !history_entries_app. f_equal. f_equal.
    rewrite history_entries_flatten. simpl. unfold spec_flatten.
    rewrite Hempty. simpl. by rewrite app_nil_r.
  - intros u Hauth Hu Hservices Hstored. by apply chat_succeeds with u.
Qed.

(** ** Clearing the history *)

Lemma lookup_foldr_delete {V} (c : gmap nat V) (refs : list nat) (k : nat) :
  foldr delete c refs !! k = if decide (k ∈ refs) then None else c !! k.
Proof.
  induction refs as [|r refs IH]; cbn [foldr].
  - rewrite decide_False; [done|]. apply not_elem_of_nil.
  - rewrite lookup_delete, IH. destruct (decide (r = k)) as [->|Hne].
    + rewrite (decide_True (P := k ∈ k :: refs)); [done|]. left.
    + destruct (decide (k ∈ refs)) as [Hin|Hnin].
      * rewrite (decide_True (P := k ∈ r :: refs)); [done|]. by right.
      * rewrite (decide_False (P := k ∈ r :: refs)); [done|].
        intros [?|?]%elem_of_cons; congruence.
Qed.

Lemma size_foldr_delete {V} (c : gmap nat V) (refs : list nat) :
  NoDup refs -> (forall k, k ∈ refs -> is_Some (c !! k)) ->
  size (foldr delete c refs) + length refs = size c.
Proof.
  induction 1 as [|r refs Hr Hnd IH]; intros Hin; simpl; [lia|].
  rewrite map_size_delete_Some.
  - assert (size (foldr delete c refs) <> 0).
    { apply map_size_ne_0_lookup_2 with r. rewrite lookup_foldr_delete.
      case_decide; [done|]. apply Hin. set_solver. }
    specialize (IH ltac:(intros; apply Hin; set_solver)). lia.
  - rewrite lookup_foldr_delete. case_decide; [done|]. apply Hin. set_solver.
Qed.

Lemma size_delete_fetched {V} (c : gmap nat V) (n : nat) :
  size (foldr delete c (take n (map_to_list c)).*1)
  + length (take n (map_to_list c)) = size c.
Proof.
  rewrite <- (length_fmap fst (take n (map_to_list c))).
  apply size_foldr_delete.
  - rewrite fmap_take.
    apply (sublist_NoDup _ _ (NoDup_fst_map_to_list c)), sublist_take.
  - intros k Hk. apply list_elem_of_fmap in Hk as [[k' t] [-> Hk]].
    apply elem_of_take in Hk as (i & Hk & _).
    apply list_elem_of_lookup_2, elem_of_map_to_list in Hk. eauto.
Qed.

Lemma messages_deleted (w : World) (u : string) (refs : list nat) :
  messages (delete_documents (Some u) refs w) (Some u)
  = foldr delete (messages w (Some u)) refs.
Proof. unfold messages; simpl. by rewrite lookup_insert_eq. Qed.

Lemma clear_loop_step E username round deleted_count w :
  clear_loop E username round deleted_count w
  = match clear_round E username round deleted_count w with
    | (Ok (d, true), w') => clear_loop E username (S round) d w'
    | (Ok (d, false), w') => (Ok d, w')
    | (Raise e, w') => (Raise e, w')
    end.
Proof.
  rewrite clear_loop_equation_1.
  unfold clear_loop_unfold_clause_1, inspect.
  by destruct (clear_round E username round deleted_count w) as [[[d []]|e] w'].
Qed.

Lemma clear_round_reliable E username round deleted_count w :
  clears_reliably E ->
  let docs := take 50 (map_to_list (messages w username)) in
  clear_round E username round deleted_count w
  = if length docs =? 0 then (Ok (deleted_count, false), w)
    else (Ok (deleted_count + length docs, negb (length docs <? 50)),
          log (ECommit username docs.*1) (delete_documents username docs.*1 w)).
Proof.
  intros Hok docs. destruct (Hok round) as [Hs Hc].
  unfold clear_round, messages_limit, batch_commit. run. rewrite Hs. fold docs.
  destruct (length docs =? 0); [done|]. rewrite Hc.
  by destruct (length docs <? 50).
Qed.

Lemma clear_loop_reliable E u :
  clears_reliably E ->
  forall n w round deleted_count,
    size (messages w (Some u)) = n ->
    exists w' batches,
      clear_loop E (Some u) round deleted_count w = (Ok (deleted_count + n), w')
      /\ messages w' (Some u) = ∅
      /\ (forall u', u' <> u -> messages w' (Some u') = messages w (Some u'))
      /\ w_users w' = w_users w
      /\ committed u batches w w'
      /\ Forall (fun batch => 0 < length batch <= 50) batches
      /\ length (concat batches) = n.
Proof.
  intros Hok n. induction (lt_wf n) as [n _ IH].
  intros w round deleted_count Hn.
  rewrite clear_loop_step, clear_round_reliable by done.
  set (c := messages w (Some u)) in *.
  set (docs := take 50 (map_to_list c)).
  pose proof (size_delete_fetched c 50) as Hsize. fold docs in Hsize.
  assert (length docs = n `min` 50) as Hlen.
  { unfold docs. rewrite length_take, length_map_to_list. lia. }
  destruct (length docs =? 0) eqn:H0.
  { apply Nat.eqb_eq in H0. exists w, []. split_and!; try done.
    - f_equal. f_equal. lia.
    - apply map_size_empty_inv. fold c. lia.
    - unfold committed. simpl. by rewrite app_nil_r.
    - simpl. lia. }
  apply Nat.eqb_neq in H0.
  set (w1 := log (ECommit (Some u) docs.*1) (delete_documents (Some u) docs.*1 w)).
  assert (messages w1 (Some u) = foldr delete c docs.*1) as Hc1
    by apply messages_deleted.
  assert (forall u', u' <> u -> messages w1 (Some u') = messages w (Some u')) as Hother.
  { intros u' Hu'. unfold messages; simpl. by rewrite lookup_insert_ne. }
  destruct (length docs <? 50) eqn:H50; simpl.
  - apply Nat.ltb_lt in H50. exists w1, [docs.*1]. split_and!; try done.
    + f_equal. f_equal. lia.
    + rewrite Hc1. apply map_size_empty_inv. lia.
    + constructor; [rewrite length_fmap; lia | constructor].
    + simpl. rewrite app_nil_r, length_fmap. lia.
  - apply Nat.ltb_ge in H50.
    destruct (IH (n - 50) ltac:(lia) w1 (S round) (deleted_count + length docs))
      as (w' & batches & Hrun & Hempty & Hothers & Husers & Hcommitted & Hbatches & Htotal).
    { rewrite Hc1. lia. }
    exists w', (docs.*1 :: batches). split_and!.
    + rewrite Hrun. f_equal. f_equal. lia.
    + done.
    + intros u' Hu'. rewrite Hothers by done. by apply Hother.
    + done.
    + unfold committed in *. rewrite Hcommitted. simpl. by rewrite <- app_assoc.
    + constructor; [rewrite length_fmap; lia|done].
    + simpl. rewrite length_app, length_fmap. lia.
Qed.

Lemma lookup_delete_each {V} (refs : list nat) (c : gmap nat V) (k : nat) :
  fold_left (fun c ref => delete ref c) refs c !! k
  = if decide (k ∈ refs) then None else c !! k.
Proof.
  revert c. induction refs as [|r refs IH]; intros c; cbn [fold_left].
  - rewrite decide_False; [done|]. apply not_elem_of_nil.
  - rewrite IH, lookup_delete. destruct (decide (k ∈ refs)) as [Hin|Hnin].
    + rewrite (decide_True (P := k ∈ r :: refs)); [done|]. by right.
    + destruct (decide (r = k)) as [->|Hne].
      * rewrite (decide_True (P := k ∈ k :: refs)); [done|]. left.
      * rewrite (decide_False (P := k ∈ r :: refs)); [done|].
        intros [?|?]%elem_of_cons; congruence.
Qed.

Lemma delete_each_reliable E u :
  clears_reliably E ->
  forall refs i w,
    exists w',
      V2.delete_each E (Some u) i refs w = (Ok tt, w')
      /\ messages w' (Some u)
         = fold_left (fun c ref => delete ref c) refs (messages w (Some u))
      /\ (forall u', u' <> u -> messages w' (Some u') = messages w (Some u'))
      /\ w_trace w' = w_trace w.
Proof.
  intros Hok. induction refs as [|ref refs IH]; intros i w; cbn [V2.delete_each].
  - by exists w.
  - unfold document_delete. run. destruct (Hok i) as [_ ->].
    destruct (IH (S i) (delete_documents (Some u) [ref] w))
      as (w' & -> & Hc & Hothers & Htrace).
    exists w'. split_and!; [done| |..].
    + by rewrite Hc, messages_deleted.
    + intros u' Hu'. rewrite Hothers by done.
      unfold messages; simpl. by rewrite lookup_insert_ne.
    + done.
Qed.

Lemma v2_clear_history_reliable E session u w :
  s_authenticated session = true -> s_username session = Some u ->
  clears_reliably E ->
  exists w',
    V2.clear_history E session w = (Ok (Jsonify {[ "success" := JBool true ]} 200), w')
    /\ turn_count w' u = 0
    /\ w_trace w' = w_trace w.
Proof.
  intros Hauth Hu Hok. unfold V2.clear_history. rewrite Hauth, Hu. simpl. run.
  destruct (Hok 0) as [-> _].
  destruct (delete_each_reliable E u Hok (map_to_list (messages w (Some u))).*1 0 w)
    as (w' & -> & Hc & _ & Htrace).
  exists w'. split_and!; [done| |done].
  unfold turn_count. rewrite Hc. apply map_size_empty_iff, map_eq. intros k.
  rewrite lookup_delete_each, lookup_empty. case_decide as Hk; [done|].
  destruct (messages w (Some u) !! k) as [t|] eqn:Hkt; [|done].
  exfalso. apply Hk. apply list_elem_of_fmap. exists (k, t). split; [done|].
  by apply elem_of_map_to_list.
Qed.

(** C5, as stated, fails in v2: over the eleven turns of alice the handler
    deletes every document by a call of its own, commits no batch, and
    answers success without a deleted_count. *)
Lemma v2_clear_history_has_no_count :
  exists w',
    V2.clear_history sample_env alice_session eleven_turns
    = (Ok (Jsonify {[ "success" := JBool true ]} 200), w')
    /\ turn_count eleven_turns "alice" = 11
    /\ ({[ "success" := JBool true ]} : gmap string jval) !! "deleted_count" = None
    /\ w_trace w' = [].
Proof. eexists. split_and!; vm_compute; reflexivity. Qed.

(** C5, amended. In v3, v3.1, v4 and v5 an authenticated POST /clear-history
    over a history of M turns, when no database call fails, returns: it
    deletes the documents in batches of at least one and at most 50
    references, M in total, leaves the user's turn count at zero and the
    other histories as they were, and answers success with deleted_count M;
    a round whose fetch has fewer than 50 documents is the last. In v2 the
    handler deletes the documents one call each, without batches, leaves
    the turn count at zero and answers success without a count. *)
Theorem clear_history_deletes_all (E : Env) (session : Session) (u : string)
    (w : World) :
  s_authenticated session = true ->
  s_username session = Some u ->
  clears_reliably E ->
  (exists w' batches,
     clear_history E session w
     = (Ok (Jsonify {[ "success" := JBool true;
                       "deleted_count" := JInt (Z.of_nat (turn_count w u)) ]} 200),
        w')
     /\ turn_count w' u = 0
     /\ (forall u', u' <> u -> messages w' (Some u') = messages w (Some u'))
     /\ committed u batches w w'
     /\ Forall (fun batch => 0 < length batch <= 50) batches
     /\ length (concat batches) = turn_count w u)
  /\ (forall round deleted_count w0 d more w1,
        clear_round E (Some u) round deleted_count w0 = (Ok (d, more), w1) ->
        size (messages w0 (Some u)) < 50 -> more = false)
  /\ (exists w',
        V2.clear_history E session w
        = (Ok (Jsonify {[ "success" := JBool true ]} 200), w')
        /\ turn_count w' u = 0
        /\ w_trace w' = w_trace w).
Proof.
  intros Hauth Hu Hok. split_and!.
  - destruct (clear_loop_reliable E u Hok _ w 0 0 eq_refl)
      as (w' & batches & Hrun & Hempty & Hothers & _ & Hcommitted & Hbatches & Htotal).
    exists w', batches. unfold clear_history. rewrite Hauth, Hu. simpl. run.
    rewrite Hrun. split_and!; try done.
    unfold turn_count. by rewrite Hempty.
  - intros round deleted_count w0 d more w1. rewrite clear_round_reliable by done.
    intros Hrun Hfew.
    assert (length (take 50 (map_to_list (messages w0 (Some u)))) < 50) as Hlen
      by (rewrite length_take, length_map_to_list; lia).
    apply Nat.ltb_lt in Hlen. rewrite Hlen in Hrun.
    destruct (_ =? 0); by injection Hrun as _ <- _.
  - by apply v2_clear_history_reliable.
Qed.

(** ** Login *)

(** C1, as stated, fails: the pair of alice matches her stored hash, but
    sent from the session of bob, who is logged in, it establishes no
    session of alice. Both handlers return the redirect before they read
    the form, and the session stays the one of bob. *)
Lemma authenticated_login_keeps_session :
  let form : gmap string string := {[ "username" := "alice"; "password" := "secret" ]} in
  stored_credential alice_registered (form !! "username") = Some (VStr "bcrypt:secret")
  /\ checkpw sample_env "secret" "bcrypt:secret" = Ok true
  /\ V4.login sample_env POST form bob_session alice_registered
     = (Ok (Redirect "chat_page", bob_session), alice_registered)
  /\ V5.login sample_env POST form bob_session alice_registered
     = (Ok (Redirect "chat_page", bob_session), alice_registered)
  /\ s_username bob_session <> form !! "username".
Proof. split_and!; try (vm_compute; reflexivity). discriminate. Qed.

(** C1, amended. A login attempt from a session that is already
    authenticated is answered by the redirect to the chat page and leaves
    the session as it is (v4 and v5). For a login attempt from a session
    that is not yet authenticated, with the credential store answering:
    when the submitted username has no stored credential, and when the
    comparison of the password with the stored hash answers that they do
    not match, the answer is one and the same, the login page with the
    message "Invalid username or password.", and the session's
    authenticated flag and username stay as they were; when the comparison
    answers that the password matches the stored hash, the answer is a
    redirect to the chat page and a session that is authenticated with the
    submitted username. *)
Theorem login_outcomes (E : Env) (form : gmap string string) (session : Session)
    (w : World) :
  (s_authenticated session = true ->
   forall method,
     V4.login E method form session w = (Ok (Redirect "chat_page", session), w)
     /\ V5.login E method form session w = (Ok (Redirect "chat_page", session), w))
  /\ (s_authenticated session = false ->
      fault E AtUserGet = None ->
      let username := form !! "username" in
      (stored_credential w username = None ->
         V4.login E POST form session w = login_failure session w
         /\ V5.login E POST form session w = login_failure session w)
      /\ (forall password hash,
            form !! "password" = Some password ->
            stored_credential w username = Some (VStr hash) ->
            checkpw E password hash = Ok false ->
            V4.login E POST form session w = login_failure session w
            /\ V5.login E POST form session w = login_failure session w)
      /\ (s_authenticated (flash "Invalid username or password." "danger" session)
          = false
          /\ s_username (flash "Invalid username or password." "danger" session)
             = s_username session)
      /\ (forall password hash,
            form !! "password" = Some password ->
            stored_credential w username = Some (VStr hash) ->
            checkpw E password hash = Ok true ->
            exists u, username = Some u
              /\ login_success u w (V4.login E POST form session w)
              /\ login_success u w (V5.login E POST form session w))).
Proof.
  split.
  { intros Hauth method. unfold V4.login, V5.login. by rewrite Hauth. }
  intros Hanon Hget username. unfold stored_credential.
  unfold V4.login, V5.login, get_user_data, users_document_get. run.
  rewrite Hanon, Hget. fold username. split_and!.
  - by intros ->.
  - intros password hash -> -> Hcheck. simpl. by rewrite Hcheck.
  - done.
  - done.
  - intros password hash -> Hstored Hcheck. rewrite Hstored. simpl.
    rewrite Hcheck. destruct username as [u|]; [|done].
    exists u. split; [done|]. split; by eexists.
Qed.

(** ** Profile self-healing *)

Lemma default_profile_without_created_at username :
  delete "created_at" (default_profile (Some username)) = documented_defaults username.
Proof. reflexivity. Qed.

Lemma default_profile_resolved now username :
  resolve now (default_profile (Some username))
  = <["created_at" := VTime now]> (documented_defaults username).
Proof. reflexivity. Qed.

(** C6. The two reads differ on the code: for alice, who has no document,
    the first read of v4 and v5 writes the default document and answers the
    dict it has just written, which still holds the [created_at] write
    marker; the second read answers the stored document with [created_at]
    removed, as the branch for a stored document removes the internal
    fields. Without [created_at] the first answer is the second. *)
Lemma profile_reads_differ :
  exists first second,
    read_twice (get_user_profile_data sample_env (Some "alice")) empty_world
    = (Ok first, Ok second)
    /\ first <> second
    /\ first !! "created_at" = Some VSentinel
    /\ second !! "created_at" = None
    /\ delete "created_at" first = second.
Proof.
  eexists _, _. split; [reflexivity|]. split_and!; [|reflexivity..].
  intros Heq. apply (f_equal (fun d : dict => d !! "created_at")) in Heq.
  discriminate Heq.
Qed.

(** ** History reads *)

Global Instance newer_total : Total newer.
Proof. intros x y. unfold newer. lia. Qed.

Global Instance newer_trans : Transitive newer.
Proof. intros x y z. unfold newer. lia. Qed.

Lemma order_by_timestamp_desc_sorted (c : gmap nat turn) :
  StronglySorted newer (order_by_timestamp_desc c).
Proof. apply StronglySorted_merge_sort; apply _. Qed.

Lemma order_by_timestamp_desc_perm (c : gmap nat turn) :
  order_by_timestamp_desc c ≡ₚ map_to_list c.
Proof. apply merge_sort_Permutation. Qed.

Lemma order_by_timestamp_desc_NoDup (c : gmap nat turn) :
  NoDup (order_by_timestamp_desc c).
Proof. rewrite order_by_timestamp_desc_perm. apply NoDup_map_to_list. Qed.

Lemma StronglySorted_reverse {A} (R : relation A) (l : list A) :
  StronglySorted R l -> StronglySorted (flip R) (reverse l).
Proof.
  induction 1 as [|x l Hl IH Hx]; [constructor|].
  rewrite reverse_cons. apply StronglySorted_app. split_and!.
  - intros x1 x2 H1 H2. apply list_elem_of_singleton in H2 as ->.
    rewrite elem_of_reverse in H1. rewrite Forall_forall in Hx.
    unfold flip. by apply Hx.
  - done.
  - repeat constructor.
Qed.

Lemma StronglySorted_weaken {A} (R S : relation A) (l : list A) :
  (forall x y, R x y -> S x y) -> StronglySorted R l -> StronglySorted S l.
Proof.
  intros HRS. induction 1 as [|x l Hl IH Hx]; constructor; [done|].
  eapply Forall_impl; eauto.
Qed.

Lemma history_read_sorted (N : nat) (c : gmap nat turn) :
  StronglySorted not_later (history_read N c).
Proof.
  unfold history_read.
  apply (StronglySorted_weaken (flip newer)).
  { intros x y. unfold flip, newer, not_later. lia. }
  apply StronglySorted_reverse.
  pose proof (order_by_timestamp_desc_sorted c) as Hs.
  rewrite <- (take_drop N (order_by_timestamp_desc c)) in Hs.
  apply StronglySorted_app_1_l in Hs. exact Hs.
Qed.

(** A document at position [N] or later of the descending order is none of
    the documents read, and is not newer than any of them. *)
Lemma history_read_window (N : nat) (c : gmap nat turn) (i : nat) (x : snapshot) :
  order_by_timestamp_desc c !! i = Some x -> N <= i ->
  (x ∉ history_read N c) /\ (forall y, y ∈ history_read N c -> newer y x).
Proof.
  intros Hi HN. unfold history_read. split.
  - rewrite elem_of_reverse, elem_of_take. intros (j & Hj & HjN).
    pose proof (NoDup_lookup _ _ _ _ (order_by_timestamp_desc_NoDup c) Hi Hj). lia.
  - intros y Hy. rewrite elem_of_reverse in Hy.
    pose proof (order_by_timestamp_desc_sorted c) as Hs.
    rewrite <- (take_drop N (order_by_timestamp_desc c)) in Hs.
    apply StronglySorted_app in Hs as (Hs & _ & _). apply Hs; [done|].
    apply list_elem_of_lookup. exists (i - N). rewrite lookup_drop.
    by replace (N + (i - N)) with i by lia.
Qed.

Lemma history_read_stored (N : nat) (c : gmap nat turn) (x : snapshot) :
  x ∈ history_read N c -> c !! x.1 = Some x.2.
Proof.
  unfold history_read. rewrite elem_of_reverse. intros Hx.
  apply elem_of_take in Hx as (i & Hx & _).
  apply list_elem_of_lookup_2 in Hx. rewrite order_by_timestamp_desc_perm in Hx.
  destruct x. by apply elem_of_map_to_list.
Qed.

Lemma history_read_length (N : nat) (c : gmap nat turn) :
  length (history_read N c) = N `min` size c.
Proof.
  unfold history_read.
  rewrite length_reverse, length_take, order_by_timestamp_desc_perm,
    length_map_to_list. lia.
Qed.

(** C7, as stated, fails: of eleven stored turns the chat page of v4 reads
    ten, and the eleventh-oldest turn, which is the newest, is among them
    and is shown. *)
Lemma eleventh_oldest_turn_is_read :
  let c := messages eleven_turns (Some "alice") in
  exists x rows,
    reverse (order_by_timestamp_desc c) !! 10 = Some x
    /\ x ∈ history_read 10 c
    /\ V4.chat_page sample_env alice_session eleven_turns
       = (Ok (RenderTemplate "index.html" (ChatContext (Some "alice") rows),
              alice_session), eleven_turns)
    /\ Display (t_user_message x.2) (t_ai_response x.2)
         (strftime_local sample_env (t_timestamp x.2)) ∈ rows.
Proof.
  eexists _, _. split_and!.
  - vm_compute. reflexivity.
  - apply list_elem_of_lookup_2 with 9. vm_compute. reflexivity.
  - vm_compute. reflexivity.
  - apply list_elem_of_lookup_2 with 9. vm_compute. reflexivity.
Qed.

(** C7, amended. A history read of size N (the chat page of v2, v4 and v5
    and the model context of chat read 10) gives, for every stored
    history, the N most recent turns in non-decreasing timestamp order:
    every turn it gives is stored, it gives min(N, M) of the M stored
    turns, and the turn that is N+1th most recent, like every older one, is
    not among them and is not newer than any of them. *)
Theorem history_read_order (E : Env) (session : Session) (w : World) (N : nat) :
  s_authenticated session = true ->
  fault E AtHistoryStream = None ->
  let c := messages w (s_username session) in
  V4.chat_page E session w
  = (Ok (RenderTemplate "index.html"
           (ChatContext (s_username session) (display_rows E (history_read 10 c))),
         session), w)
  /\ V5.chat_page E session w
     = (Ok (RenderTemplate "chat.html"
              (ChatContext (s_username session) (display_rows E (history_read 10 c))),
            session), w)
  /\ (exists rows,
        V2.chat_page E session w
        = (Ok (RenderTemplate "index.html" (IndexContext (s_username session) rows),
               session), w)
        /\ rows.*2 = map (fun doc : snapshot =>
                            Display (t_user_message doc.2) (t_ai_response doc.2)
                              (strftime E (t_timestamp doc.2)))
                         (history_read 10 c))
  /\ (forall json, sends_turn_list 10 json session w (V4.chat E json session w))
  /\ (forall stored incoming,
        spec_turn_list N stored incoming
        = history_entries (history_read N stored) ++ [Entry "user" incoming])
  /\ StronglySorted not_later (history_read N c)
  /\ (forall i x,
        order_by_timestamp_desc c !! i = Some x -> N <= i ->
        (x ∉ history_read N c) /\ (forall y, y ∈ history_read N c -> newer y x))
  /\ length (history_read N c) = N `min` size c
  /\ (forall x, x ∈ history_read N c -> c !! x.1 = Some x.2).
Proof.
  intros Hauth Hstream c. split_and!.
  - unfold V4.chat_page, chat_page_of, messages_recent. run.
    rewrite Hauth. cbn [negb]. rewrite (db_handle_present E _ w Hstream).
    by rewrite Hstream.
  - unfold V5.chat_page, chat_page_of, messages_recent. run.
    rewrite Hauth. cbn [negb]. rewrite (db_handle_present E _ w Hstream).
    by rewrite Hstream.
  - eexists. unfold V2.chat_page, messages_recent. run.
    rewrite Hauth, Hstream. simpl. split; [reflexivity|].
    fold c. fold (history_read 10 c). by rewrite <- list_fmap_compose.
  - intros json.
    destruct (chat_guards E "AI service not available. Please check server logs."
                json session w (V4.chat E json session w) eq_refl)
      as [(status & Hs & _ & message & Hrun)|(_ & _ & Hrun)]; rewrite Hrun.
    + exists (json_error message status), w. split; [done|]. left.
      eauto using json_error_is_error.
    + by apply chat_turn_sends; [apply get_user_profile_data_quiet|].
  - intros stored incoming. unfold spec_turn_list.
    by rewrite <- history_entries_flatten.
  - apply history_read_sorted.
  - apply history_read_window.
  - apply history_read_length.
  - apply history_read_stored.
Qed.

(** ** User administration *)

Lemma listing_has_no_hash (docs : list dict) :
  Forall (fun data : dict => data !! "hashed_password" = None)
    (map (fun data : dict => delete "hashed_password" data) docs).
Proof.
  apply Forall_forall. intros d Hd. apply list_elem_of_fmap in Hd as (d' & -> & _).
  apply lookup_delete_eq.
Qed.

Lemma resolve_hash now (d : dict) h :
  resolve now (<["hashed_password" := VStr h]> d) !! "hashed_password" = Some (VStr h).
Proof. unfold resolve. by rewrite lookup_fmap, lookup_insert_eq. Qed.

Lemma admin_create_user_page_served ALLOWED_USERNAMES E method form session w :
  admin_page_served ALLOWED_USERNAMES E form w
    (admin_create_user_page ALLOWED_USERNAMES E method form session w).
Proof.
  assert (forall session0 w0 (P : World -> Prop),
    P w0 ->
    let run :=
      (db_handle E;;
       listing <-
         try_except
           (docs <- users_stream E AtUsersStream;;
            ret (map (fun data : dict => delete "hashed_password" data) docs,
                 session0))
           (fun e => ret ([], flash ("Error fetching user list: " +:+ e) "danger"
                                session0));;
       let '(user_list, session) := listing in
       ret (RenderTemplate "admin_create_user.html"
              (AdminContext ALLOWED_USERNAMES user_list), session)) w0 in
    P run.2 /\
    forall r session',
      run.1 = Ok (r, session') ->
      exists users,
        r = RenderTemplate "admin_create_user.html"
              (AdminContext ALLOWED_USERNAMES users)
        /\ Forall (fun data : dict => data !! "hashed_password" = None) users)
    as Hlisting.
  { intros session0 w0 P HP. unfold users_stream. run.
    destruct (db_handle_cases E w0) as [[_ ->]|(e & _ & ->)]; [|by split].
    destruct (fault E AtUsersStream); cbn; (split; [done|]);
      intros r s' [= <- <-]; eexists; (split; [reflexivity|]);
      [constructor | apply listing_has_no_hash]. }
  pose (served := fun w' : World =>
    (w_users w' = w_users w
     \/ exists u password hash doc,
          form !! "username" = Some u /\ form !! "password" = Some password
          /\ u ∈ ALLOWED_USERNAMES
          /\ hashpw E password = Ok hash
          /\ w_users w' = <[u := doc]> (w_users w)
          /\ doc !! "hashed_password" = Some (VStr hash))
    /\ w_profiles w' = w_profiles w
    /\ w_messages w' = w_messages w).
  assert (served w) as Hsame by (unfold served; auto).
  enough (served (admin_create_user_page ALLOWED_USERNAMES E method form session w).2
          /\ forall r session',
               (admin_create_user_page ALLOWED_USERNAMES E method form session w).1
               = Ok (r, session') ->
               exists users,
                 r = RenderTemplate "admin_create_user.html"
                       (AdminContext ALLOWED_USERNAMES users)
                 /\ Forall (fun data : dict => data !! "hashed_password" = None)
                      users)
    as [(Hu & Hp & Hm) Hr] by (unfold admin_page_served; auto).
  unfold admin_create_user_page.
  destruct method; [exact (Hlisting _ _ served Hsame)|].
  destruct (form !! "username") as [u|] eqn:Hu; cbn [default from_option id];
    [destruct (nonempty u); cbn [andb]|];
    (destruct (form !! "password") as [password|] eqn:Hp; cbn [default from_option id];
      [destruct (nonempty password); cbn [andb]|]);
    try exact (Hlisting _ _ served Hsame).
  unfold create_or_update_user.
  destruct (bool_decide (u ∈ ALLOWED_USERNAMES)) eqn:Hallowed; cbn [negb];
    [|exact (Hlisting _ _ served Hsame)].
  apply bool_decide_eq_true in Hallowed.
  unfold get_user_data, users_document_get, users_document_set. run.
  destruct (hashpw E password) as [hash|e] eqn:Hhash; [|by split].
  destruct (fault E AtUserGet); [by split|].
  destruct (fault E AtUserSet); [exact (Hlisting _ _ served Hsame)|].
  apply (Hlisting _ _ served). unfold served. split_and!; [|done..].
  right. eexists u, password, hash, _. split_and!; [done..|reflexivity|].
  cbn [w_users with_users tick].
  destruct (_ !! "created_at");
    unfold resolve;
    rewrite ?lookup_fmap, ?lookup_insert_ne, ?lookup_insert_eq by done; done.
Qed.

(** C8, as stated, fails in v4: a POST to /admin/create-user from a session
    that never logged in, and so has no admin flag, is served and creates
    the credential of the allow-listed user. *)
Lemma v4_admin_page_serves_anyone :
  exists r session' w',
    V4.admin_create_user sample_env POST
      {[ "username" := "change this"; "password" := "secret" ]}
      anonymous empty_world
    = (Ok (r, session'), w')
    /\ s_is_admin anonymous = false
    /\ w_users empty_world !! "change this" = None
    /\ (w_users w' !! "change this") ≫= (fun d : dict => d !! "hashed_password")
       = Some (VStr "bcrypt:secret").
Proof. eexists _, _, _. split_and!; vm_compute; reflexivity. Qed.

(** C8, amended. In v5 a request to /admin/create-user from a session
    without the admin flag is answered by a redirect to the chat page and
    changes nothing in the database; v4 has no such check and serves every
    request. When the page is served, in v4 and in v5, the users collection
    changes only by the document of the submitted username, only if that
    username is in the fixed allow-list, profiles and messages stay, and no
    user in the listing carries a password hash. *)
Theorem admin_create_user_guarded (E : Env) (method : http_method)
    (form : gmap string string) (session : Session) (w : World) :
  (s_is_admin session = false ->
     V5.admin_create_user E method form session w
     = (Ok (Redirect "chat_page",
            flash "You do not have permission to access this page." "danger"
              session), w))
  /\ (s_is_admin session = true ->
      admin_page_served V5.ALLOWED_USERNAMES E form w
        (V5.admin_create_user E method form session w))
  /\ admin_page_served V4.ALLOWED_USERNAMES E form w
       (V4.admin_create_user E method form session w).
Proof.
  split_and!.
  - intros Hadmin. unfold V5.admin_create_user. by rewrite Hadmin.
  - intros Hadmin. unfold V5.admin_create_user. rewrite Hadmin. simpl.
    apply admin_create_user_page_served.
  - apply admin_create_user_page_served.
Qed.

(** ** The voice turn *)

(** C9, as stated, fails: a failure of the model call and a failure of the
    persistence that follows a successful model call are answered by the
    same message, so the message does not tell these two stages apart. *)
Lemma model_and_persistence_share_a_message :
  let files : gmap string string := {[ "audio_data" := "RIFF" ]} in
  exists sys w1 w2,
    V5.transcribe_and_chat model_down files alice_session empty_world
    = (Ok (json_error "AI chat failed: 503 unavailable" 500), w1)
    /\ V5.transcribe_and_chat store_down files alice_session empty_world
       = (Ok (json_error "AI chat failed: 503 unavailable" 500), w2)
    /\ generate_content model_down sys [Entry "user" "hello"] = Raise "503 unavailable"
    /\ w_trace w1 = [ERecognize "RIFF"; EGenerate sys [Entry "user" "hello"]]
    /\ generate_content store_down sys [Entry "user" "hello"] = Ok "At your service."
    /\ fault store_down AtMessagesAdd = Some "503 unavailable"
    /\ w_trace w2 = [ERecognize "RIFF"; EGenerate sys [Entry "user" "hello"]].
Proof. eexists _, _, _. split_and!; vm_compute; reflexivity. Qed.

Lemma messages_logged e w u : messages (log e w) u = messages w u.
Proof. done. Qed.

(** C9, amended. An authenticated POST /transcribe_and_chat with an audio
    file runs speech-to-text, then the model call with the transcript as
    the only entry of the turn list, then the write of the turn, then
    text-to-speech, in this order, and stops at the first failure with an
    error answer that carries no result of an earlier stage: "Speech-to-Text
    failed: ..." or "Could not understand audio" for speech-to-text,
    "AI chat failed: ..." alike for the profile read, the prompt assembly,
    the model call and the write of the turn, and "Text-to-Speech failed:
    ..." for text-to-speech, when the turn is already stored. Only the run
    in which every stage succeeds answers the transcript, the response text
    and the base64 audio together. *)
Theorem voice_turn_stages (E : Env) (files : gmap string string) (audio : string)
    (session : Session) (w : World) :
  s_authenticated session = true ->
  files !! "audio_data" = Some audio ->
  voice_outcome E audio session w (V5.transcribe_and_chat E files session w).
Proof.
  intros Hauth Haudio. unfold voice_outcome, V5.transcribe_and_chat.
  rewrite Hauth, Haudio. simpl. run.
  destruct (recognize E audio) as [stt|e] eqn:Hstt.
  2:{ eexists _, _. split; [reflexivity|]. left. by exists e. }
  destruct (first_transcript stt) as [transcript|] eqn:Hfirst.
  2:{ eexists _, _. split.
      - by destruct stt as [|[|? ?] ?].
      - right; left. exists stt. split_and!; try done;
          by destruct stt as [|[|? ?] ?]. }
  assert (stt = (transcript :: tail (default [] (head stt))) :: tail stt) as ->.
  { destruct stt as [|[|? ?] ?]; try done. by injection Hfirst as ->. }
  set (w0 := log (ERecognize audio) w).
  destruct (get_user_profile_data E (s_username session) w0)
    as [[profile|e] w1] eqn:Hread;
    destruct (get_user_profile_data_quiet E _ _ _ _ Hread) as [Hm Ht].
  2:{ eexists _, _. split; [reflexivity|]. right; right.
      eexists _, transcript. split_and!; try done. left. exists e.
      by rewrite Hm, Ht. }
  destruct (system_instruction_text E profile (s_username session)) as [sys|e].
  2:{ eexists _, _. split; [reflexivity|]. right; right.
      eexists _, transcript. split_and!; try done. left. exists e.
      by rewrite Hm, Ht. }
  unfold messages_add. run.
  destruct (generate_content E sys [Entry "user" transcript]) as [ai|e] eqn:Hgen.
  2:{ eexists _, _. split; [reflexivity|]. right; right.
      eexists _, transcript. split_and!; try done. right; left. exists sys, e.
      simpl. rewrite Hm, Ht. unfold w0. simpl. rewrite <- app_assoc.
      split_and!; auto. }
  destruct (fault E AtMessagesAdd) as [e|] eqn:Hadd.
  { eexists _, _. split; [reflexivity|]. right; right.
    eexists _, transcript. split_and!; try done. right; left. exists sys, e.
    simpl. rewrite Hm, Ht. unfold w0. simpl. rewrite <- app_assoc.
    split_and!; auto. right. by rewrite Hgen. }
  assert (messages w1 (s_username session) = messages w (s_username session)) as Hc.
  { unfold messages. by rewrite Hm. }
  destruct (synthesize_speech E ai) as [speech|e] eqn:Htts.
  - eexists _, _. split; [reflexivity|]. right; right.
    eexists _, transcript. split_and!; try done. right; right.
    exists sys, ai, (w_now w1). simpl. rewrite !messages_logged, Hc, Hm, Ht.
    unfold w0. simpl. rewrite <- !app_assoc. split_and!; try done.
    right. by exists speech.
  - eexists _, _. split; [reflexivity|]. right; right.
    eexists _, transcript. split_and!; try done. right; right.
    exists sys, ai, (w_now w1). simpl. rewrite !messages_logged, Hc, Hm, Ht.
    unfold w0. simpl. rewrite <- !app_assoc. split_and!; try done.
    left. by exists e.
Qed.

(** ** The theorems at sample inputs *)

Lemma butler_profile_is_text : text_profile butler_profile.
Proof.
  intros k v Hk.
  repeat (apply elem_of_cons in Hk as [->|Hk]); [..|by apply elem_of_nil in Hk];
    vm_compute; intros [= <-]; eauto.
Defined.

Lemma system_instruction_assembly_witness :
  text_profile butler_profile
  /\ system_instruction_text sample_env butler_profile (Some "alice")
     = Ok (spec_system_instruction
             (text_field butler_profile "agent_persona")
             (text_field butler_profile "agent_goal")
             (text_field butler_profile "special_instructions")
             (text_field butler_profile "user_display_name")
             "alice").
Proof.
  split; [exact butler_profile_is_text|].
  apply (system_instruction_assembly sample_env butler_profile "alice").
  exact butler_profile_is_text.
Defined.

Example butler_instruction :
  system_instruction_text sample_env butler_profile (Some "alice")
  = Ok ("You are a discreet butler. Your name is Alfred. "
        +:+ "Answer questions and engage in natural conversation. "
        +:+ "The user you are interacting with is named alice.").
Proof. vm_compute. reflexivity. Qed.

Lemma login_outcomes_witness :
  V4.login sample_env POST {[ "username" := "alice"; "password" := "secret" ]}
    bob_session alice_registered
  = (Ok (Redirect "chat_page", bob_session), alice_registered)
  /\ V4.login sample_env POST {[ "username" := "alice"; "password" := "wrong" ]}
       anonymous alice_registered
     = login_failure anonymous alice_registered
  /\ V5.login sample_env POST {[ "username" := "mallory"; "password" := "secret" ]}
       anonymous alice_registered
     = login_failure anonymous alice_registered
  /\ login_success "alice" alice_registered
       (V5.login sample_env POST {[ "username" := "alice"; "password" := "secret" ]}
          anonymous alice_registered).
Proof.
  split_and!.
  - destruct (login_outcomes sample_env
                {[ "username" := "alice"; "password" := "secret" ]}
                bob_session alice_registered)
      as (Hkept & _).
    exact (proj1 (Hkept eq_refl POST)).
  - destruct (login_outcomes sample_env
                {[ "username" := "alice"; "password" := "wrong" ]}
                anonymous alice_registered)
      as (_ & Hanon).
    destruct (Hanon eq_refl eq_refl) as (_ & Hfails & _).
    exact (proj1 (Hfails "wrong" "bcrypt:secret" eq_refl eq_refl eq_refl)).
  - destruct (login_outcomes sample_env
                {[ "username" := "mallory"; "password" := "secret" ]}
                anonymous alice_registered)
      as (_ & Hanon).
    destruct (Hanon eq_refl eq_refl) as (Habsent & _).
    exact (proj2 (Habsent eq_refl)).
  - destruct (login_outcomes sample_env
                {[ "username" := "alice"; "password" := "secret" ]}
                anonymous alice_registered)
      as (_ & Hanon).
    destruct (Hanon eq_refl eq_refl) as (_ & _ & _ & Hmatches).
    destruct (Hmatches "secret" "bcrypt:secret" eq_refl eq_refl eq_refl)
      as (u & Hu & _ & Hv5).
    injection Hu as <-. exact Hv5.
Defined.

Lemma sample_env_clears_reliably : clears_reliably sample_env.
Proof. intros i. split; reflexivity. Defined.

Lemma clear_history_deletes_all_witness :
  s_authenticated alice_session = true
  /\ s_username alice_session = Some "alice"
  /\ clears_reliably sample_env
  /\ exists w',
       clear_history sample_env alice_session eleven_turns
       = (Ok (Jsonify {[ "success" := JBool true; "deleted_count" := JInt 11 ]} 200),
          w')
       /\ turn_count w' "alice" = 0.
Proof.
  split; [reflexivity|]. split; [reflexivity|].
  split; [exact sample_env_clears_reliably|].
  destruct (clear_history_deletes_all sample_env alice_session "alice" eleven_turns
              eq_refl eq_refl sample_env_clears_reliably)
    as ((w' & batches & Hrun & Hzero & _) & _ & _).
  exists w'. split; [exact Hrun | exact Hzero].
Defined.

Lemma history_read_order_witness :
  s_authenticated alice_session = true
  /\ fault sample_env AtHistoryStream = None
  /\ StronglySorted not_later
       (history_read 10 (messages eleven_turns (Some "alice")))
  /\ length (history_read 10 (messages eleven_turns (Some "alice"))) = 10.
Proof.
  split; [reflexivity|]. split; [reflexivity|].
  destruct (history_read_order sample_env alice_session eleven_turns 10
              eq_refl eq_refl)
    as (_ & _ & _ & _ & _ & Hsorted & _ & Hlength & _).
  split; [exact Hsorted | exact Hlength].
Defined.

Lemma admin_create_user_guarded_witness :
  s_is_admin anonymous = false
  /\ V5.admin_create_user sample_env POST
       {[ "username" := "add here"; "password" := "secret" ]}
       anonymous empty_world
     = (Ok (Redirect "chat_page",
            flash "You do not have permission to access this page." "danger"
              anonymous), empty_world)
  /\ s_is_admin admin_session = true
  /\ admin_page_served V5.ALLOWED_USERNAMES sample_env
       {[ "username" := "add here"; "password" := "secret" ]} empty_world
       (V5.admin_create_user sample_env POST
          {[ "username" := "add here"; "password" := "secret" ]}
          admin_session empty_world).
Proof.
  split; [reflexivity|]. split.
  - exact (proj1 (admin_create_user_guarded sample_env POST
                    {[ "username" := "add here"; "password" := "secret" ]}
                    anonymous empty_world) eq_refl).
  - split; [reflexivity|].
    exact (proj1 (proj2 (admin_create_user_guarded sample_env POST
                           {[ "username" := "add here"; "password" := "secret" ]}
                           admin_session empty_world)) eq_refl).
Defined.

Lemma voice_turn_stages_witness :
  s_authenticated alice_session = true
  /\ ({[ "audio_data" := "RIFF" ]} : gmap string string) !! "audio_data" = Some "RIFF"
  /\ voice_outcome sample_env "RIFF" alice_session empty_world
       (V5.transcribe_and_chat sample_env {[ "audio_data" := "RIFF" ]}
          alice_session empty_world).
Proof.
  split; [reflexivity|]. split; [reflexivity|].
  exact (voice_turn_stages sample_env {[ "audio_data" := "RIFF" ]} "RIFF"
           alice_session empty_world eq_refl eq_refl).
Defined.

Lemma chat_missing_message_witness :
  (∅ : gmap string string) !! "message" = None
  /\ V4.chat sample_env ∅ alice_session empty_world
     = V4.chat sample_env (<["message" := ""]> ∅) alice_session empty_world
  /\ empty_message_run alice_session empty_world
       (V5.chat sample_env ∅ alice_session empty_world).
Proof.
  assert ((∅ : gmap string string) !! "message" = None) as Hmissing
    by reflexivity.
  split; [exact Hmissing|].
  destruct (chat_missing_message sample_env ∅ alice_session empty_world Hmissing)
    as (Hv4 & _ & _ & Hrun & _).
  split; [exact Hv4 | exact Hrun].
Defined.

(** ** The examples of the specification *)

(** alice, without a profile, sends "Hi": the system instruction is the
    default one, the model is called with the single user turn, the answer
    is persisted and returned. *)
Example alice_says_hi :
  exists w',
    V4.chat sample_env {[ "message" := "Hi" ]} alice_session empty_world
    = (Ok (Jsonify {[ "response" := JStr "At your service." ]} 200), w')
    /\ w_trace w'
       = [ EGenerate
             ("You are a helpful and friendly AI assistant. Your name is Alfred. "
              +:+ "Answer questions and engage in natural conversation. "
              +:+ "The user you are interacting with is named alice.")
             [Entry "user" "Hi"];
           EAdd (Some "alice") (Turn (Some "alice") "Hi" "At your service." 1) ]
    /\ turn_count w' "alice" = 1.
Proof. eexists. split_and!; vm_compute; reflexivity. Qed.

(** A POST /chat without a session is answered 401. *)
Example chat_unauthorized (E : Env) (json : gmap string string) (w : World) :
  V4.chat E json anonymous w = (Ok (json_error "Unauthorized" 401), w)
  /\ V5.chat E json anonymous w = (Ok (json_error "Unauthorized" 401), w).
Proof. split; reflexivity. Qed.

(** A request without the field succeeds when the services answer. *)
Example chat_without_message_succeeds :
  (V5.chat sample_env ∅ alice_session empty_world).1
  = Ok (Jsonify {[ "response" := JStr "At your service." ]} 200).
Proof. vm_compute. reflexivity. Qed.

(** The voice turn, every stage succeeding. *)
Example voice_turn_succeeds :
  (V5.transcribe_and_chat sample_env {[ "audio_data" := "RIFF" ]}
     alice_session empty_world).1
  = Ok (Jsonify {[ "user_transcript" := JStr "hello";
                   "ai_response_text" := JStr "At your service.";
                   "ai_response_audio" := JStr "base64:mp3:At your service." ]} 200).
Proof. vm_compute. reflexivity. Qed.

Example strip_both_ends : strip "  Alfred, at your service. " = "Alfred, at your service.".
Proof. reflexivity. Qed.

(** * Further properties *)

(** ** Running handlers, and what a write stores *)

(** One step of a handler. *)
Lemma bind_run {A B} (m : M A) (k : A -> M B) (w : World) :
  bind m k w
  = match m w with
    | (Ok a, w') => k a w'
    | (Raise e, w') => (Raise e, w')
    end.
Proof. reflexivity. Qed.

(** A field after a write. *)
Lemma lookup_resolve now (d : dict) k : resolve now d !! k = written now <$> d !! k.
Proof. unfold resolve. by rewrite lookup_fmap. Qed.

(** ** Users and login (v3.1, v4 and v5) *)

(** The loop over the default parts fills in what is missing. *)
Lemma fold_left_setdefault (parts : list (string * pyval)) (d : dict) :
  fold_left
    (fun (profile_to_set : dict) item =>
       match profile_to_set !! item.1 with
       | Some _ => profile_to_set
       | None => <[item.1 := item.2]> profile_to_set
       end) parts d
  = d ∪ list_to_map parts.
Proof.
  revert d. induction parts as [|[k v] parts IH]; intros d; simpl.
  - by rewrite (right_id_L ∅ (∪)).
  - rewrite IH. destruct (d !! k) as [x|] eqn:Hk.
    + apply map_eq. intros i. rewrite !lookup_union, lookup_insert.
      destruct (decide (k = i)) as [<-|]; [|done]. rewrite Hk.
      by destruct (list_to_map parts !! k).
    + rewrite insert_union_singleton_r by done.
      rewrite <- (assoc_L (∪)). f_equal.
      by rewrite <- insert_union_singleton_l.
Qed.

Lemma create_or_update_user_written ALLOWED E u p hash given w :
  u ∈ ALLOWED -> hashpw E p = Ok hash ->
  fault E AtUserGet = None -> fault E AtUserSet = None ->
  create_or_update_user ALLOWED E u p given w
  = (Ok (true, "User created/updated successfully."),
     tick (with_users
             (insert u (written_user_document hash (w_now w) u given (w_users w !! u)))
             w)).
Proof.
  intros Hallowed Hhash Hget Hset. unfold create_or_update_user.
  rewrite bool_decide_eq_true_2 by done. cbn [negb].
  unfold get_user_data, users_document_get, users_document_set. run.
  rewrite Hhash, Hget, Hset. cbn [mbind option_bind].
  set (old := default ∅ (w_users w !! u)).
  rewrite fold_left_setdefault.
  do 3 f_equal. unfold written_user_document. f_equal.
  assert (forall m : dict,
    match m !! "created_at" with
    | Some _ => m
    | None => <["created_at" := VSentinel]> m
    end = m ∪ {[ "created_at" := VSentinel ]}) as Hc.
  { intros m. destruct (m !! "created_at") eqn:Hm.
    - apply map_eq. intros i. rewrite lookup_union.
      destruct (decide (i = "created_at")) as [->|Hne].
      + by rewrite Hm, lookup_singleton_eq.
      + rewrite lookup_singleton_ne by done. by destruct (m !! i).
    - by rewrite insert_union_singleton_r. }
  rewrite Hc. rewrite <- !insert_union_l. do 2 f_equal.
  assert (default_profile (Some u)
          = list_to_map (default_profile_parts u) ∪ {[ "created_at" := VSentinel ]})
    as -> by reflexivity.
  destruct given as [g|]; cbn [default from_option id].
  - by rewrite !(assoc_L (∪)).
  - by rewrite !(left_id_L ∅ (∪)), !(assoc_L (∪)).
Qed.

(** The password is hashed before anything is read or written, outside
    the [try]. *)
Lemma create_or_update_user_hash_raises ALLOWED E u p e given w :
  u ∈ ALLOWED -> hashpw E p = Raise e ->
  create_or_update_user ALLOWED E u p given w = (Raise e, w).
Proof.
  intros Hallowed Hhash. unfold create_or_update_user.
  rewrite bool_decide_eq_true_2 by done. cbn [negb]. run. by rewrite Hhash.
Qed.

Lemma written_user_document_hash hash now u given existing :
  written_user_document hash now u given existing !! "hashed_password"
  = Some (VStr hash).
Proof.
  unfold written_user_document.
  by rewrite lookup_resolve, lookup_insert_ne, lookup_insert_eq.
Qed.

Lemma create_or_update_user_success ALLOWED E u p given w message w1 :
  create_or_update_user ALLOWED E u p given w = (Ok (true, message), w1) ->
  u ∈ ALLOWED /\ (exists hash, hashpw E p = Ok hash)
  /\ fault E AtUserGet = None /\ fault E AtUserSet = None.
Proof.
  unfold create_or_update_user.
  destruct (bool_decide (u ∈ ALLOWED)) eqn:Hallowed; cbn [negb]; [|by intros [=]].
  apply bool_decide_eq_true in Hallowed.
  unfold get_user_data, users_document_get, users_document_set. run.
  destruct (hashpw E p) as [hash|]; [|by intros [=]].
  destruct (fault E AtUserGet); [by intros [=]|].
  destruct (fault E AtUserSet); [by intros [=]|]. eauto.
Qed.

(** X1. For an allow-listed username, [create_or_update_user] (v3.1, v4
    and v5) hashes the password before it reads or writes, outside the
    [try]: when the hashing raises, as bcrypt does on a password of more
    than 72 bytes, the call raises that error and nothing is written. When
    the hashing gives a hash and the database answers, the call writes one
    document: the profile data given, over the fields of the stored
    document, over the defaults with their [created_at] marker, with
    [hashed_password] set to the new hash and [last_updated_at] to the time
    of the write. So a password reset keeps every other field of the stored
    document, and a new user gets the four defaults, the hash and both
    timestamps. *)
Theorem create_or_update_user_merges (ALLOWED_USERNAMES : list string) (E : Env)
    (username plain_password : string) (user_profile_data : option dict)
    (w : World) :
  username ∈ ALLOWED_USERNAMES ->
  (forall e,
     hashpw E plain_password = Raise e ->
     create_or_update_user ALLOWED_USERNAMES E username plain_password
       user_profile_data w = (Raise e, w))
  /\ (forall hashed_password,
        hashpw E plain_password = Ok hashed_password ->
        fault E AtUserGet = None -> fault E AtUserSet = None ->
        let existing := w_users w !! username in
        let doc :=
          written_user_document hashed_password (w_now w) username user_profile_data
            existing in
        create_or_update_user ALLOWED_USERNAMES E username plain_password
          user_profile_data w
        = (Ok (true, "User created/updated successfully."),
           tick (with_users (insert username doc) w))
        /\ doc !! "hashed_password" = Some (VStr hashed_password)
        /\ doc !! "last_updated_at" = Some (VTime (w_now w))
        /\ (forall old k v,
              user_profile_data = None -> existing = Some old -> old !! k = Some v ->
              k <> "hashed_password" -> k <> "last_updated_at" ->
              doc !! k = Some (written (w_now w) v))
        /\ (user_profile_data = None -> existing = None ->
            doc = <["hashed_password" := VStr hashed_password]>
                    (<["last_updated_at" := VTime (w_now w)]>
                       (<["created_at" := VTime (w_now w)]>
                          (documented_defaults username))))).
Proof.
  intros Hallowed. split.
  { intros e Hhash. by apply create_or_update_user_hash_raises. }
  intros hashed_password Hhash Hget Hset existing doc. split_and!.
  - by apply create_or_update_user_written.
  - apply written_user_document_hash.
  - unfold doc, written_user_document.
    by rewrite lookup_resolve, lookup_insert_eq.
  - intros old k v -> Hold Hk Hnothash Hupdated. unfold doc, written_user_document.
    rewrite Hold, lookup_resolve, !lookup_insert_ne by done. cbn [default from_option id].
    rewrite (left_id_L ∅ (∪)), lookup_union, Hk. simpl.
    by destruct (default_profile (Some username) !! k).
  - intros -> Hnew. unfold doc, written_user_document. rewrite Hnew.
    reflexivity.
Qed.

(** X2. After [create_or_update_user] has succeeded for a username and a
    password, the password was hashed, and a login of v4 and v5 with that
    username, from a session that is not authenticated, succeeds with every
    password that the hashing library accepts against the new hash, and is
    answered by the generic failure with every password that it rejects. *)
Theorem created_user_logs_in (ALLOWED_USERNAMES : list string) (E : Env)
    (username plain_password message : string) (user_profile_data : option dict)
    (form : gmap string string) (session : Session) (w w1 : World) :
  create_or_update_user ALLOWED_USERNAMES E username plain_password
    user_profile_data w = (Ok (true, message), w1) ->
  s_authenticated session = false ->
  form !! "username" = Some username ->
  exists hashed_password,
    hashpw E plain_password = Ok hashed_password
    /\ (forall password,
          form !! "password" = Some password ->
          checkpw E password hashed_password = Ok true ->
          login_success username w1 (V4.login E POST form session w1)
          /\ login_success username w1 (V5.login E POST form session w1))
    /\ (forall password,
          form !! "password" = Some password ->
          checkpw E password hashed_password = Ok false ->
          V4.login E POST form session w1 = login_failure session w1
          /\ V5.login E POST form session w1 = login_failure session w1).
Proof.
  intros Hcreated Hanon Hu.
  destruct (create_or_update_user_success _ _ _ _ _ _ _ _ Hcreated)
    as (Hallowed & (hash & Hhash) & Hget & Hset).
  rewrite (create_or_update_user_written _ _ _ _ hash) in Hcreated by done.
  injection Hcreated as _ <-.
  exists hash. split; [done|].
  unfold V4.login, V5.login, get_user_data, users_document_get. run.
  rewrite Hanon, Hget, Hu. cbn [mbind option_bind w_users with_users tick].
  rewrite lookup_insert_eq. cbn [mbind option_bind].
  rewrite written_user_document_hash.
  split; intros password -> Hcheck; cbn [value_of encode]; rewrite Hcheck.
  - split; by eexists.
  - done.
Qed.

(** X3. A login POST without a password field (v4 and v5, from a session
    that is not authenticated, the user document read succeeding): for a
    username without a stored credential the answer is the generic failure;
    for a username with one the handler raises the AttributeError of
    [password.encode] on [None], which nothing catches. The two answers
    differ. *)
Theorem login_without_password_field (E : Env) (form : gmap string string)
    (session : Session) (w : World) :
  s_authenticated session = false ->
  fault E AtUserGet = None ->
  form !! "password" = None ->
  let username := form !! "username" in
  (stored_credential w username = None ->
     V4.login E POST form session w = login_failure session w
     /\ V5.login E POST form session w = login_failure session w)
  /\ (forall hash,
        stored_credential w username = Some hash ->
        V4.login E POST form session w
        = (Raise "'NoneType' object has no attribute 'encode'", w)
        /\ V5.login E POST form session w
           = (Raise "'NoneType' object has no attribute 'encode'", w)).
Proof.
  intros Hanon Hget Hpassword username. unfold stored_credential.
  unfold V4.login, V5.login, get_user_data, users_document_get. run.
  rewrite Hanon, Hget, Hpassword. fold username. split.
  - by intros ->.
  - by intros hash ->.
Qed.

(** X26. The comparison of the password with the stored hash stands in no
    [try] (v4 and v5): when [bcrypt.checkpw] raises, as it does on a
    password of more than 72 bytes, a login attempt for a username with a
    stored credential raises that error, and the database stays as it was;
    the same form for a username without a stored credential is answered
    by the generic failure. The two answers differ. *)
Theorem login_comparison_raises (E : Env) (form : gmap string string)
    (session : Session) (w : World) :
  s_authenticated session = false ->
  fault E AtUserGet = None ->
  let username := form !! "username" in
  (forall password hash e,
     form !! "password" = Some password ->
     stored_credential w username = Some (VStr hash) ->
     checkpw E password hash = Raise e ->
     V4.login E POST form session w = (Raise e, w)
     /\ V5.login E POST form session w = (Raise e, w))
  /\ (stored_credential w username = None ->
      V4.login E POST form session w = login_failure session w
      /\ V5.login E POST form session w = login_failure session w).
Proof.
  intros Hanon Hget username. unfold stored_credential.
  unfold V4.login, V5.login, get_user_data, users_document_get. run.
  rewrite Hanon, Hget. fold username. split.
  - intros password hash e -> -> Hcheck. simpl. by rewrite Hcheck.
  - by intros ->.
Qed.

(** X4. What a POST to the admin page answers (the part that v4 and v5
    share), when the listing of users succeeds. Without a username or
    without a password, missing or empty, nothing is written and "Username
    and password are required." is flashed. For a username outside the
    allow-list nothing is written and the error "Unauthorized username." is
    flashed. For an allow-listed username: when the hashing of the password
    raises, as bcrypt does on more than 72 bytes, the request raises and
    nothing is written; when it gives a hash, a failing read of the user
    document is not caught either, so the request raises; a failing write
    is flashed as "Firestore error: ..." and nothing is written; otherwise
    the document is written with that hash, the success is flashed and the
    page lists the users of the new state. *)
Theorem admin_form_feedback (ALLOWED_USERNAMES : list string) (E : Env)
    (form : gmap string string) (session : Session) (w : World) :
  fault E AtUsersStream = None ->
  let username := default "" (form !! "username") in
  let password := default "" (form !! "password") in
  let run := admin_create_user_page ALLOWED_USERNAMES E POST form session w in
  (username = "" \/ password = "" ->
   run = admin_page ALLOWED_USERNAMES w
           "Username and password are required." "danger" session)
  /\ (username <> "" -> password <> "" -> username ∉ ALLOWED_USERNAMES ->
      run = admin_page ALLOWED_USERNAMES w
              ("Error creating/updating user '" +:+ username
               +:+ "': Unauthorized username.") "danger" session)
  /\ (username <> "" -> password <> "" -> username ∈ ALLOWED_USERNAMES ->
      (forall e, hashpw E password = Raise e -> run = (Raise e, w))
      /\ (forall hashed_password,
            hashpw E password = Ok hashed_password ->
            (forall e, fault E AtUserGet = Some e -> run = (Raise e, w))
            /\ (forall e,
                  fault E AtUserGet = None -> fault E AtUserSet = Some e ->
                  run = admin_page ALLOWED_USERNAMES w
                          ("Error creating/updating user '" +:+ username
                           +:+ "': Firestore error: " +:+ e) "danger" session)
            /\ (fault E AtUserGet = None -> fault E AtUserSet = None ->
                run = admin_page ALLOWED_USERNAMES
                        (tick (with_users
                                 (insert username
                                    (written_user_document hashed_password (w_now w)
                                       username None (w_users w !! username))) w))
                        ("User '" +:+ username
                         +:+ "' created/updated: User created/updated successfully.")
                        "success" session))).
Proof.
  intros Hlist username password run.
  assert (forall s, (s = "" -> nonempty s = false) /\ (s <> "" -> nonempty s = true))
    as Hnonempty.
  { intros s. unfold nonempty.
    destruct (String.eqb_spec s ""); split; simpl; congruence. }
  assert (forall session0 w0,
    (db_handle E;;
     listing <-
       try_except
         (docs <- users_stream E AtUsersStream;;
          ret (map (fun data : dict => delete "hashed_password" data) docs,
               session0))
         (fun e => ret ([], flash ("Error fetching user list: " +:+ e) "danger"
                              session0));;
     let '(user_list, session) := listing in
     ret (RenderTemplate "admin_create_user.html"
            (AdminContext ALLOWED_USERNAMES user_list), session)) w0
    = (Ok (RenderTemplate "admin_create_user.html"
             (AdminContext ALLOWED_USERNAMES (listed_users w0)), session0), w0))
    as Hlisting.
  { intros session0 w0. rewrite bind_run, (db_handle_present E _ w0 Hlist).
    unfold users_stream. run. by rewrite Hlist. }
  unfold run, admin_create_user_page, admin_page. cbv zeta.
  fold username. fold password. split_and!.
  - intros Hempty.
    assert (nonempty username && nonempty password = false) as ->.
    { destruct Hempty as [Hu|Hp]; [rewrite (proj1 (Hnonempty _) Hu)
                                  |rewrite (proj1 (Hnonempty _) Hp)];
        [done|apply andb_false_r]. }
    rewrite bind_run. unfold ret at 1. apply Hlisting.
  - intros Hu Hp Hout.
    rewrite (proj2 (Hnonempty _) Hu), (proj2 (Hnonempty _) Hp). cbn [andb].
    rewrite !bind_run. unfold create_or_update_user.
    rewrite bool_decide_eq_false_2 by done. cbn [negb]. unfold ret at 1.
    apply Hlisting.
  - intros Hu Hp Hin.
    rewrite (proj2 (Hnonempty _) Hu), (proj2 (Hnonempty _) Hp). cbn [andb].
    rewrite !bind_run. split.
    { intros e Hhash.
      by rewrite (create_or_update_user_hash_raises _ _ _ _ e) by done. }
    intros hashed_password Hhash. split_and!.
    + intros e Hget. unfold create_or_update_user.
      rewrite bool_decide_eq_true_2 by done. cbn [negb].
      unfold get_user_data, users_document_get. run. by rewrite Hhash, Hget.
    + intros e Hget Hset. unfold create_or_update_user.
      rewrite bool_decide_eq_true_2 by done. cbn [negb].
      unfold get_user_data, users_document_get, users_document_set.
      rewrite bind_run. unfold lift_result at 1. rewrite Hhash.
      rewrite bind_run. unfold db_call. rewrite Hget. unfold gets, try_except.
      rewrite bind_run, Hset. unfold raise, ret at 1 2. apply Hlisting.
    + intros Hget Hset.
      rewrite (create_or_update_user_written _ _ _ _ hashed_password) by done.
      unfold ret at 1. apply Hlisting.
Qed.

(** ** The self-healing profile read *)

(** X25. The profile read that finds no document, with the database
    answering. In v3.1, v4 and v5 it writes the default document with the
    time of the write as [created_at] and answers the dict it wrote, the
    four defaults with the [created_at] write marker; the next read writes
    nothing and answers the four defaults alone. In v3 the first read does
    the same by a plain write and the next read answers the stored
    document, [created_at] included. On persona, goal, special
    instructions and display name the first and the next answer agree,
    and a merge write keeps the stored fields that it does not name. *)
Theorem profile_self_heal (E : Env) (username : string) (w : World) :
  fault E AtUserGet = None -> fault E AtUserSet = None ->
  fault E AtProfileGet = None -> fault E AtProfileSet = None ->
  (w_users w !! username = None ->
     exists w1,
       get_user_profile_data E (Some username) w
       = (Ok (default_profile (Some username)), w1)
       /\ w_users w1
          = <[username := <["created_at" := VTime (w_now w)]>
                            (documented_defaults username)]> (w_users w)
       /\ get_user_profile_data E (Some username) w1
          = (Ok (documented_defaults username), w1))
  /\ (w_profiles w !! username = None ->
     exists w1,
       V3.get_or_create_user_profile E username w
       = (Ok (default_profile (Some username)), w1)
       /\ w_profiles w1
          = <[username := <["created_at" := VTime (w_now w)]>
                            (documented_defaults username)]> (w_profiles w)
       /\ V3.get_or_create_user_profile E username w1
          = (Ok (<["created_at" := VTime (w_now w)]> (documented_defaults username)),
             w1))
  /\ (forall k, k ∈ profile_fields ->
        default_profile (Some username) !! k = documented_defaults username !! k
        /\ (<["created_at" := VTime (w_now w)]> (documented_defaults username)) !! k
           = documented_defaults username !! k)
  /\ documented_defaults username
     = list_to_map
         [ ("agent_persona", VStr "You are a helpful and friendly AI assistant.");
           ("agent_goal", VStr "Answer questions and engage in natural conversation.");
           ("special_instructions", VStr "");
           ("user_display_name", VStr username) ]
  /\ (forall data old k,
        w_users w !! username = Some old -> data !! k = None ->
        exists w1,
          users_document_set_merge E AtUserSet (Some username) data w = (Ok tt, w1)
          /\ (w_users w1 !! username) ≫= (fun d : dict => d !! k) = old !! k).
Proof.
  intros Hget Hset Hpget Hpset. split_and!.
  - intros Habsent. eexists. split_and!.
    + unfold get_user_profile_data, users_document_get, users_document_set_merge.
      run. rewrite Hget. simpl. rewrite Habsent, Hset. reflexivity.
    + simpl. rewrite Habsent. simpl. by rewrite (right_id_L ∅ (∪)).
    + unfold get_user_profile_data, users_document_get. run. rewrite Hget.
      simpl. rewrite lookup_insert_eq, Habsent. simpl.
      by rewrite (right_id_L ∅ (∪)).
  - intros Habsent. eexists. split_and!.
    + unfold V3.get_or_create_user_profile, profile_document_get,
        profile_document_set. run. rewrite Hpget, Habsent, Hpset. reflexivity.
    + done.
    + unfold V3.get_or_create_user_profile, profile_document_get. run.
      rewrite Hpget. simpl. by rewrite lookup_insert_eq.
  - intros k Hk. unfold profile_fields in Hk.
    repeat (apply elem_of_cons in Hk as [->|Hk]); try done.
    by apply elem_of_nil in Hk.
  - done.
  - intros data old k Hold Hk. eexists. split.
    + unfold users_document_set_merge. run. by rewrite Hset.
    + simpl. rewrite lookup_insert_eq, Hold. simpl.
      rewrite lookup_union_r; [done|].
      unfold resolve. by rewrite lookup_fmap, Hk.
Qed.

(** ** Passwords of the process environment (v2 and v3) *)

(** What [USERS] holds for a username. *)
Lemma load_users_lookup (P : Process) (known : list string) (u : string) :
  load_users P known !! u = if decide (u ∈ known) then env_password P u else None.
Proof.
  unfold load_users.
  enough (forall acc : gmap string string,
    fold_left
      (fun (USERS : gmap string string) username =>
         let env_var := "USER_" +:+ upper P username +:+ "_PASSWORD" in
         match getenv P env_var with
         | Some password =>
             if nonempty password then <[username := password]> USERS else USERS
         | None => USERS
         end) known acc !! u
    = match (if decide (u ∈ known) then env_password P u else None) with
      | Some p => Some p
      | None => acc !! u
      end) as H.
  { rewrite H, lookup_empty. by destruct (if decide (u ∈ known) then _ else _). }
  induction known as [|x known IH]; intros acc; cbn [fold_left].
  - rewrite decide_False; [done|]. apply not_elem_of_nil.
  - rewrite IH. cbv zeta. clear IH.
    assert (match getenv P ("USER_" +:+ upper P x +:+ "_PASSWORD") with
            | Some password =>
                if nonempty password then <[x := password]> acc else acc
            | None => acc
            end !! u
            = if decide (x = u)
              then match env_password P u with
                   | Some p => Some p
                   | None => acc !! u
                   end
              else acc !! u) as ->.
    { destruct (decide (x = u)) as [->|Hne]; unfold env_password.
      - destruct (getenv P _) as [p|]; [|done].
        destruct (nonempty p); [|done]. by rewrite lookup_insert_eq.
      - destruct (getenv P _) as [p|]; [|done].
        destruct (nonempty p); [|done]. by rewrite lookup_insert_ne. }
    destruct (decide (u ∈ known)) as [Hin|Hnin].
    + rewrite (decide_True (P := u ∈ x :: known)) by (by right).
      destruct (env_password P u) as [p|] eqn:Hp; [done|].
      by destruct (decide (x = u)).
    + destruct (decide (x = u)) as [->|Hne].
      * rewrite (decide_True (P := u ∈ u :: known)) by left.
        by destruct (env_password P u).
      * rewrite (decide_False (P := u ∈ x :: known)); [done|].
        intros [?|?]%elem_of_cons; congruence.
Qed.

Lemma env_password_nonempty P u p : env_password P u = Some p -> p <> "".
Proof.
  unfold env_password. destruct (getenv P _) as [q|]; [|done].
  destruct (nonempty q) eqn:Hq; [|done]. intros [= <-] ->. done.
Qed.

(** X5. Login of v2 and v3. [USERS] holds, for each known username, the
    value of its variable USER_<USERNAME>_PASSWORD when that is set and not
    empty. A POST whose username is known and whose password is that value
    is granted: v2 answers the redirect with the session of the user, v3
    does so after reading or creating the profile. A POST for which no such
    pair exists, in particular one without a password or with the empty
    password, gets the login page with the generic error, the session as it
    was. *)
Theorem password_login_from_environment (P : Process) (E : Env)
    (form : gmap string string) (session : Session) (w : World) :
  (forall u p,
     form !! "username" = Some u -> form !! "password" = Some p ->
     u ∈ V2.KNOWN_USERNAMES -> env_password P u = Some p ->
     V2.login P POST form session = (PageRedirect "chat_page", logged_in u session)
     /\ V3.login P E POST form session w
        = (V3.get_or_create_user_profile E u;;
           ret (PageRedirect "chat_page", logged_in u session)) w)
  /\ ((forall u p,
         form !! "username" = Some u -> form !! "password" = Some p ->
         u ∈ V2.KNOWN_USERNAMES -> env_password P u <> Some p) ->
      V2.login P POST form session = (login_error_page, session)
      /\ V3.login P E POST form session w = (Ok (login_error_page, session), w))
  /\ (form !! "password" = None \/ form !! "password" = Some "" ->
      V2.login P POST form session = (login_error_page, session)
      /\ V3.login P E POST form session w = (Ok (login_error_page, session), w)).
Proof.
  assert (forall u p,
    form !! "username" = Some u -> form !! "password" = Some p ->
    u ∈ V2.KNOWN_USERNAMES -> env_password P u = Some p ->
    V2.login P POST form session = (PageRedirect "chat_page", logged_in u session)
    /\ V3.login P E POST form session w
       = (V3.get_or_create_user_profile E u;;
          ret (PageRedirect "chat_page", logged_in u session)) w) as Hgranted.
  { intros u p Hu Hp Hknown Henv.
    unfold V2.login, V3.login, V2.USERS, V3.USERS. rewrite Hu, Hp. cbn [mbind option_bind].
    change V3.KNOWN_USERNAMES with V2.KNOWN_USERNAMES.
    rewrite load_users_lookup, decide_True, Henv by done.
    by rewrite bool_decide_eq_true_2. }
  assert ((forall u p,
            form !! "username" = Some u -> form !! "password" = Some p ->
            u ∈ V2.KNOWN_USERNAMES -> env_password P u <> Some p) ->
          V2.login P POST form session = (login_error_page, session)
          /\ V3.login P E POST form session w = (Ok (login_error_page, session), w))
    as Hrefused.
  { intros Hno. unfold V2.login, V3.login, V2.USERS, V3.USERS.
    change V3.KNOWN_USERNAMES with V2.KNOWN_USERNAMES.
    destruct (form !! "username") as [u|] eqn:Hu; cbn [mbind option_bind]; [|done].
    rewrite load_users_lookup.
    destruct (decide (u ∈ V2.KNOWN_USERNAMES)) as [Hknown|]; [|done].
    destruct (env_password P u) as [stored|] eqn:Henv; [|done].
    destruct (form !! "password") as [p|] eqn:Hp.
    - rewrite bool_decide_eq_false_2; [done|].
      intros [= ->]. by apply (Hno u p).
    - by rewrite bool_decide_eq_false_2. }
  split_and!; [exact Hgranted|exact Hrefused|].
  intros Hpassword. apply Hrefused. intros u p Hu Hp Hknown Henv.
  apply env_password_nonempty in Henv. destruct Hpassword; congruence.
Qed.

(** X6. A granted login of v3 reads or creates the profile of the user:
    with the profile store answering, the answer is the redirect, a stored
    profile stays as it is and a missing one is written with the defaults
    and the time of the write; when the read of the profile fails, or the
    write of a missing one, the login raises that failure although the
    password was right. *)
Theorem v3_login_creates_profile (P : Process) (E : Env) (form : gmap string string)
    (session : Session) (w : World) (u p : string) :
  form !! "username" = Some u -> form !! "password" = Some p ->
  u ∈ V3.KNOWN_USERNAMES -> env_password P u = Some p ->
  (fault E AtProfileGet = None -> fault E AtProfileSet = None ->
   exists w',
     V3.login P E POST form session w
     = (Ok (PageRedirect "chat_page", logged_in u session), w')
     /\ (is_Some (w_profiles w !! u) -> w' = w)
     /\ (w_profiles w !! u = None ->
         w_profiles w'
         = <[u := <["created_at" := VTime (w_now w)]> (documented_defaults u)]>
             (w_profiles w))
     /\ is_Some (w_profiles w' !! u))
  /\ (forall e, fault E AtProfileGet = Some e ->
        V3.login P E POST form session w = (Raise e, w))
  /\ (forall e, fault E AtProfileGet = None -> w_profiles w !! u = None ->
        fault E AtProfileSet = Some e ->
        V3.login P E POST form session w = (Raise e, w)).
Proof.
  intros Hu Hp Hknown Henv.
  assert (V3.login P E POST form session w
          = (V3.get_or_create_user_profile E u;;
             ret (PageRedirect "chat_page", logged_in u session)) w) as ->.
  { unfold V3.login, V3.USERS. rewrite Hu, Hp.
    rewrite load_users_lookup, decide_True, Henv by done.
    by rewrite bool_decide_eq_true_2. }
  unfold V3.get_or_create_user_profile, profile_document_get, profile_document_set.
  run. split_and!.
  - intros -> Hset. destruct (w_profiles w !! u) as [d|] eqn:Hd.
    + exists w. split_and!; [done|done|done|]. by rewrite Hd.
    + rewrite Hset. eexists. split_and!; [done|by intros [? [=]]| |].
      * intros _. reflexivity.
      * cbn. by rewrite lookup_insert_eq.
  - by intros e ->.
  - by intros e -> -> ->.
Qed.

(** ** Sessions *)

(** X7. Every protected route answers a session that is not authenticated
    without touching the database or calling a service: the pages (the chat
    page of v2 to v5, the settings of v3 to v5, the audio chat page)
    redirect to the login, the API routes (chat of v3 to v5, clear-history
    of v2 to v5, transcribe_and_chat) answer 401 Unauthorized. Logout leaves
    such a session in every iteration; in v5 it also removes the username
    and the admin flag and flashes its message, after which the admin page
    refuses the session and the landing page shows the landing template. *)
Theorem protected_routes_need_login (E : Env) (U : UpdateEnv) (E' : Env)
    (method : http_method) (form json files : gmap string string)
    (session : Session) (w : World) :
  (s_authenticated session = false ->
   (V2.chat_page E session w = (Ok (Redirect "login", session), w)
    /\ V3.chat_page E session w = (Ok (Redirect "login", session), w)
    /\ V4.chat_page E session w = (Ok (Redirect "login", session), w)
    /\ V5.chat_page E session w = (Ok (Redirect "login", session), w)
    /\ V3.agent_settings E U method form session w
       = (Ok (PageRedirect "login", session), w)
    /\ agent_settings E U E' method form session w
       = (Ok (PageRedirect "login", session), w)
    /\ V5.audio_chat_page session = (PageRedirect "login", session))
   /\ (V3.chat E json session w = (Ok (json_error "Unauthorized" 401), w)
       /\ V4.chat E json session w = (Ok (json_error "Unauthorized" 401), w)
       /\ V5.chat E json session w = (Ok (json_error "Unauthorized" 401), w)
       /\ V2.clear_history E session w = (Ok (json_error "Unauthorized" 401), w)
       /\ clear_history E session w = (Ok (json_error "Unauthorized" 401), w)
       /\ V5.transcribe_and_chat E files session w
          = (Ok (json_error "Unauthorized" 401), w)))
  /\ (s_authenticated (V2.logout session).2 = false
      /\ s_authenticated (V3.logout session).2 = false
      /\ s_authenticated (V4.logout session).2 = false
      /\ s_authenticated (V5.logout session).2 = false)
  /\ (let out := (V5.logout session).2 in
      V5.logout session = (PageRedirect "login", out)
      /\ s_username out = None /\ s_is_admin out = false
      /\ s_flashes out = s_flashes session ++ [("info", "You have been logged out.")]
      /\ V5.admin_create_user E method form out w
         = (Ok (Redirect "chat_page",
                flash "You do not have permission to access this page." "danger" out),
            w)
      /\ V5.landing_page out = (PageTemplate "landing.html" ∅, out)).
Proof.
  split_and!; [|done..|cbv zeta; by split_and!].
  intros Hanon.
  unfold V2.chat_page, V3.chat_page, V4.chat_page, V5.chat_page, chat_page_of,
    V3.agent_settings, agent_settings, V5.audio_chat_page, V3.chat, V4.chat,
    V5.chat, V2.clear_history, clear_history, V5.transcribe_and_chat.
  rewrite Hanon. cbn [negb]. by split_and!.
Qed.

Lemma same_login_refl s : same_login s s.
Proof. by unfold same_login. Qed.

Lemma same_login_flash message category s : same_login s (flash message category s).
Proof. by unfold same_login. Qed.

Lemma same_login_trans s1 s2 s3 : same_login s1 s2 -> same_login s2 s3 -> same_login s1 s3.
Proof. unfold same_login. intros (-> & -> & ->) (-> & -> & ->). done. Qed.

Lemma admin_flag_sound_same s s' :
  admin_flag_sound s -> same_login s s' -> admin_flag_sound s'.
Proof. unfold same_login, admin_flag_sound. intros Hs (-> & -> & ->). done. Qed.

Lemma chat_page_of_same_login template E session w r s' w' :
  chat_page_of template E session w = (Ok (r, s'), w') -> same_login session s'.
Proof.
  unfold chat_page_of. destruct (s_authenticated session); cbn [negb].
  - rewrite bind_run.
    destruct (db_handle_cases E w) as [[_ ->]|(e & _ & ->)]; [|by intros [=]].
    unfold messages_recent. run. destruct (fault E AtHistoryStream);
      intros [= _ <- _]; auto using same_login_refl, same_login_flash.
  - intros [= _ <- _]. apply same_login_refl.
Qed.

Lemma agent_settings_same_login E U E' method form session w p s' w' :
  agent_settings E U E' method form session w = (Ok (p, s'), w') ->
  same_login session s'.
Proof.
  unfold agent_settings. destruct (s_authenticated session); cbn [negb];
    [|intros [= _ <- _]; apply same_login_refl].
  run.
  destruct (get_user_profile_data E (s_username session) w) as [[?|?] w1];
    [|by intros [=]].
  destruct method; [intros [= _ <- _]; apply same_login_refl|].
  destruct (users_document_update U (s_username session) _ w1) as [[[]|?] w2];
    [|intros [= _ <- _]; apply same_login_flash].
  destruct (get_user_profile_data E' (s_username session) w2) as [[?|?] w3];
    intros [= _ <- _]; apply same_login_flash.
Qed.

Lemma admin_create_user_page_same_login ALLOWED E method form session w r s' w' :
  admin_create_user_page ALLOWED E method form session w = (Ok (r, s'), w') ->
  same_login session s'.
Proof.
  unfold admin_create_user_page.
  assert (forall session0 w0,
    same_login session session0 ->
    (db_handle E;;
     listing <-
       try_except
         (docs <- users_stream E AtUsersStream;;
          ret (map (fun data : dict => delete "hashed_password" data) docs,
               session0))
         (fun e => ret ([], flash ("Error fetching user list: " +:+ e) "danger"
                              session0));;
     let '(user_list, session) := listing in
     ret (RenderTemplate "admin_create_user.html"
            (AdminContext ALLOWED user_list), session)) w0 = (Ok (r, s'), w') ->
    same_login session s') as Hlisting.
  { intros session0 w0 Hsame. rewrite bind_run.
    destruct (db_handle_cases E w0) as [[_ ->]|(e & _ & ->)]; [|by intros [=]].
    unfold users_stream. run.
    destruct (fault E AtUsersStream); intros [= _ <- _];
      eauto using same_login_trans, same_login_flash. }
  destruct method; [apply Hlisting, same_login_refl|].
  cbv zeta.
  set (username := default "" (form !! "username")).
  set (password := default "" (form !! "password")).
  destruct (nonempty username && nonempty password);
    [|apply Hlisting, same_login_flash].
  rewrite !bind_run.
  destruct (create_or_update_user ALLOWED E username password None w)
    as [[[[] message]|e] w1].
  - apply Hlisting, same_login_flash.
  - apply Hlisting, same_login_flash.
  - by intros [=].
Qed.

Lemma login_keeps_flag_sound E method form session w r s' w' :
  admin_flag_sound session ->
  V5.login E method form session w = (Ok (r, s'), w') ->
  admin_flag_sound s'.
Proof.
  intros Hsound. unfold V5.login.
  destruct (s_authenticated session) eqn:Hauth; [by intros [= _ <- _]|].
  assert (s_is_admin session = false) as Hflag.
  { destruct (s_is_admin session) eqn:Hflag; [|done].
    destruct (Hsound Hflag) as [? _]. congruence. }
  destruct method; [by intros [= _ <- _]|].
  unfold get_user_data, users_document_get. run.
  destruct (fault E AtUserGet); [by intros [=]|].
  destruct (_ ≫= _) as [hashed_password|];
    [|intros [= _ <- _];
      by eapply admin_flag_sound_same, same_login_flash].
  destruct (encode (value_of (form !! "password"))); [|by intros [=]].
  destruct (encode hashed_password); [|by intros [=]].
  destruct (checkpw E _ _) as [[]|];
    [|intros [= _ <- _];
      by eapply admin_flag_sound_same, same_login_flash
     |by intros [=]].
  intros [= _ <- _]. unfold admin_flag_sound. cbn. rewrite Hflag.
  destruct (form !! "username") as [u|]; [|done].
  destruct (bool_decide (u ∈ V5.ADMIN_USERNAMES)) eqn:Hadmin; [|done].
  apply bool_decide_eq_true in Hadmin. eauto.
Qed.

(** X8. In v5 the admin flag of a session stays sound: if it is only set
    in the session of a logged-in user of [ADMIN_USERNAMES], then the same
    holds of the session after login, logout, the landing page, the audio
    chat page, the chat page, the settings and the admin page. The admin
    page changes the users collection only for such a session, and a
    successful login of a session that was not authenticated sets the flag
    exactly when the submitted username is in [ADMIN_USERNAMES]. *)
Theorem admin_flag_stays_sound (E : Env) (U : UpdateEnv) (E' : Env)
    (method : http_method) (form : gmap string string) (session : Session)
    (w : World) :
  admin_flag_sound session ->
  (forall r s' w',
     V5.login E method form session w = (Ok (r, s'), w') -> admin_flag_sound s')
  /\ admin_flag_sound (V5.logout session).2
  /\ admin_flag_sound (V5.landing_page session).2
  /\ admin_flag_sound (V5.audio_chat_page session).2
  /\ (forall r s' w',
        V5.chat_page E session w = (Ok (r, s'), w') -> admin_flag_sound s')
  /\ (forall p s' w',
        agent_settings E U E' method form session w = (Ok (p, s'), w') ->
        admin_flag_sound s')
  /\ (forall r s' w',
        V5.admin_create_user E method form session w = (Ok (r, s'), w') ->
        admin_flag_sound s'
        /\ (w_users w' <> w_users w ->
            s_authenticated session = true
            /\ exists u, s_username session = Some u /\ u ∈ V5.ADMIN_USERNAMES))
  /\ (forall s' w',
        s_authenticated session = false ->
        V5.login E POST form session w = (Ok (Redirect "chat_page", s'), w') ->
        s_is_admin s' = true
        <-> exists u, form !! "username" = Some u /\ u ∈ V5.ADMIN_USERNAMES).
Proof.
  intros Hsound. split_and!.
  - intros r s' w'. by apply login_keeps_flag_sound.
  - by intros [=].
  - unfold V5.landing_page. by destruct (s_authenticated session).
  - unfold V5.audio_chat_page. by destruct (s_authenticated session).
  - intros r s' w' Hrun.
    by eapply admin_flag_sound_same, chat_page_of_same_login.
  - intros p s' w' Hrun.
    by eapply admin_flag_sound_same, agent_settings_same_login.
  - intros r s' w'. unfold V5.admin_create_user.
    destruct (s_is_admin session) eqn:Hflag; cbn [negb].
    + intros Hrun. split; [|by intros _; apply Hsound].
      by eapply admin_flag_sound_same, admin_create_user_page_same_login.
    + intros [= _ <- <-]. split; [|done].
      by eapply admin_flag_sound_same, same_login_flash.
  - intros s' w' Hanon.
    assert (s_is_admin session = false) as Hflag.
    { destruct (s_is_admin session) eqn:Hflag; [|done].
      destruct (Hsound Hflag) as [? _]. congruence. }
    unfold V5.login. rewrite Hanon.
    unfold get_user_data, users_document_get. run.
    destruct (fault E AtUserGet); [by intros [=]|].
    destruct (_ ≫= _) as [hashed_password|]; [|by intros [=]].
    destruct (encode (value_of (form !! "password"))); [|by intros [=]].
    destruct (encode hashed_password); [|by intros [=]].
    destruct (checkpw E _ _) as [[]|]; [|by intros [=]..].
    intros [= <- _]. cbn. rewrite Hflag.
    destruct (form !! "username") as [u|].
    + destruct (bool_decide (u ∈ V5.ADMIN_USERNAMES)) eqn:Hadmin; split.
      * intros _. apply bool_decide_eq_true in Hadmin. eauto.
      * done.
      * done.
      * intros (u' & [= <-] & Hu'). apply bool_decide_eq_false in Hadmin. done.
    + split; [done|]. by intros (u & [=] & _).
Qed.

(** ** Settings *)

Lemma get_user_profile_data_hides E username w profile w1 :
  get_user_profile_data E username w = (Ok profile, w1) ->
  profile !! "hashed_password" = None /\ profile !! "last_updated_at" = None.
Proof.
  unfold get_user_profile_data, users_document_get, users_document_set_merge. run.
  destruct (fault E AtUserGet); [by intros [=]|].
  destruct (username ≫= _) as [d|].
  - intros [= <- _]. split.
    + rewrite !lookup_delete_ne by done. apply lookup_delete_eq.
    + rewrite lookup_delete_ne by done. apply lookup_delete_eq.
  - destruct (fault E AtUserSet); [by intros [=]|]. intros [= <- _].
    by destruct username.
Qed.

(** X9. The profile that the settings page of v3.1, v4 and v5 hands to its
    template never holds the password hash nor [last_updated_at], whatever
    the request, the database and the failures. *)
Theorem settings_page_hides_credential (E : Env) (U : UpdateEnv) (E' : Env)
    (method : http_method) (form : gmap string string) (session session' : Session)
    (w w' : World) (p : page) (user_profile : dict) :
  agent_settings E U E' method form session w = (Ok (p, session'), w') ->
  shown_profile p = Some user_profile ->
  user_profile !! "hashed_password" = None
  /\ user_profile !! "last_updated_at" = None.
Proof.
  unfold agent_settings. destruct (s_authenticated session); cbn [negb];
    [|by intros [= <- _ _]].
  run.
  destruct (get_user_profile_data E (s_username session) w)
    as [[entry_profile|e] w1] eqn:Hentry; [|by intros [=]].
  pose proof (get_user_profile_data_hides _ _ _ _ _ Hentry) as Hhidden.
  destruct method; [intros [= <- _ _] [= <-]; exact Hhidden|].
  destruct (users_document_update U (s_username session) _ w1) as [[[]|e] w2];
    [|intros [= <- _ _] [= <-]; exact Hhidden].
  destruct (get_user_profile_data E' (s_username session) w2)
    as [[reread|e] w3] eqn:Hreread;
    [|intros [= <- _ _] [= <-]; exact Hhidden].
  intros [= <- _ _] [= <-].
  exact (get_user_profile_data_hides _ _ _ _ _ Hreread).
Qed.

Lemma rstrip_idempotent s : rstrip (rstrip s) = rstrip s.
Proof.
  induction s as [|c s IH]; [done|]. cbn [rstrip].
  destruct (rstrip s) as [|c' r] eqn:Hr.
  - destruct (isspace c) eqn:Hc; [done|]. cbn [rstrip]. by rewrite Hc.
  - change (rstrip (String c (String c' r)))
      with (match rstrip (String c' r) with
            | EmptyString => if isspace c then EmptyString else String c EmptyString
            | String c1 r1 => String c (String c1 r1)
            end).
    by rewrite IH.
Qed.

Lemma lstrip_head s : lstrip s = "" \/ exists c r, lstrip s = String c r /\ isspace c = false.
Proof.
  induction s as [|c s IH]; [by left|]. cbn [lstrip].
  destruct (isspace c) eqn:Hc; [done|]. right. by exists c, s.
Qed.

Lemma strip_idempotent s : strip (strip s) = strip s.
Proof.
  unfold strip. destruct (lstrip_head s) as [->|(c & r & -> & Hc)]; [done|].
  assert (exists r', rstrip (String c r) = String c r') as [r' Hr'].
  { cbn [rstrip]. destruct (rstrip r); rewrite ?Hc; eauto. }
  rewrite Hr'. cbn [lstrip]. rewrite Hc, <- Hr'. apply rstrip_idempotent.
Qed.

Lemma resolve_saved_settings now form :
  resolve now (saved_settings form) = saved_settings form.
Proof. reflexivity. Qed.

(** The read on entry of the settings, the database answering. *)
Lemma get_user_profile_data_entry E u w :
  fault E AtUserGet = None -> fault E AtUserSet = None ->
  exists w1,
    get_user_profile_data E (Some u) w = (Ok (profile_on_entry w u), w1)
    /\ w_users w1 = <[u := document_on_entry w u]> (w_users w)
    /\ w_profiles w1 = w_profiles w /\ w_messages w1 = w_messages w
    /\ w_trace w1 = w_trace w
    /\ (w_now w <= w_now w1)%Z.
Proof.
  intros Hget Hset.
  unfold get_user_profile_data, users_document_get, users_document_set_merge,
    document_on_entry, profile_on_entry. run.
  rewrite Hget. cbn [mbind option_bind].
  destruct (w_users w !! u) as [d|] eqn:Hd.
  - exists w. split_and!; try done. by rewrite insert_id.
  - rewrite Hset. eexists. split_and!; try done.
    + cbn. rewrite Hd. cbn. by rewrite (right_id_L ∅ (∪)).
    + cbn. lia.
Qed.

Lemma get_user_profile_data_stored E u w d :
  fault E AtUserGet = None -> w_users w !! u = Some d ->
  get_user_profile_data E (Some u) w = (Ok (profile_view d), w).
Proof.
  intros Hget Hd. unfold get_user_profile_data, users_document_get. run.
  rewrite Hget. cbn [mbind option_bind]. by rewrite Hd.
Qed.

Lemma saved_settings_fields form k :
  k ∈ profile_fields ->
  saved_settings form !! k = Some (VStr (strip (default "" (form !! k)))).
Proof.
  unfold profile_fields. intros Hk.
  repeat (apply elem_of_cons in Hk as [->|Hk]); [done..|].
  by apply elem_of_nil in Hk.
Qed.

Lemma saved_settings_others form k :
  k ∉ profile_fields -> saved_settings form !! k = None.
Proof.
  unfold profile_fields, saved_settings. intros Hk.
  apply not_elem_of_cons in Hk as [H1 Hk]. apply not_elem_of_cons in Hk as [H2 Hk].
  apply not_elem_of_cons in Hk as [H3 Hk]. apply not_elem_of_cons in Hk as [H4 _].
  rewrite !lookup_insert_ne by done. by apply lookup_singleton_ne.
Qed.

Lemma profile_view_fields (d : dict) k :
  k ∈ profile_fields -> profile_view d !! k = d !! k.
Proof.
  unfold profile_fields, profile_view. intros Hk.
  repeat (apply elem_of_cons in Hk as [->|Hk]);
    [by rewrite !lookup_delete_ne by done..|].
  by apply elem_of_nil in Hk.
Qed.

(** X10. A POST to /settings (v3.1, v4 and v5) of a logged-in user, the
    database answering: the four profile fields of the user document are
    overwritten by the form values, each trimmed, a missing one by the
    empty string; every other field of the document (the password hash
    among them) and every other document stay; "Settings saved!" is
    flashed; the page shows the profile as read again after the update,
    which is what the next profile read answers; the stored values are
    already trimmed. *)
Theorem settings_are_saved (E : Env) (U : UpdateEnv) (E' : Env)
    (form : gmap string string) (session : Session) (u : string) (w : World) :
  s_authenticated session = true ->
  s_username session = Some u ->
  fault E AtUserGet = None -> fault E AtUserSet = None ->
  update_fault U = None ->
  fault E' AtUserGet = None ->
  let stored := saved_settings form ∪ document_on_entry w u in
  exists w',
    agent_settings E U E' POST form session w
    = (Ok (settings_page (profile_view stored) (Some u),
           flash "Settings saved!" "success" session), w')
    /\ w_users w' = <[u := stored]> (w_users w)
    /\ w_profiles w' = w_profiles w /\ w_messages w' = w_messages w
    /\ (forall k, k ∈ profile_fields ->
          stored !! k = Some (VStr (strip (default "" (form !! k))))
          /\ profile_view stored !! k = stored !! k
          /\ strip (strip (default "" (form !! k))) = strip (default "" (form !! k)))
    /\ (forall k, k ∉ profile_fields -> stored !! k = document_on_entry w u !! k)
    /\ get_user_profile_data E' (Some u) w' = (Ok (profile_view stored), w').
Proof.
  intros Hauth Hu Hget Hset Hupdate Hreread stored.
  destruct (get_user_profile_data_entry E u w Hget Hset)
    as (w1 & Hentry & Husers & Hprofiles & Hmessages & _ & _).
  unfold agent_settings. rewrite Hauth, Hu. cbn [negb].
  rewrite bind_run, Hentry. unfold try_except. rewrite bind_run.
  unfold users_document_update. rewrite Hupdate. cbn [document_id].
  rewrite Husers, lookup_insert_eq.
  fold (saved_settings form). rewrite resolve_saved_settings. fold stored.
  set (w2 := tick (with_users (insert u stored) w1)).
  assert (w_users w2 = <[u := stored]> (w_users w)) as Husers2.
  { unfold w2. cbn. by rewrite Husers, insert_insert_eq. }
  assert (get_user_profile_data E' (Some u) w2 = (Ok (profile_view stored), w2))
    as Hread.
  { apply get_user_profile_data_stored; [done|]. by rewrite Husers2, lookup_insert_eq. }
  rewrite bind_run, Hread. exists w2. split_and!; try done.
  - intros k Hk. unfold stored at 1.
    rewrite lookup_union, saved_settings_fields by done. split_and!.
    + by destruct (document_on_entry w u !! k).
    + by apply profile_view_fields.
    + apply strip_idempotent.
  - intros k Hk. unfold stored.
    rewrite lookup_union, saved_settings_others by done.
    by destruct (document_on_entry w u !! k).
Qed.

(** X11. Failures of a POST to /settings (v3.1, v4 and v5), the read on
    entry succeeding. When the update fails, "Failed to save settings: ..."
    is flashed with the message of the failure, the page shows the profile
    read on entry and the document is as that read left it. When the update
    succeeds and the read that follows it fails, the same message and the
    same page are answered although the settings are saved. *)
Theorem settings_failure_is_reported (E : Env) (U : UpdateEnv) (E' : Env)
    (form : gmap string string) (session : Session) (u : string) (w : World) :
  s_authenticated session = true ->
  s_username session = Some u ->
  fault E AtUserGet = None -> fault E AtUserSet = None ->
  (forall e,
     update_fault U = Some e ->
     exists w',
       agent_settings E U E' POST form session w
       = (Ok (settings_page (profile_on_entry w u) (Some u),
              flash ("Failed to save settings: " +:+ e) "danger" session), w')
       /\ w_users w' = <[u := document_on_entry w u]> (w_users w))
  /\ (forall e,
        update_fault U = None -> fault E' AtUserGet = Some e ->
        exists w',
          agent_settings E U E' POST form session w
          = (Ok (settings_page (profile_on_entry w u) (Some u),
                 flash ("Failed to save settings: " +:+ e) "danger" session), w')
          /\ w_users w'
             = <[u := saved_settings form ∪ document_on_entry w u]> (w_users w)).
Proof.
  intros Hauth Hu Hget Hset.
  destruct (get_user_profile_data_entry E u w Hget Hset)
    as (w1 & Hentry & Husers & _).
  unfold agent_settings. rewrite Hauth, Hu. cbn [negb].
  rewrite bind_run, Hentry. unfold try_except. rewrite bind_run.
  unfold users_document_update. split.
  - intros e ->. by exists w1.
  - intros e -> Hreread. cbn [document_id].
    rewrite Husers, lookup_insert_eq.
    fold (saved_settings form). rewrite resolve_saved_settings.
    unfold get_user_profile_data, users_document_get. run. rewrite Hreread.
    eexists. split; [reflexivity|]. cbn. by rewrite Husers, insert_insert_eq.
Qed.

(** X12. Settings of v3, for a logged-in user and a profile store that
    answers. A POST writes persona, goal and special instructions, trimmed,
    into the profile document and leaves its other fields, the display
    name among them; the page that reports "Settings saved!" shows the
    profile as it was read before the update. When the update fails, the
    page reports "Failed to save settings." without the cause, and the
    profile document is as the read on entry left it. *)
Theorem v3_settings_page_shows_old_profile (E : Env) (U : UpdateEnv)
    (form : gmap string string) (session : Session) (u : string) (w : World) :
  s_authenticated session = true ->
  s_username session = Some u ->
  fault E AtProfileGet = None -> fault E AtProfileSet = None ->
  (update_fault U = None ->
   exists w',
     V3.agent_settings E U POST form session w
     = (Ok (PageTemplate "settings.html"
              {[ "user_profile" := ArgProfile (profile_read_v3 w u);
                 "success_message" := ArgValue (VStr "Settings saved!");
                 "username" := ArgValue (VStr u) ]}, session), w')
     /\ w_profiles w'
        = <[u := saved_settings_v3 form ∪ profile_document_v3 w u]> (w_profiles w)
     /\ w_users w' = w_users w /\ w_messages w' = w_messages w)
  /\ (forall e,
        update_fault U = Some e ->
        exists w',
          V3.agent_settings E U POST form session w
          = (Ok (PageTemplate "settings.html"
                   {[ "user_profile" := ArgProfile (profile_read_v3 w u);
                      "error_message" := ArgValue (VStr "Failed to save settings.");
                      "username" := ArgValue (VStr u) ]}, session), w')
          /\ w_profiles w' = <[u := profile_document_v3 w u]> (w_profiles w))
  /\ (forall k,
        k ∈ ["agent_persona"; "agent_goal"; "special_instructions"] ->
        (saved_settings_v3 form ∪ profile_document_v3 w u) !! k
        = Some (VStr (strip (default "" (form !! k)))))
  /\ (forall k,
        k ∉ ["agent_persona"; "agent_goal"; "special_instructions"] ->
        (saved_settings_v3 form ∪ profile_document_v3 w u) !! k
        = profile_document_v3 w u !! k).
Proof.
  intros Hauth Hu Hget Hset.
  assert (exists w1,
    V3.get_or_create_user_profile E u w = (Ok (profile_read_v3 w u), w1)
    /\ w_profiles w1 = <[u := profile_document_v3 w u]> (w_profiles w)
    /\ w_users w1 = w_users w /\ w_messages w1 = w_messages w) as (w1 & Hentry & Hp & Hus & Hm).
  { unfold V3.get_or_create_user_profile, profile_document_get, profile_document_set,
      profile_read_v3, profile_document_v3. run. rewrite Hget.
    destruct (w_profiles w !! u) as [d|] eqn:Hd.
    - exists w. split_and!; try done. by rewrite insert_id.
    - rewrite Hset. by eexists. }
  unfold V3.agent_settings, V3.get_or_create_user_profile_of.
  rewrite Hauth, Hu. cbn [negb]. rewrite bind_run, Hentry.
  unfold try_except. rewrite bind_run. unfold profile_document_update.
  fold (saved_settings_v3 form). split_and!.
  - intros ->. cbn [document_id]. rewrite Hp, lookup_insert_eq.
    eexists. split_and!; [reflexivity|..]; cbn; try done.
    by rewrite Hp, insert_insert_eq.
  - intros e ->. by exists w1.
  - intros k Hk. rewrite lookup_union.
    repeat (apply elem_of_cons in Hk as [->|Hk]);
      [by destruct (profile_document_v3 w u !! _)..|].
    by apply elem_of_nil in Hk.
  - intros k Hk.
    apply not_elem_of_cons in Hk as [H1 Hk]. apply not_elem_of_cons in Hk as [H2 Hk].
    apply not_elem_of_cons in Hk as [H3 _].
    rewrite lookup_union. unfold saved_settings_v3.
    rewrite !lookup_insert_ne, lookup_singleton_ne by done.
    by destruct (profile_document_v3 w u !! k).
Qed.

(** A chat turn whose profile read, prompt assembly and history read
    succeed calls the model once, with that instruction. *)
Lemma chat_turn_calls_model E get_profile limit u input w profile w1 sys :
  get_profile w = (Ok profile, w1) ->
  w_messages w1 = w_messages w -> w_trace w1 = w_trace w ->
  system_instruction_text E profile (Some u) = Ok sys ->
  fault E AtHistoryStream = None ->
  exists r w',
    chat_turn E get_profile limit u input w = (Ok r, w')
    /\ generate_calls (w_trace w')
       = generate_calls (w_trace w)
         ++ [(sys, spec_turn_list limit (messages w (Some u)) input)].
Proof.
  intros Hread Hm Ht Hsys Hstream. unfold chat_turn. run. rewrite Hread, Hsys.
  unfold messages_recent, messages_add. run. rewrite Hstream.
  assert (messages w1 (Some u) = messages w (Some u)) as ->
    by (unfold messages; by rewrite Hm).
  rewrite current_conversation_spec.
  destruct (generate_content E sys _) as [ai|e].
  - destruct (fault E AtMessagesAdd) as [e|]; eexists _, _; (split; [reflexivity|]);
      cbn; rewrite Ht; unfold generate_calls; rewrite !omap_app; cbn;
      by rewrite ?app_nil_r.
  - eexists _, _. split; [reflexivity|]. cbn. rewrite Ht.
    unfold generate_calls. by rewrite !omap_app.
Qed.

Lemma text_field_view_saved form (old : dict) k :
  k ∈ profile_fields ->
  text_field (profile_view (saved_settings form ∪ old)) k
  = Some (strip (default "" (form !! k))).
Proof.
  intros Hk. unfold text_field.
  rewrite profile_view_fields, lookup_union, saved_settings_fields by done.
  by destruct (old !! k).
Qed.

Lemma profile_view_saved_is_text form (old : dict) :
  text_profile (profile_view (saved_settings form ∪ old)).
Proof.
  intros k v Hk. fold profile_fields in Hk.
  rewrite profile_view_fields, lookup_union, saved_settings_fields by done.
  destruct (old !! k); intros [= <-]; eauto.
Qed.

(** X13. Settings and chat composed (v4 and v5). After a POST to
    /settings that was saved, the next POST /chat of the user, with the
    model client present and the reads succeeding, calls the model once,
    with the system instruction assembled from the four saved values (each
    one present, so no default takes part: an empty persona or goal is
    left out, and an empty display name gives no name) and with the turn
    list of the stored history. *)
Theorem saved_settings_reach_the_model (E : Env) (U : UpdateEnv) (E' E2 : Env)
    (form json : gmap string string) (session : Session) (u : string) (w : World) :
  s_authenticated session = true ->
  s_username session = Some u ->
  fault E AtUserGet = None -> fault E AtUserSet = None ->
  update_fault U = None ->
  fault E' AtUserGet = None ->
  client_ready E2 = true ->
  fault E2 AtUserGet = None -> fault E2 AtHistoryStream = None ->
  let instruction :=
    spec_system_instruction
      (Some (strip (default "" (form !! "agent_persona"))))
      (Some (strip (default "" (form !! "agent_goal"))))
      (Some (strip (default "" (form !! "special_instructions"))))
      (Some (strip (default "" (form !! "user_display_name"))))
      u in
  let turn_list :=
    spec_turn_list 10 (messages w (Some u)) (default "" (json !! "message")) in
  exists p s' w1,
    agent_settings E U E' POST form session w = (Ok (p, s'), w1)
    /\ (exists r w2,
          V4.chat E2 json session w1 = (Ok r, w2)
          /\ generate_calls (w_trace w2)
             = generate_calls (w_trace w) ++ [(instruction, turn_list)])
    /\ (exists r w2,
          V5.chat E2 json session w1 = (Ok r, w2)
          /\ generate_calls (w_trace w2)
             = generate_calls (w_trace w) ++ [(instruction, turn_list)]).
Proof.
  intros Hauth Hu Hget Hset Hupdate Hreread Hready Hget2 Hstream2 instruction turn_list.
  destruct (get_user_profile_data_entry E u w Hget Hset)
    as (w1 & Hentry & Husers & Hprofiles & Hmessages & Htrace & _).
  set (stored := saved_settings form ∪ document_on_entry w u).
  set (w2 := tick (with_users (insert u stored) w1)).
  assert (agent_settings E U E' POST form session w
          = (Ok (settings_page (profile_view stored) (Some u),
                 flash "Settings saved!" "success" session), w2)) as Hsaved.
  { unfold agent_settings. rewrite Hauth, Hu. cbn [negb].
    rewrite bind_run, Hentry. unfold try_except. rewrite bind_run.
    unfold users_document_update. rewrite Hupdate. cbn [document_id].
    rewrite Husers, lookup_insert_eq.
    fold (saved_settings form). rewrite resolve_saved_settings.
    fold stored. fold w2.
    rewrite bind_run, (get_user_profile_data_stored E' u w2 stored); [done..|].
    unfold w2. cbn. by rewrite lookup_insert_eq. }
  assert (get_user_profile_data E2 (Some u) w2 = (Ok (profile_view stored), w2))
    as Hread.
  { apply get_user_profile_data_stored; [done|]. unfold w2. cbn.
    by rewrite lookup_insert_eq. }
  assert (system_instruction_text E2 (profile_view stored) (Some u) = Ok instruction)
    as Hsys.
  { unfold system_instruction_text, instruction, spec_system_instruction.
    rewrite system_instruction_parts_text by apply profile_view_saved_is_text.
    rewrite filter_truthy_text, as_strings_text. unfold stored.
    by rewrite !text_field_view_saved
      by (unfold profile_fields; rewrite !elem_of_cons; auto 6). }
  assert (messages w2 (Some u) = messages w (Some u)) as Hm2.
  { unfold messages, w2. cbn. by rewrite Hmessages. }
  assert (w_trace w2 = w_trace w) as Ht2 by (unfold w2; cbn; done).
  destruct (chat_turn_calls_model E2 (get_user_profile_data E2 (Some u)) 10 u
              (default "" (json !! "message")) w2 _ w2 instruction
              Hread eq_refl eq_refl Hsys Hstream2) as (r & w3 & Hrun & Hcalls).
  rewrite Hm2, Ht2 in Hcalls.
  eexists _, _, w2. split; [exact Hsaved|].
  unfold V4.chat, V5.chat. rewrite Hauth, Hready, Hu. cbn [negb default from_option id].
  split; by exists r, w3.
Qed.

(** ** What the next turn is told *)

(** A turn that is later than every stored one is the first of the
    descending order. *)
Lemma order_by_timestamp_desc_newest (c : gmap nat turn) (k : nat) (t : turn) :
  c !! k = None ->
  (forall k' t', c !! k' = Some t' -> (t_timestamp t' < t_timestamp t)%Z) ->
  order_by_timestamp_desc (<[k := t]> c) = (k, t) :: order_by_timestamp_desc c.
Proof.
  intros Hfresh Hnewest.
  assert (order_by_timestamp_desc (<[k := t]> c)
          ≡ₚ (k, t) :: order_by_timestamp_desc c) as Hperm.
  { rewrite !order_by_timestamp_desc_perm. by apply map_to_list_insert. }
  apply StronglySorted_unique_strong with newer.
  - intros [k1 t1] [k2 t2] H1 H2 H12 H21.
    rewrite order_by_timestamp_desc_perm in H1.
    rewrite <- Hperm, order_by_timestamp_desc_perm in H2.
    apply elem_of_map_to_list in H1, H2.
    assert (k1 = k2) as -> by (unfold newer in *; simpl in *; lia).
    congruence.
  - apply order_by_timestamp_desc_sorted.
  - constructor; [apply order_by_timestamp_desc_sorted|].
    apply Forall_forall. intros [k' t'] Hin.
    rewrite order_by_timestamp_desc_perm in Hin.
    apply elem_of_map_to_list in Hin. left. simpl. by apply (Hnewest k').
  - done.
Qed.

Lemma get_user_profile_data_clock E username w r w1 :
  get_user_profile_data E username w = (r, w1) -> (w_now w <= w_now w1)%Z.
Proof.
  unfold get_user_profile_data, users_document_get, users_document_set_merge. run.
  destruct (fault E AtUserGet); [by intros [= _ <-]|].
  destruct (username ≫= _); [by intros [= _ <-]|].
  destruct (fault E AtUserSet); intros [= _ <-]; cbn; lia.
Qed.

(** What a successful chat turn has stored. *)
Lemma chat_turn_stored E limit u input w ai w' :
  chat_turn E (get_user_profile_data E (Some u)) limit u input w
  = (Ok (Jsonify {[ "response" := JStr ai ]} 200), w') ->
  exists now,
    (w_now w <= now < w_now w')%Z
    /\ messages w' (Some u)
       = <[fresh (dom (messages w (Some u))) := Turn (Some u) input ai now]>
           (messages w (Some u)).
Proof.
  unfold chat_turn. run.
  destruct (get_user_profile_data E (Some u) w) as [[profile|e] w1] eqn:Hread;
    [|by intros [=]].
  destruct (get_user_profile_data_quiet E _ _ _ _ Hread) as [Hm _].
  apply get_user_profile_data_clock in Hread.
  destruct (system_instruction_text E profile (Some u)) as [sys|e]; [|by intros [=]].
  unfold messages_recent, messages_add. run.
  destruct (fault E AtHistoryStream); [by intros [=]|].
  destruct (generate_content E sys _) as [ai'|e]; [|by intros [=]].
  destruct (fault E AtMessagesAdd); [by intros [=]|].
  intros Heq.
  pose proof (f_equal
    (fun run : result response * World =>
       match run.1 with
       | Ok (Jsonify body _) => body !! "response"
       | _ => None
       end) Heq) as Hbody.
  cbn [fst] in Hbody. rewrite !lookup_singleton_eq in Hbody.
  injection Hbody as ->.
  pose proof (f_equal snd Heq) as Hw. cbn [snd] in Hw. subst w'. clear Heq.
  exists (w_now w1). split; [cbn; lia|].
  unfold messages. cbn. by rewrite lookup_insert_eq, Hm.
Qed.

Lemma stored_turn_remembered u said ai now (w w1 : World) :
  clock_ahead w u ->
  (w_now w <= now < w_now w1)%Z ->
  messages w1 (Some u)
  = <[fresh (dom (messages w (Some u))) := Turn (Some u) said ai now]>
      (messages w (Some u)) ->
  remembered u said ai w w1.
Proof.
  intros Hclock Hnow Hstored.
  assert (messages w (Some u) !! fresh (dom (messages w (Some u))) = None) as Hfresh
    by apply not_elem_of_dom, is_fresh.
  split_and!.
  - intros k t. rewrite Hstored, lookup_insert.
    destruct (decide _); [intros [= <-]; simpl; lia|].
    intros Hk. specialize (Hclock k t Hk). lia.
  - unfold turn_count. rewrite Hstored. apply turn_count_added.
  - intros N incoming. unfold spec_turn_list, history_read.
    rewrite <- history_entries_flatten, Hstored.
    rewrite order_by_timestamp_desc_newest; [|done|].
    2:{ intros k' t' Hk'. specialize (Hclock k' t' Hk'). simpl. lia. }
    rewrite firstn_cons, reverse_cons, history_entries_app, <- !app_assoc.
    f_equal. rewrite history_entries_flatten. simpl. unfold spec_flatten. simpl.
    by rewrite app_nil_r, <- app_assoc.
Qed.

(** X14. A turn that POST /chat (v4 and v5) answered is part of the
    context of the next one. When the clock of the server is ahead of the
    stored turns of the user, then after a successful request the user has
    one more turn, the clock is still ahead, and the turn list of any later
    request with a window of N+1 turns is: the entries of the N most recent
    earlier turns, the message just sent and the answer just given (each
    when not empty), then the incoming message. *)
Theorem answered_turn_is_remembered (E : Env) (json : gmap string string)
    (session : Session) (w w1 : World) (ai : string) :
  let u := default "unknown_user" (s_username session) in
  let said := default "" (json !! "message") in
  clock_ahead w u ->
  (V4.chat E json session w = (Ok (Jsonify {[ "response" := JStr ai ]} 200), w1) ->
   remembered u said ai w w1)
  /\ (V5.chat E json session w = (Ok (Jsonify {[ "response" := JStr ai ]} 200), w1) ->
      remembered u said ai w w1).
Proof.
  intros u said Hclock.
  split; intros Hrun;
    [unfold V4.chat in Hrun|unfold V5.chat in Hrun];
    (destruct (s_authenticated session); cbn [negb] in Hrun; [|by injection Hrun]);
    (destruct (client_ready E); cbn [negb] in Hrun; [|by injection Hrun]);
    apply chat_turn_stored in Hrun as (now & Hnow & Hstored);
    by apply stored_turn_remembered with now.
Qed.

(** X15. A voice turn enters the same history: after a
    transcribe_and_chat that answered transcript, response text and audio,
    the turn of transcript and response text is what a later POST /chat
    sends as the most recent turn of its context, although the voice
    request itself sent no history. *)
Theorem voice_turn_is_remembered (E : Env) (files : gmap string string)
    (session : Session) (u transcript ai audio : string) (w w1 : World) :
  s_username session = Some u ->
  clock_ahead w u ->
  V5.transcribe_and_chat E files session w
  = (Ok (Jsonify {[ "user_transcript" := JStr transcript;
                    "ai_response_text" := JStr ai;
                    "ai_response_audio" := JStr audio ]} 200), w1) ->
  remembered u transcript ai w w1.
Proof.
  intros Hu Hclock. unfold V5.transcribe_and_chat. rewrite Hu.
  destruct (s_authenticated session); cbn [negb]; [|by intros [=]].
  destruct (files !! "audio_data") as [content|]; [|by intros [=]]. run.
  destruct (recognize E content) as [[|[|heard ?] ?]|]; try by intros [=].
  set (w0 := log (ERecognize content) w).
  destruct (get_user_profile_data E (Some u) w0) as [[profile|e] w2] eqn:Hread;
    [|by intros [=]].
  destruct (get_user_profile_data_quiet E _ _ _ _ Hread) as [Hm _].
  apply get_user_profile_data_clock in Hread.
  destruct (system_instruction_text E profile (Some u)) as [sys|e]; [|by intros [=]].
  unfold messages_add. run.
  destruct (generate_content E sys _) as [answer|e]; [|by intros [=]].
  destruct (fault E AtMessagesAdd); [by intros [=]|].
  destruct (synthesize_speech E answer) as [speech|e]; [|by intros [=]].
  intros Heq.
  pose proof (f_equal
    (fun run : result response * World =>
       match run.1 with
       | Ok (Jsonify body _) => (body !! "user_transcript", body !! "ai_response_text")
       | _ => (None, None)
       end) Heq) as Hbody.
  cbn [fst] in Hbody.
  rewrite !lookup_insert_eq, !(lookup_insert_ne _ "user_transcript" "ai_response_text"),
    !lookup_insert_eq in Hbody by done.
  injection Hbody as -> ->.
  pose proof (f_equal snd Heq) as Hw. cbn [snd] in Hw. subst w1. clear Heq.
  apply stored_turn_remembered with (w_now w2); [done|cbn in *; lia|].
  unfold messages. cbn. by rewrite lookup_insert_eq, Hm.
Qed.

Lemma nonempty_true s : nonempty s = true -> s <> "".
Proof. unfold nonempty. by destruct (String.eqb_spec s ""). Qed.

(** X16. The turn list that [chat] builds (v3 to v5) from the streamed
    documents is a history part followed by the incoming user message; no
    entry of the history part has an empty text, each has the role "user"
    or "model", and there are at most two of them for each document. With
    a window of [limit] turns the model is sent at most 2 * limit + 1
    entries. *)
Theorem model_context_is_bounded (streamed : list snapshot) (user_input : string)
    (c : gmap nat turn) (limit : nat) :
  (exists history,
     current_conversation streamed user_input = history ++ [Entry "user" user_input]
     /\ Forall history_entry history
     /\ length history <= 2 * length streamed)
  /\ length (current_conversation (take limit (order_by_timestamp_desc c)) user_input)
     <= 2 * limit + 1.
Proof.
  assert (forall docs : list snapshot,
    Forall history_entry (history_entries docs)
    /\ length (history_entries docs) <= 2 * length docs) as Hhistory.
  { intros docs. rewrite history_entries_flatten.
    induction docs as [|doc docs [IH1 IH2]]; [by split; [constructor|]|].
    cbn [flat_map]. unfold spec_flatten at 1 3.
    destruct (nonempty (t_user_message doc.2)) eqn:Huser,
      (nonempty (t_ai_response doc.2)) eqn:Hmodel;
      cbn [app length]; (split; [|lia]);
      repeat (constructor; [split; cbn; auto using nonempty_true|]); exact IH1. }
  split.
  - exists (history_entries (reverse streamed)). split; [done|].
    destruct (Hhistory (reverse streamed)) as [H1 H2].
    by rewrite length_reverse in H2.
  - unfold current_conversation. rewrite length_app. cbn [length].
    destruct (Hhistory (reverse (take limit (order_by_timestamp_desc c)))) as [_ H2].
    rewrite length_reverse, length_take in H2. lia.
Qed.

(** X17. POST /chat of v3, whose profile lives under
    default/<user>/user_data/profile: a success appends exactly one turn
    to the history of the session's user and leaves the other histories; a
    failure, one of the write that follows the model call included,
    answers an error and leaves the stored turns as they were. *)
Theorem v3_chat_turn_count (E : Env) (json : gmap string string) (session : Session)
    (w : World) :
  one_turn_per_success E session w (V3.chat E json session w).
Proof.
  unfold V3.chat. destruct (s_authenticated session) eqn:Hauth; cbn [negb].
  - by apply chat_turn_one_turn; [apply get_or_create_user_profile_quiet|..].
  - exists (json_error "Unauthorized" 401), w. split; [done|].
    split; [right|]; eauto using json_error_is_error.
Qed.

(** X18. POST /chat of v2, which calls the model with the message alone:
    a success appends exactly one turn, made of the message and the answer
    of the model to that message, to the history of the session's user;
    without a session, when the model fails and when the write fails the
    answer is an error and the stored turns stay as they were. *)
Theorem v2_chat_turn_count (generate : string -> result string) (E : Env)
    (json : gmap string string) (session : Session) (w : World) :
  one_turn_per_success E session w (V2.chat generate E json session w)
  /\ (forall ai w',
        V2.chat generate E json session w
        = (Ok (Jsonify {[ "response" := JStr ai ]} 200), w') ->
        generate (default "" (json !! "message")) = Ok ai
        /\ exists now,
             let u := default "unknown_user" (s_username session) in
             messages w' (Some u)
             = <[fresh (dom (messages w (Some u)))
                 := Turn (Some u) (default "" (json !! "message")) ai now]>
                 (messages w (Some u))).
Proof.
  unfold V2.chat. destruct (s_authenticated session) eqn:Hauth; cbn [negb].
  2:{ split; [|by intros ai w' [=]].
      exists (json_error "Unauthorized" 401), w. split; [done|].
      split; [right|]; eauto using json_error_is_error. }
  set (u := default "unknown_user" (s_username session)).
  set (input := default "" (json !! "message")).
  unfold messages_add. run. cbn [document_id].
  destruct (generate input) as [ai|e] eqn:Hgen.
  2:{ split; [|by intros ai w' [=]].
      exists (json_error e 500), w. split; [done|].
      split; [right|]; eauto using json_error_is_error. }
  destruct (fault E AtMessagesAdd) as [e|] eqn:Hadd.
  { split; [|by intros ai' w' [=]].
    exists (json_error e 500), w. split; [done|].
    split; [right|]; eauto using json_error_is_error. }
  match goal with
  | |- context [(Ok (Jsonify _ 200), ?w0)] => set (w1 := w0)
  end.
  assert (forall u', messages w1 (Some u')
          = if decide (u = u')
            then <[fresh (dom (messages w (Some u)))
                   := Turn (Some u) input ai (w_now w)]> (messages w (Some u))
            else messages w (Some u')) as Hm.
  { intros u'. unfold w1, messages. cbn. rewrite lookup_insert.
    by destruct (decide (u = u')). }
  split.
  - exists (Jsonify {[ "response" := JStr ai ]} 200), w1.
    split; [done|]. split; [|rewrite Hadd; by intros [? [=]]].
    left. split; [by eexists|]. split; [done|]. fold u. split.
    + unfold turn_count. rewrite (Hm u), decide_True by done.
      apply turn_count_added.
    + intros u' Hu'. rewrite (Hm u'). by rewrite decide_False.
  - intros ai' w' Heq.
    pose proof (f_equal
      (fun run : result response * World =>
         match run.1 with
         | Ok (Jsonify body _) => body !! "response"
         | _ => None
         end) Heq) as Hbody.
    cbn [fst] in Hbody. rewrite !lookup_singleton_eq in Hbody.
    injection Hbody as ->.
    pose proof (f_equal snd Heq) as Hw. cbn [snd] in Hw. subst w'.
    split; [done|]. exists (w_now w). cbv zeta. fold u.
    rewrite (Hm u). by rewrite decide_True.
Qed.

(** X19. The chat page never writes to the database, whatever fails. That
    of v3 always answers. Those of v4 and v5 build their query from the
    global [db] outside the [try]: they answer whenever the database client
    was made at start-up, and for a logged-in user they raise the error of
    the missing client otherwise. When the read of the history fails for a
    logged-in user, v2, which does not catch the failure, raises it and v3
    shows the page without history; v4 and v5, the client being there,
    show the page without history and flash "Error loading chat
    history.". *)
Theorem chat_page_survives_read_failure (E : Env) (session : Session) (w : World) :
  ((V2.chat_page E session w).2 = w
   /\ (V4.chat_page E session w).2 = w
   /\ (V5.chat_page E session w).2 = w)
  /\ (exists r s', V3.chat_page E session w = (Ok (r, s'), w))
  /\ (db_missing E = None ->
      (exists r s', V4.chat_page E session w = (Ok (r, s'), w))
      /\ (exists r s', V5.chat_page E session w = (Ok (r, s'), w)))
  /\ (forall e,
        s_authenticated session = true ->
        db_missing E = Some e ->
        V4.chat_page E session w = (Raise e, w)
        /\ V5.chat_page E session w = (Raise e, w))
  /\ (forall e,
        s_authenticated session = true ->
        fault E AtHistoryStream = Some e ->
        let username := s_username session in
        V2.chat_page E session w = (Raise e, w)
        /\ V3.chat_page E session w
           = (Ok (RenderTemplate "index.html" (ChatContext username []), session), w))
  /\ (forall e,
        s_authenticated session = true ->
        db_missing E = None ->
        fault E AtHistoryStream = Some e ->
        let username := s_username session in
        V4.chat_page E session w
        = (Ok (RenderTemplate "index.html" (ChatContext username []),
               flash "Error loading chat history." "danger" session), w)
        /\ V5.chat_page E session w
           = (Ok (RenderTemplate "chat.html" (ChatContext username []),
                  flash "Error loading chat history." "danger" session), w)).
Proof.
  unfold V2.chat_page, V3.chat_page, V4.chat_page, V5.chat_page, chat_page_of,
    messages_recent, db_handle. run. split_and!.
  - by destruct (s_authenticated session), (fault E AtHistoryStream).
  - by destruct (s_authenticated session), (db_missing E),
      (fault E AtHistoryStream).
  - by destruct (s_authenticated session), (db_missing E),
      (fault E AtHistoryStream).
  - destruct (s_authenticated session), (fault E AtHistoryStream);
      cbn; eauto.
  - intros ->. destruct (s_authenticated session), (fault E AtHistoryStream);
      cbn; split; eauto.
  - intros e -> ->. done.
  - intros e Hauth Hstream. cbv zeta. by rewrite Hauth, Hstream.
  - intros e Hauth -> Hstream. cbv zeta. by rewrite Hauth, Hstream.
Qed.

(** ** Clearing the history, whatever fails *)

Lemma clear_round_run E username round deleted_count w :
  clear_round E username round deleted_count w
  = match fault E (AtClearStream round) with
    | Some e => (Raise e, w)
    | None =>
        let docs := take 50 (map_to_list (messages w username)) in
        if length docs =? 0 then (Ok (deleted_count, false), w)
        else
          match fault E (AtClearCommit round) with
          | Some e => (Raise e, w)
          | None =>
              (Ok (deleted_count + length docs, negb (length docs <? 50)),
               log (ECommit username docs.*1) (delete_documents username docs.*1 w))
          end
    end.
Proof.
  unfold clear_round, messages_limit, batch_commit. run.
  destruct (fault E (AtClearStream round)); [done|]. cbv zeta.
  destruct (length _ =? 0); [done|].
  destruct (fault E (AtClearCommit round)); [done|].
  by destruct (length _ <? 50).
Qed.

Lemma foldr_delete_subseteq {V} (c : gmap nat V) (refs : list nat) :
  foldr delete c refs ⊆ c.
Proof.
  induction refs as [|ref refs IH]; simpl; [done|].
  etrans; [apply delete_subseteq|done].
Qed.

Lemma committed_nothing u w : committed u [] w w.
Proof. unfold committed. simpl. by rewrite app_nil_r. Qed.

(** The loop from the head of a round, for any environment: what it
    committed, what it left, and how it ended. *)
Lemma clear_loop_cases E u :
  forall n w round deleted_count,
    size (messages w (Some u)) = n ->
    exists r w' batches,
      clear_loop E (Some u) round deleted_count w = (r, w')
      /\ committed u batches w w'
      /\ w_users w' = w_users w /\ w_profiles w' = w_profiles w
      /\ (forall u', u' <> u -> messages w' (Some u') = messages w (Some u'))
      /\ messages w' (Some u) ⊆ messages w (Some u)
      /\ size (messages w' (Some u)) + length (concat batches) = n
      /\ ((r = Ok (deleted_count + n) /\ messages w' (Some u) = ∅
           /\ Forall (fun batch => 0 < length batch <= 50) batches)
          \/ (exists e, r = Raise e
              /\ Forall (fun batch => length batch = 50) batches
              /\ (fault E (AtClearStream (round + length batches)) = Some e
                  \/ fault E (AtClearCommit (round + length batches)) = Some e))).
Proof.
  intros n. induction (lt_wf n) as [n _ IH].
  intros w round deleted_count Hn.
  rewrite clear_loop_step, clear_round_run.
  destruct (fault E (AtClearStream round)) as [e|] eqn:Hstream.
  { exists (Raise e), w, [].
    split_and!; [done|apply committed_nothing|done|done|done|done|change (length (concat ([] : list (list nat)))) with 0; lia|].
    right. exists e. split_and!; [done|constructor|]. left.
    simpl. by rewrite Nat.add_0_r. }
  cbv zeta.
  set (c := messages w (Some u)) in *.
  set (docs := take 50 (map_to_list c)).
  pose proof (size_delete_fetched c 50) as Hsize. fold docs in Hsize.
  assert (length docs = n `min` 50) as Hlen.
  { unfold docs. rewrite length_take, length_map_to_list. lia. }
  destruct (length docs =? 0) eqn:H0.
  { apply Nat.eqb_eq in H0. exists (Ok deleted_count), w, [].
    split_and!; [done|apply committed_nothing|done|done|done|done|change (length (concat ([] : list (list nat)))) with 0; fold c; lia|].
    left. split_and!; [f_equal; lia| |constructor].
    apply map_size_empty_inv. fold c. lia. }
  apply Nat.eqb_neq in H0.
  destruct (fault E (AtClearCommit round)) as [e|] eqn:Hcommit.
  { exists (Raise e), w, [].
    split_and!; [done|apply committed_nothing|done|done|done|done|change (length (concat ([] : list (list nat)))) with 0; fold c; lia|].
    right. exists e. split_and!; [done|constructor|]. right.
    simpl. by rewrite Nat.add_0_r. }
  set (w1 := log (ECommit (Some u) docs.*1) (delete_documents (Some u) docs.*1 w)).
  assert (messages w1 (Some u) = foldr delete c docs.*1) as Hc1
    by apply messages_deleted.
  assert (forall u', u' <> u -> messages w1 (Some u') = messages w (Some u')) as Hother.
  { intros u' Hu'. unfold messages; simpl. by rewrite lookup_insert_ne. }
  destruct (length docs <? 50) eqn:H50; cbn [negb].
  - apply Nat.ltb_lt in H50. exists (Ok (deleted_count + length docs)), w1, [docs.*1].
    split_and!; [done|unfold committed; by simpl|done|done|done| | |].
    + rewrite Hc1. apply foldr_delete_subseteq.
    + rewrite Hc1. simpl. rewrite app_nil_r, length_fmap. lia.
    + left. split_and!.
      * f_equal. lia.
      * rewrite Hc1. apply map_size_empty_inv. lia.
      * constructor; [rewrite length_fmap; lia | constructor].
  - apply Nat.ltb_ge in H50.
    destruct (IH (n - 50) ltac:(lia) w1 (S round) (deleted_count + length docs))
      as (r & w' & batches & Hrun & Hcommitted & Husers & Hprofiles & Hothers
          & Hsub & Htotal & Hcases).
    { rewrite Hc1. lia. }
    exists r, w', (docs.*1 :: batches). split_and!.
    + done.
    + unfold committed in *. rewrite Hcommitted. simpl. by rewrite <- app_assoc.
    + by rewrite Husers.
    + by rewrite Hprofiles.
    + intros u' Hu'. rewrite Hothers by done. by apply Hother.
    + etrans; [exact Hsub|]. rewrite Hc1. apply foldr_delete_subseteq.
    + simpl. rewrite length_app, length_fmap. lia.
    + destruct Hcases as [(-> & Hempty & Hbatches)|(e & -> & Hbatches & Hfault)].
      * left. split_and!; [f_equal; lia|done|].
        constructor; [rewrite length_fmap; lia|done].
      * right. exists e. split_and!; [done| |].
        -- constructor; [rewrite length_fmap; lia|done].
        -- simpl. by rewrite <- Nat.add_succ_comm.
Qed.

(** X20. POST /clear-history of v3 to v5 for a logged-in user, whatever
    fails. The handler always answers; the turns it removed are those of
    the batches it committed. Either it answers success, and then the
    history is empty and deleted_count is the number of turns there were;
    or it answers the error of the stream or commit that failed, in the
    round after the committed batches, and then every committed batch had
    50 documents, which stay deleted: the clearing is not undone and the
    answer does not tell how far it went. *)
Theorem clear_history_failure_is_partial (E : Env) (session : Session) (u : string)
    (w : World) :
  s_authenticated session = true ->
  s_username session = Some u ->
  exists r w' batches,
    clear_history E session w = (Ok r, w')
    /\ committed u batches w w'
    /\ turn_count w' u + length (concat batches) = turn_count w u
    /\ ((r = Jsonify {[ "success" := JBool true;
                        "deleted_count" := JInt (Z.of_nat (turn_count w u)) ]} 200
         /\ turn_count w' u = 0)
        \/ (exists e,
              r = json_error e 500
              /\ Forall (fun batch => length batch = 50) batches
              /\ length (concat batches) = 50 * length batches
              /\ (fault E (AtClearStream (length batches)) = Some e
                  \/ fault E (AtClearCommit (length batches)) = Some e))).
Proof.
  intros Hauth Hu.
  destruct (clear_loop_cases E u _ w 0 0 eq_refl)
    as (r & w' & batches & Hrun & Hcommitted & _ & _ & _ & _ & Htotal & Hcases).
  unfold clear_history. rewrite Hauth, Hu. cbn [negb]. run. rewrite Hrun.
  destruct Hcases as [(-> & Hempty & _)|(e & -> & Hbatches & Hfault)].
  - eexists _, w', batches. split_and!; [done..|]. left. split; [done|].
    unfold turn_count. by rewrite Hempty.
  - eexists _, w', batches. split_and!; [done..|]. right. exists e.
    split_and!; [done..| |done].
    clear -Hbatches. induction Hbatches as [|batch batches Hb _ IH]; [done|].
    simpl. rewrite length_app. lia.
Qed.

Lemma delete_each_cases E u :
  forall refs i w,
    let run := V2.delete_each E (Some u) i refs w in
    w_users run.2 = w_users w /\ w_profiles run.2 = w_profiles w
    /\ (forall u', u' <> u -> messages run.2 (Some u') = messages w (Some u'))
    /\ messages run.2 (Some u) ⊆ messages w (Some u).
Proof.
  induction refs as [|ref refs IH]; intros i w; cbn [V2.delete_each].
  - by split_and!.
  - unfold document_delete. run. destruct (fault E (AtClearCommit i)).
    + by split_and!.
    + destruct (IH (S i) (delete_documents (Some u) [ref] w))
        as (Husers & Hprofiles & Hothers & Hsub).
      split_and!.
      * by rewrite Husers.
      * by rewrite Hprofiles.
      * intros u' Hu'. rewrite Hothers by done.
        unfold messages; simpl. by rewrite lookup_insert_ne.
      * etrans; [exact Hsub|]. rewrite messages_deleted.
        apply foldr_delete_subseteq.
Qed.

(** Both handlers, for any session and environment. *)
Lemma clear_history_own_turns_only (E : Env) (session : Session) (w : World) :
  clears_own_turns_only session w (clear_history E session w)
  /\ clears_own_turns_only session w (V2.clear_history E session w).
Proof.
  unfold clears_own_turns_only, clear_history, V2.clear_history.
  destruct (s_authenticated session); cbn [negb]; [|by split_and!].
  destruct (s_username session) as [u|] eqn:Hu.
  - split.
    + destruct (clear_loop_cases E u _ w 0 0 eq_refl)
        as (r & w' & batches & Hrun & _ & Husers & Hprofiles & Hothers & Hsub & _).
      run. rewrite Hrun.
      destruct r; cbn; split_and!; try done;
        intros u' Hu'; apply Hothers; congruence.
    + run. destruct (fault E (AtClearStream 0)); [by split_and!|].
      destruct (delete_each_cases E u (map_to_list (messages w (Some u))).*1 0 w)
        as (Husers & Hprofiles & Hothers & Hsub).
      destruct (V2.delete_each E (Some u) 0 _ w) as [[[]|e] w'];
        cbn in *; split_and!; try done;
        intros u' Hu'; apply Hothers; congruence.
  - split.
    + run. rewrite clear_loop_step, clear_round_run.
      destruct (fault E (AtClearStream 0)); [by split_and!|].
      unfold messages at 1. rewrite map_to_list_empty. by split_and!.
    + run. destruct (fault E (AtClearStream 0)); [by split_and!|].
      unfold messages at 1. rewrite map_to_list_empty. by split_and!.
Qed.

(** X21. Clearing the history (v2, and v3 to v5), for every session and
    whatever fails, answers a response and changes nothing but the turns of
    the session's user, of which it can only remove: the users, the
    profiles and the histories of the other users stay as they were. *)
Theorem clear_history_keeps_other_data (E : Env) (session : Session) (w : World) :
  clears_own_turns_only session w (clear_history E session w)
  /\ clears_own_turns_only session w (V2.clear_history E session w).
Proof. apply clear_history_own_turns_only. Qed.

(** X22. When POST /clear-history of v3 to v5 answers success with a
    deleted_count, that count is the number of turns the user had, the
    user has no turn left, and the turn list of the next POST /chat is the
    incoming message alone. *)
Theorem cleared_history_is_forgotten (E : Env) (session : Session) (u : string)
    (w w' : World) (n : Z) :
  s_username session = Some u ->
  clear_history E session w
  = (Ok (Jsonify {[ "success" := JBool true; "deleted_count" := JInt n ]} 200), w') ->
  n = Z.of_nat (turn_count w u)
  /\ turn_count w' u = 0
  /\ (forall K incoming,
        spec_turn_list K (messages w' (Some u)) incoming = [Entry "user" incoming])
  /\ (forall incoming,
        current_conversation (take 10 (order_by_timestamp_desc (messages w' (Some u))))
          incoming
        = [Entry "user" incoming]).
Proof.
  intros Hu. unfold clear_history. rewrite Hu.
  destruct (s_authenticated session); cbn [negb]; [|by intros [=]].
  destruct (clear_loop_cases E u _ w 0 0 eq_refl)
    as (r & w1 & batches & Hrun & _ & _ & _ & _ & _ & _ & Hcases).
  run. rewrite Hrun.
  destruct Hcases as [(-> & Hempty & _)|(e & -> & _)]; [|by intros [=]].
  intros Heq.
  pose proof (f_equal
    (fun run : result response * World =>
       match run.1 with
       | Ok (Jsonify body _) => body !! "deleted_count"
       | _ => None
       end) Heq) as Hbody.
  cbn [fst] in Hbody.
  rewrite !(lookup_insert_ne _ "success" "deleted_count"), !lookup_singleton_eq
    in Hbody by done.
  injection Hbody as <-.
  pose proof (f_equal snd Heq) as Hw. cbn [snd] in Hw. subst w1. clear Heq.
  assert (forall K incoming,
    spec_turn_list K (messages w' (Some u)) incoming = [Entry "user" incoming]) as Hlist.
  { intros K incoming. unfold spec_turn_list. rewrite Hempty.
    unfold order_by_timestamp_desc. rewrite map_to_list_empty. cbn.
    by rewrite take_nil. }
  split_and!.
  - done.
  - unfold turn_count. by rewrite Hempty.
  - exact Hlist.
  - intros incoming. by rewrite current_conversation_spec.
Qed.

(** ** Credentials *)

Lemma credentials_kept_same_users w w' : w_users w' = w_users w -> credentials_kept w w'.
Proof. intros Hu u. unfold stored_credential. by rewrite Hu. Qed.

Lemma credentials_kept_trans w1 w2 w3 :
  credentials_kept w1 w2 -> credentials_kept w2 w3 -> credentials_kept w1 w3.
Proof. intros H12 H23 u. by rewrite H23, H12. Qed.

Lemma get_user_profile_data_keeps_credentials E username w :
  credentials_kept w (get_user_profile_data E username w).2.
Proof.
  unfold get_user_profile_data, users_document_get, users_document_set_merge. run.
  destruct (fault E AtUserGet); [done|].
  destruct (username ≫= _) eqn:Hdoc; [done|].
  destruct (fault E AtUserSet); [done|].
  intros u. unfold stored_credential.
  cbn [snd w_users with_users tick mbind option_bind].
  set (id := document_id (w_users w) username).
  assert (w_users w !! id = None) as Hid.
  { unfold id. destruct username as [u0|]; [exact Hdoc|].
    apply not_elem_of_dom, is_fresh. }
  rewrite Hid. cbn [default from_option id]. rewrite (right_id_L ∅ (∪)).
  destruct (decide (id = u)) as [<-|Hne].
  - rewrite lookup_insert_eq, Hid. cbn [mbind option_bind].
    rewrite lookup_resolve. by destruct username.
  - by rewrite lookup_insert_ne.
Qed.

Lemma chat_turn_users E get_profile limit u input w :
  w_users (chat_turn E get_profile limit u input w).2 = w_users (get_profile w).2.
Proof.
  unfold chat_turn. run. destruct (get_profile w) as [[profile|e] w1]; [|done].
  destruct (system_instruction_text E profile (Some u)); [|done].
  unfold messages_recent, messages_add. run.
  destruct (fault E AtHistoryStream); [done|].
  destruct (generate_content E _ _); [|done].
  by destruct (fault E AtMessagesAdd).
Qed.

Lemma users_document_update_keeps_credentials U username form w :
  credentials_kept w (users_document_update U username (saved_settings form) w).2.
Proof.
  unfold users_document_update. destruct (update_fault U); [done|].
  destruct (w_users w !! document_id (w_users w) username) as [old|] eqn:Hold; [|done].
  intros u. unfold stored_credential.
  cbn [snd w_users with_users tick mbind option_bind].
  destruct (decide (document_id (w_users w) username = u)) as [<-|Hne].
  - rewrite lookup_insert_eq, Hold. cbn [mbind option_bind].
    by rewrite lookup_union_r by (by rewrite resolve_saved_settings).
  - by rewrite lookup_insert_ne.
Qed.

(** The handlers that leave the credentials alone. *)
Lemma handlers_keep_credentials (E : Env) (U : UpdateEnv) (E' : Env)
    (method : http_method) (form json files : gmap string string)
    (session : Session) (w : World) :
  credentials_kept w (V4.login E method form session w).2
  /\ credentials_kept w (V5.login E method form session w).2
  /\ credentials_kept w (V4.chat_page E session w).2
  /\ credentials_kept w (V5.chat_page E session w).2
  /\ credentials_kept w (V4.chat E json session w).2
  /\ credentials_kept w (V5.chat E json session w).2
  /\ credentials_kept w (V5.transcribe_and_chat E files session w).2
  /\ credentials_kept w (clear_history E session w).2
  /\ credentials_kept w (agent_settings E U E' method form session w).2.
Proof.
  split_and!.
  - apply credentials_kept_same_users. unfold V4.login, get_user_data,
      users_document_get. run.
    destruct (s_authenticated session); [done|]. destruct method; [done|].
    destruct (fault E AtUserGet); [done|]. destruct (_ ≫= _); [|done].
    destruct (encode (value_of _)); [|done]. destruct (encode _); [|done].
    by destruct (checkpw E _ _) as [[]|].
  - apply credentials_kept_same_users. unfold V5.login, get_user_data,
      users_document_get. run.
    destruct (s_authenticated session); [done|]. destruct method; [done|].
    destruct (fault E AtUserGet); [done|]. destruct (_ ≫= _); [|done].
    destruct (encode (value_of _)); [|done]. destruct (encode _); [|done].
    by destruct (checkpw E _ _) as [[]|].
  - apply credentials_kept_same_users.
    unfold V4.chat_page, chat_page_of, messages_recent, db_handle. run.
    by destruct (s_authenticated session), (db_missing E),
      (fault E AtHistoryStream).
  - apply credentials_kept_same_users.
    unfold V5.chat_page, chat_page_of, messages_recent, db_handle. run.
    by destruct (s_authenticated session), (db_missing E),
      (fault E AtHistoryStream).
  - unfold V4.chat. destruct (s_authenticated session); cbn [negb]; [|done].
    destruct (client_ready E); cbn [negb]; [|done].
    eapply credentials_kept_trans; [apply get_user_profile_data_keeps_credentials|].
    apply credentials_kept_same_users, chat_turn_users.
  - unfold V5.chat. destruct (s_authenticated session); cbn [negb]; [|done].
    destruct (client_ready E); cbn [negb]; [|done].
    eapply credentials_kept_trans; [apply get_user_profile_data_keeps_credentials|].
    apply credentials_kept_same_users, chat_turn_users.
  - unfold V5.transcribe_and_chat.
    destruct (s_authenticated session); cbn [negb]; [|done].
    destruct (files !! "audio_data") as [audio|]; [|done]. run.
    destruct (recognize E audio) as [[|[|transcript ?] ?]|]; try done.
    pose proof (get_user_profile_data_keeps_credentials E (s_username session)
                  (log (ERecognize audio) w)) as Hkept.
    destruct (get_user_profile_data E (s_username session) _)
      as [[profile|e] w1]; [|exact Hkept].
    destruct (system_instruction_text E profile _); [|exact Hkept].
    unfold messages_add. run.
    destruct (generate_content E _ _); [|exact Hkept].
    destruct (fault E AtMessagesAdd); [exact Hkept|].
    by destruct (synthesize_speech E _).
  - apply credentials_kept_same_users.
    destruct (clear_history_own_turns_only E session w) as [(_ & Husers & _) _].
    exact Husers.
  - unfold agent_settings. destruct (s_authenticated session); cbn [negb]; [|done].
    rewrite bind_run.
    pose proof (get_user_profile_data_keeps_credentials E (s_username session) w)
      as Hentry.
    destruct (get_user_profile_data E (s_username session) w)
      as [[profile|e] w1]; [|exact Hentry].
    destruct method; [exact Hentry|].
    unfold try_except. rewrite bind_run.
    fold (saved_settings form).
    pose proof (users_document_update_keeps_credentials U (s_username session)
                  form w1) as Hupdate.
    destruct (users_document_update U (s_username session) (saved_settings form) w1)
      as [[[]|e] w2]; [|by eapply credentials_kept_trans].
    rewrite bind_run.
    pose proof (get_user_profile_data_keeps_credentials E' (s_username session) w2)
      as Hreread.
    destruct (get_user_profile_data E' (s_username session) w2) as [[?|?] w3];
      eauto using credentials_kept_trans.
Qed.

(** X23. No handler of v4 and v5 other than the admin page creates,
    changes or removes a stored password hash: login, the chat page, chat,
    transcribe_and_chat, clear-history and the settings leave the
    credential of every username as it was, for every request and whatever
    fails, the self-healing profile read and the settings update
    included. *)
Theorem only_the_admin_page_sets_credentials (E : Env) (U : UpdateEnv) (E' : Env)
    (method : http_method) (form json files : gmap string string)
    (session : Session) (w : World) :
  credentials_kept w (V4.login E method form session w).2
  /\ credentials_kept w (V5.login E method form session w).2
  /\ credentials_kept w (V4.chat_page E session w).2
  /\ credentials_kept w (V5.chat_page E session w).2
  /\ credentials_kept w (V4.chat E json session w).2
  /\ credentials_kept w (V5.chat E json session w).2
  /\ credentials_kept w (V5.transcribe_and_chat E files session w).2
  /\ credentials_kept w (clear_history E session w).2
  /\ credentials_kept w (agent_settings E U E' method form session w).2.
Proof. apply handlers_keep_credentials. Qed.

Lemma after_world {A} session (run : result (A * Session) * World) :
  (after session run).2 = run.2.
Proof. by destruct run as [[[? ?]|?] ?]. Qed.

Lemma serve_keeps_credentials E req session w :
  s_is_admin session = false ->
  credentials_kept w (serve E req session w).2.
Proof.
  intros Hflag.
  destruct req as [|method form| |U E' method form| |json|files| | |method form];
    cbn [serve snd]; rewrite ?after_world; try (by intros u).
  - apply (handlers_keep_credentials E {| update_fault := None; no_document := id |}
             E method form ∅ ∅ session w).
  - apply (handlers_keep_credentials E {| update_fault := None; no_document := id |}
             E GET ∅ ∅ ∅ session w).
  - apply (handlers_keep_credentials E U E' method form ∅ ∅ session w).
  - apply (handlers_keep_credentials E {| update_fault := None; no_document := id |}
             E GET ∅ json ∅ session w).
  - apply (handlers_keep_credentials E {| update_fault := None; no_document := id |}
             E GET ∅ ∅ files session w).
  - apply (handlers_keep_credentials E {| update_fault := None; no_document := id |}
             E GET ∅ ∅ ∅ session w).
  - unfold V5.admin_create_user. rewrite Hflag. by intros u.
Qed.

Lemma serve_keeps_flag_down E req session w :
  s_is_admin session = false ->
  (forall u, u ∈ V5.ADMIN_USERNAMES -> stored_credential w (Some u) = None) ->
  s_is_admin (serve E req session w).1 = false.
Proof.
  intros Hflag Hnone.
  assert (forall s', same_login session s' -> s_is_admin s' = false) as Hsame.
  { intros s' (_ & _ & ->). done. }
  destruct req as [|method form| |U E' method form| |json|files| | |method form];
    cbn [serve fst]; try done.
  - unfold V5.landing_page. by destruct (s_authenticated session).
  - unfold V5.login. destruct (s_authenticated session); [done|].
    destruct method; [done|].
    unfold get_user_data, users_document_get. run.
    destruct (fault E AtUserGet); [done|].
    destruct (form !! "username") as [u|] eqn:Hu; [|done].
    cbn [mbind option_bind].
    destruct (decide (u ∈ V5.ADMIN_USERNAMES)) as [Hadmin|Hother].
    + specialize (Hnone u Hadmin). unfold stored_credential in Hnone.
      cbn [mbind option_bind] in Hnone. by rewrite Hnone.
    + destruct (w_users w !! u ≫= _); [|done].
      destruct (encode (value_of _)); [|done]. destruct (encode _); [|done].
      destruct (checkpw E _ _) as [[]|]; [|done..]. cbn.
      by rewrite bool_decide_eq_false_2.
  - destruct (V5.chat_page E session w) as [[[r s']|e] w'] eqn:Hrun; [|done].
    eapply Hsame, chat_page_of_same_login, Hrun.
  - destruct (agent_settings E U E' method form session w)
      as [[[p s']|e] w'] eqn:Hrun; [|done].
    eapply Hsame, agent_settings_same_login, Hrun.
  - unfold V5.audio_chat_page. by destruct (s_authenticated session).
  - unfold V5.admin_create_user. by rewrite Hflag.
Qed.

(** X24. The application of v5 as a transition system, where browsers
    arrive without a session and send any requests, each answered under
    any behaviour of the services. From a state in which no user of
    [ADMIN_USERNAMES] has a stored credential and no session has the admin
    flag, every reachable state is such a state; no stored credential ever
    changes, and the admin page refuses every session. A first credential
    has to come from outside the application. *)
Theorem admin_page_is_out_of_reach (s s' : system) :
  no_admin s ->
  rtc step s s' ->
  no_admin s'
  /\ (forall u, stored_credential (db s') (Some u) = stored_credential (db s) (Some u))
  /\ (forall session E method form,
        session ∈ browsers s' ->
        V5.admin_create_user E method form session (db s')
        = (Ok (Redirect "chat_page",
               flash "You do not have permission to access this page." "danger"
                 session), db s')).
Proof.
  intros Hstart Hsteps.
  assert (no_admin s'
          /\ forall u, stored_credential (db s') (Some u)
                       = stored_credential (db s) (Some u)) as [Hend Hkept].
  { induction Hsteps as [s|s1 s2 s3 Hstep _ IH]; [done|].
    assert (no_admin s2 /\ credentials_kept (db s1) (db s2)) as [H2 Hkept12].
    { destruct Hstart as [Hnone Hflags].
      destruct Hstep as [s1|s1 i session E req Hi|s1 i session message category Hi].
      - split; [|by intros u]. split; [done|]. cbn [db browsers].
        apply Forall_app. split; [done|]. by constructor.
      - assert (s_is_admin session = false) as Hflag
          by (rewrite Forall_forall in Hflags; eapply Hflags, list_elem_of_lookup_2, Hi).
        pose proof (serve_keeps_credentials E req session (db s1) Hflag) as Hkept.
        split; [|exact Hkept]. split; cbn [db browsers].
        + intros u Hu. rewrite (Hkept u). by apply Hnone.
        + apply Forall_insert; [done|]. by apply serve_keeps_flag_down.
      - assert (s_is_admin session = false) as Hflag
          by (rewrite Forall_forall in Hflags; eapply Hflags, list_elem_of_lookup_2, Hi).
        split; [|by intros u]. split; [done|]. cbn [db browsers].
        by apply Forall_insert. }
    destruct (IH H2) as [H3 Hkept23]. split; [done|].
    intros u. by rewrite Hkept23, Hkept12. }
  split_and!; [done..|].
  intros session E method form Hin. destruct Hend as [_ Hflags].
  rewrite Forall_forall in Hflags. unfold V5.admin_create_user.
  by rewrite (Hflags session Hin).
Qed.

(** ** The further theorems at sample inputs *)

Lemma create_or_update_user_merges_witness :
  "add here" ∈ V5.ALLOWED_USERNAMES
  /\ hashpw sample_env "secret" = Ok "bcrypt:secret"
  /\ fault sample_env AtUserGet = None /\ fault sample_env AtUserSet = None
  /\ create_or_update_user V5.ALLOWED_USERNAMES sample_env "add here" "secret" None
       empty_world
     = (Ok (true, "User created/updated successfully."),
        tick (with_users
                (insert "add here"
                   (written_user_document "bcrypt:secret" 0 "add here" None None))
                empty_world))
  /\ hashpw sample_env long_password
     = Raise "password cannot be longer than 72 bytes"
  /\ create_or_update_user V5.ALLOWED_USERNAMES sample_env "add here" long_password
       None empty_world
     = (Raise "password cannot be longer than 72 bytes", empty_world).
Proof.
  assert ("add here" ∈ V5.ALLOWED_USERNAMES) as Hallowed by left.
  split; [exact Hallowed|]. split; [reflexivity|].
  split; [reflexivity|]. split; [reflexivity|]. split; [|split; [reflexivity|]].
  - destruct (create_or_update_user_merges V5.ALLOWED_USERNAMES sample_env
                "add here" "secret" None empty_world Hallowed) as [_ Hwritten].
    exact (proj1 (Hwritten "bcrypt:secret" eq_refl eq_refl eq_refl)).
  - destruct (create_or_update_user_merges V5.ALLOWED_USERNAMES sample_env
                "add here" long_password None empty_world Hallowed) as [Hraises _].
    exact (Hraises _ eq_refl).
Defined.

Lemma created_user_logs_in_witness :
  let created :=
    create_or_update_user V5.ALLOWED_USERNAMES sample_env "add here" "secret" None
      empty_world in
  created.1 = Ok (true, "User created/updated successfully.")
  /\ s_authenticated anonymous = false
  /\ login_success "add here" created.2
       (V5.login sample_env POST {[ "username" := "add here"; "password" := "secret" ]}
          anonymous created.2)
  /\ V5.login sample_env POST {[ "username" := "add here"; "password" := "guess" ]}
       anonymous created.2
     = login_failure anonymous created.2.
Proof.
  cbv zeta.
  set (created := create_or_update_user V5.ALLOWED_USERNAMES sample_env "add here"
                    "secret" None empty_world).
  assert (created = (Ok (true, "User created/updated successfully."), created.2))
    as Hcreated by (vm_compute; reflexivity).
  split; [vm_compute; reflexivity|]. split; [reflexivity|]. split.
  - assert (({[ "username" := "add here"; "password" := "secret" ]}
             : gmap string string) !! "username" = Some "add here") as Hu
      by reflexivity.
    assert (({[ "username" := "add here"; "password" := "secret" ]}
             : gmap string string) !! "password" = Some "secret") as Hp
      by reflexivity.
    destruct (created_user_logs_in V5.ALLOWED_USERNAMES sample_env "add here" "secret"
                _ None _ anonymous empty_world created.2 Hcreated eq_refl Hu)
      as (hash & Hhash & Hgranted & _).
    assert (hash = "bcrypt:secret") as -> by (by injection Hhash as <-).
    assert (checkpw sample_env "secret" "bcrypt:secret" = Ok true) as Hcheck
      by reflexivity.
    exact (proj2 (Hgranted "secret" Hp Hcheck)).
  - assert (({[ "username" := "add here"; "password" := "guess" ]}
             : gmap string string) !! "username" = Some "add here") as Hu
      by reflexivity.
    assert (({[ "username" := "add here"; "password" := "guess" ]}
             : gmap string string) !! "password" = Some "guess") as Hp
      by reflexivity.
    destruct (created_user_logs_in V5.ALLOWED_USERNAMES sample_env "add here" "secret"
                _ None _ anonymous empty_world created.2 Hcreated eq_refl Hu)
      as (hash & Hhash & _ & Hrefused).
    assert (hash = "bcrypt:secret") as -> by (by injection Hhash as <-).
    assert (checkpw sample_env "guess" "bcrypt:secret" = Ok false) as Hcheck
      by reflexivity.
    exact (proj2 (Hrefused "guess" Hp Hcheck)).
Defined.

Lemma profile_self_heal_witness :
  fault sample_env AtUserGet = None /\ fault sample_env AtUserSet = None
  /\ fault sample_env AtProfileGet = None /\ fault sample_env AtProfileSet = None
  /\ w_users empty_world !! "alice" = None
  /\ exists w1,
       get_user_profile_data sample_env (Some "alice") empty_world
       = (Ok (default_profile (Some "alice")), w1)
       /\ get_user_profile_data sample_env (Some "alice") w1
          = (Ok (documented_defaults "alice"), w1).
Proof.
  split_and!; try reflexivity.
  destruct (profile_self_heal sample_env "alice" empty_world
              eq_refl eq_refl eq_refl eq_refl) as (Hv4 & _).
  destruct (Hv4 eq_refl) as (w1 & Hfirst & _ & Hsecond).
  exists w1. split; [exact Hfirst | exact Hsecond].
Defined.

Lemma login_without_password_field_witness :
  s_authenticated anonymous = false
  /\ fault sample_env AtUserGet = None
  /\ V5.login sample_env POST {[ "username" := "alice" ]} anonymous alice_registered
     = (Raise "'NoneType' object has no attribute 'encode'", alice_registered)
  /\ V5.login sample_env POST {[ "username" := "mallory" ]} anonymous alice_registered
     = login_failure anonymous alice_registered.
Proof.
  split; [reflexivity|]. split; [reflexivity|]. split.
  - assert (({[ "username" := "alice" ]} : gmap string string) !! "password" = None)
      as Hp by reflexivity.
    destruct (login_without_password_field sample_env {[ "username" := "alice" ]}
                anonymous alice_registered eq_refl eq_refl Hp) as [_ Hknown].
    assert (stored_credential alice_registered
              (({[ "username" := "alice" ]} : gmap string string) !! "username")
            = Some (VStr "bcrypt:secret")) as Hstored by reflexivity.
    exact (proj2 (Hknown _ Hstored)).
  - assert (({[ "username" := "mallory" ]} : gmap string string) !! "password" = None)
      as Hp by reflexivity.
    destruct (login_without_password_field sample_env {[ "username" := "mallory" ]}
                anonymous alice_registered eq_refl eq_refl Hp) as [Hunknown _].
    assert (stored_credential alice_registered
              (({[ "username" := "mallory" ]} : gmap string string) !! "username")
            = None) as Hstored by reflexivity.
    exact (proj2 (Hunknown Hstored)).
Defined.

Lemma login_comparison_raises_witness :
  s_authenticated anonymous = false
  /\ fault sample_env AtUserGet = None
  /\ checkpw sample_env long_password "bcrypt:secret"
     = Raise "password cannot be longer than 72 bytes"
  /\ V5.login sample_env POST {[ "username" := "alice"; "password" := long_password ]}
       anonymous alice_registered
     = (Raise "password cannot be longer than 72 bytes", alice_registered)
  /\ V5.login sample_env POST {[ "username" := "mallory"; "password" := long_password ]}
       anonymous alice_registered
     = login_failure anonymous alice_registered.
Proof.
  split; [reflexivity|]. split; [reflexivity|]. split; [reflexivity|]. split.
  - destruct (login_comparison_raises sample_env
                {[ "username" := "alice"; "password" := long_password ]}
                anonymous alice_registered eq_refl eq_refl) as [Hknown _].
    exact (proj2 (Hknown long_password "bcrypt:secret" _ eq_refl eq_refl eq_refl)).
  - destruct (login_comparison_raises sample_env
                {[ "username" := "mallory"; "password" := long_password ]}
                anonymous alice_registered eq_refl eq_refl) as [_ Hunknown].
    exact (proj2 (Hunknown eq_refl)).
Defined.

Lemma settings_page_hides_credential_witness :
  let run := agent_settings sample_env update_ok sample_env GET ∅ alice_session
               alice_registered in
  exists p session' w' user_profile,
    run = (Ok (p, session'), w')
    /\ shown_profile p = Some user_profile
    /\ (w_users alice_registered !! "alice") ≫= (fun d : dict => d !! "hashed_password")
       = Some (VStr "bcrypt:secret")
    /\ user_profile !! "hashed_password" = None.
Proof.
  cbv zeta. eexists _, _, _, _.
  assert (agent_settings sample_env update_ok sample_env GET ∅ alice_session
            alice_registered
          = (Ok (settings_page {[ "user_display_name" := VStr "Alice" ]} (Some "alice"),
                 alice_session), alice_registered)) as Hrun
    by (vm_compute; reflexivity).
  split; [exact Hrun|]. split; [reflexivity|]. split; [reflexivity|].
  exact (proj1 (settings_page_hides_credential _ _ _ _ _ _ _ _ _ _ _ Hrun eq_refl)).
Defined.

Lemma protected_routes_need_login_witness :
  s_authenticated anonymous = false
  /\ V5.chat sample_env {[ "message" := "Hi" ]} anonymous alice_registered
     = (Ok (json_error "Unauthorized" 401), alice_registered)
  /\ agent_settings sample_env update_ok sample_env POST butler_form anonymous
       alice_registered
     = (Ok (PageRedirect "login", anonymous), alice_registered)
  /\ s_authenticated (V5.logout admin_session).2 = false.
Proof.
  split; [reflexivity|].
  destruct (protected_routes_need_login sample_env update_ok sample_env POST
              butler_form {[ "message" := "Hi" ]} ∅ anonymous alice_registered)
    as (Hrefused & _).
  destruct (Hrefused eq_refl)
    as [(_ & _ & _ & _ & _ & Hsettings & _) (_ & _ & Hchat & _)].
  split; [exact Hchat|]. split; [exact Hsettings|].
  destruct (protected_routes_need_login sample_env update_ok sample_env POST
              butler_form {[ "message" := "Hi" ]} ∅ admin_session alice_registered)
    as (_ & (_ & _ & _ & Hlogout) & _).
  exact Hlogout.
Defined.

Lemma admin_session_flag_sound : admin_flag_sound admin_session.
Proof.
  intros _. split; [reflexivity|]. exists "admin". split; [reflexivity|left].
Defined.

Lemma admin_flag_stays_sound_witness :
  admin_flag_sound admin_session
  /\ admin_flag_sound (V5.logout admin_session).2
  /\ s_is_admin (V5.logout admin_session).2 = false.
Proof.
  split; [exact admin_session_flag_sound|]. split; [|reflexivity].
  destruct (admin_flag_stays_sound sample_env update_ok sample_env POST ∅
              admin_session empty_world admin_session_flag_sound)
    as (_ & Hlogout & _).
  exact Hlogout.
Defined.

Lemma chat_page_survives_read_failure_witness :
  s_authenticated alice_session = true
  /\ db_missing history_down = None
  /\ fault history_down AtHistoryStream = Some "503 unavailable"
  /\ V2.chat_page history_down alice_session eleven_turns
     = (Raise "503 unavailable", eleven_turns)
  /\ V5.chat_page history_down alice_session eleven_turns
     = (Ok (RenderTemplate "chat.html" (ChatContext (Some "alice") []),
            flash "Error loading chat history." "danger" alice_session),
        eleven_turns)
  /\ db_missing db_down = Some "'NoneType' object has no attribute 'collection'"
  /\ V5.chat_page db_down alice_session eleven_turns
     = (Raise "'NoneType' object has no attribute 'collection'", eleven_turns).
Proof.
  split; [reflexivity|]. split; [reflexivity|]. split; [reflexivity|].
  destruct (chat_page_survives_read_failure history_down alice_session eleven_turns)
    as (_ & _ & _ & _ & Hraised & Hflashed).
  split; [exact (proj1 (Hraised "503 unavailable" eq_refl eq_refl))|].
  split; [exact (proj2 (Hflashed "503 unavailable" eq_refl eq_refl eq_refl))|].
  split; [reflexivity|].
  destruct (chat_page_survives_read_failure db_down alice_session eleven_turns)
    as (_ & _ & _ & Hmissing & _).
  exact (proj2 (Hmissing _ eq_refl eq_refl)).
Defined.

Lemma clear_history_failure_is_partial_witness :
  s_authenticated alice_session = true
  /\ s_username alice_session = Some "alice"
  /\ fault commit_down (AtClearCommit 0) = Some "503 unavailable"
  /\ clear_history commit_down alice_session eleven_turns
     = (Ok (json_error "503 unavailable" 500), eleven_turns)
  /\ exists r w' batches,
       clear_history commit_down alice_session eleven_turns = (Ok r, w')
       /\ committed "alice" batches eleven_turns w'
       /\ turn_count w' "alice" + length (concat batches)
          = turn_count eleven_turns "alice".
Proof.
  split; [reflexivity|]. split; [reflexivity|]. split; [reflexivity|].
  split; [vm_compute; reflexivity|].
  destruct (clear_history_failure_is_partial commit_down alice_session "alice"
              eleven_turns eq_refl eq_refl)
    as (r & w' & batches & Hrun & Hcommitted & Htotal & _).
  exists r, w', batches. split; [exact Hrun|]. split; [exact Hcommitted|exact Htotal].
Defined.

Lemma password_login_from_environment_witness :
  "replace this" ∈ V2.KNOWN_USERNAMES
  /\ env_password sample_process "replace this" = Some "secret"
  /\ V2.login sample_process POST
       {[ "username" := "replace this"; "password" := "secret" ]} anonymous
     = (PageRedirect "chat_page", logged_in "replace this" anonymous)
  /\ V2.login sample_process POST {[ "username" := "replace this" ]} anonymous
     = (login_error_page, anonymous).
Proof.
  assert ("replace this" ∈ V2.KNOWN_USERNAMES) as Hknown by left.
  assert (env_password sample_process "replace this" = Some "secret") as Henv
    by (vm_compute; reflexivity).
  split; [exact Hknown|]. split; [exact Henv|]. split.
  - assert (({[ "username" := "replace this"; "password" := "secret" ]}
             : gmap string string) !! "username" = Some "replace this") as Hu
      by reflexivity.
    assert (({[ "username" := "replace this"; "password" := "secret" ]}
             : gmap string string) !! "password" = Some "secret") as Hp
      by reflexivity.
    destruct (password_login_from_environment sample_process sample_env
                {[ "username" := "replace this"; "password" := "secret" ]}
                anonymous empty_world) as (Hgranted & _).
    exact (proj1 (Hgranted _ _ Hu Hp Hknown Henv)).
  - assert (({[ "username" := "replace this" ]} : gmap string string) !! "password"
            = None) as Hp by reflexivity.
    destruct (password_login_from_environment sample_process sample_env
                {[ "username" := "replace this" ]} anonymous empty_world)
      as (_ & _ & Hrefused).
    exact (proj1 (Hrefused (or_introl Hp))).
Defined.

Lemma v3_login_creates_profile_witness :
  "replace this" ∈ V3.KNOWN_USERNAMES
  /\ env_password sample_process "replace this" = Some "secret"
  /\ exists w',
       V3.login sample_process sample_env POST
         {[ "username" := "replace this"; "password" := "secret" ]} anonymous
         empty_world
       = (Ok (PageRedirect "chat_page", logged_in "replace this" anonymous), w')
       /\ is_Some (w_profiles w' !! "replace this").
Proof.
  assert ("replace this" ∈ V3.KNOWN_USERNAMES) as Hknown by left.
  assert (env_password sample_process "replace this" = Some "secret") as Henv
    by (vm_compute; reflexivity).
  split; [exact Hknown|]. split; [exact Henv|].
  assert (({[ "username" := "replace this"; "password" := "secret" ]}
           : gmap string string) !! "username" = Some "replace this") as Hu
    by reflexivity.
  assert (({[ "username" := "replace this"; "password" := "secret" ]}
           : gmap string string) !! "password" = Some "secret") as Hp
    by reflexivity.
  destruct (v3_login_creates_profile sample_process sample_env _ anonymous empty_world
              _ _ Hu Hp Hknown Henv) as (Hanswers & _).
  destruct (Hanswers eq_refl eq_refl) as (w' & Hrun & _ & _ & Hprofile).
  exists w'. split; [exact Hrun | exact Hprofile].
Defined.

Lemma settings_are_saved_witness :
  s_authenticated alice_session = true /\ s_username alice_session = Some "alice"
  /\ fault sample_env AtUserGet = None /\ fault sample_env AtUserSet = None
  /\ update_fault update_ok = None
  /\ exists w',
       (agent_settings sample_env update_ok sample_env POST butler_form alice_session
          alice_registered).2 = w'
       /\ (w_users w' !! "alice") ≫= (fun d : dict => d !! "agent_persona")
          = Some (VStr "You are a discreet butler.")
       /\ (w_users w' !! "alice") ≫= (fun d : dict => d !! "special_instructions")
          = Some (VStr "")
       /\ (w_users w' !! "alice") ≫= (fun d : dict => d !! "hashed_password")
          = Some (VStr "bcrypt:secret").
Proof.
  split_and!; try reflexivity.
  destruct (settings_are_saved sample_env update_ok sample_env butler_form
              alice_session "alice" alice_registered
              eq_refl eq_refl eq_refl eq_refl eq_refl eq_refl)
    as (w' & Hrun & Husers & _).
  exists w'. split; [by rewrite Hrun|].
  rewrite Husers. split_and!; vm_compute; reflexivity.
Defined.

Lemma settings_failure_is_reported_witness :
  s_authenticated alice_session = true /\ s_username alice_session = Some "alice"
  /\ fault sample_env AtUserGet = None /\ fault sample_env AtUserSet = None
  /\ update_fault update_down = Some "503 unavailable"
  /\ exists w',
       agent_settings sample_env update_down sample_env POST butler_form alice_session
         alice_registered
       = (Ok (settings_page (profile_on_entry alice_registered "alice") (Some "alice"),
              flash "Failed to save settings: 503 unavailable" "danger" alice_session),
          w')
       /\ w_users w' = w_users alice_registered.
Proof.
  split_and!; try reflexivity.
  destruct (settings_failure_is_reported sample_env update_down sample_env butler_form
              alice_session "alice" alice_registered eq_refl eq_refl eq_refl eq_refl)
    as (Hupdate & _).
  destruct (Hupdate "503 unavailable" eq_refl) as (w' & Hrun & Husers).
  exists w'. split; [exact Hrun|]. rewrite Husers. vm_compute. reflexivity.
Defined.

Lemma saved_settings_reach_the_model_witness :
  s_authenticated alice_session = true /\ s_username alice_session = Some "alice"
  /\ update_fault update_ok = None /\ client_ready sample_env = true
  /\ exists p s' w1 r w2,
       agent_settings sample_env update_ok sample_env POST butler_form alice_session
         alice_registered = (Ok (p, s'), w1)
       /\ V5.chat sample_env {[ "message" := "Hi" ]} alice_session w1 = (Ok r, w2)
       /\ generate_calls (w_trace w2)
          = [("You are a discreet butler. Your name is Alfred. "
              +:+ "Keep the house in order. "
              +:+ "The user you are interacting with is named Miss Alice.",
              [Entry "user" "Hi"])].
Proof.
  split_and!; try reflexivity.
  destruct (saved_settings_reach_the_model sample_env update_ok sample_env sample_env
              butler_form {[ "message" := "Hi" ]} alice_session "alice"
              alice_registered
              eq_refl eq_refl eq_refl eq_refl eq_refl eq_refl eq_refl eq_refl eq_refl)
    as (p & s' & w1 & Hsaved & _ & (r & w2 & Hchat & Hcalls)).
  exists p, s', w1, r, w2. split; [exact Hsaved|]. split; [exact Hchat|].
  rewrite Hcalls. vm_compute. reflexivity.
Defined.

Lemma empty_world_clock_ahead u : clock_ahead empty_world u.
Proof. intros k t Hk. discriminate Hk. Defined.

Lemma answered_turn_is_remembered_witness :
  clock_ahead empty_world "alice"
  /\ exists w1,
       V5.chat sample_env {[ "message" := "Hi" ]} alice_session empty_world
       = (Ok (Jsonify {[ "response" := JStr "At your service." ]} 200), w1)
       /\ remembered "alice" "Hi" "At your service." empty_world w1.
Proof.
  split; [exact (empty_world_clock_ahead "alice")|].
  eexists. 
  assert (V5.chat sample_env {[ "message" := "Hi" ]} alice_session empty_world
          = (Ok (Jsonify {[ "response" := JStr "At your service." ]} 200),
             (V5.chat sample_env {[ "message" := "Hi" ]} alice_session empty_world).2))
    as Hrun by (vm_compute; reflexivity).
  split; [exact Hrun|].
  exact (proj2 (answered_turn_is_remembered sample_env {[ "message" := "Hi" ]}
                  alice_session empty_world _ "At your service."
                  (empty_world_clock_ahead "alice")) Hrun).
Defined.

Lemma v3_settings_page_shows_old_profile_witness :
  s_authenticated alice_session = true /\ s_username alice_session = Some "alice"
  /\ fault sample_env AtProfileGet = None /\ fault sample_env AtProfileSet = None
  /\ update_fault update_ok = None
  /\ exists w',
       V3.agent_settings sample_env update_ok POST butler_form alice_session
         empty_world
       = (Ok (PageTemplate "settings.html"
                {[ "user_profile" := ArgProfile (default_profile (Some "alice"));
                   "success_message" := ArgValue (VStr "Settings saved!");
                   "username" := ArgValue (VStr "alice") ]}, alice_session), w')
       /\ (w_profiles w' !! "alice") ≫= (fun d : dict => d !! "agent_persona")
          = Some (VStr "You are a discreet butler.").
Proof.
  split_and!; try reflexivity.
  destruct (v3_settings_page_shows_old_profile sample_env update_ok butler_form
              alice_session "alice" empty_world eq_refl eq_refl eq_refl eq_refl)
    as (Hsaved & _).
  destruct (Hsaved eq_refl) as (w' & Hrun & Hprofiles & _).
  exists w'. split; [exact Hrun|]. rewrite Hprofiles. vm_compute. reflexivity.
Defined.

Lemma voice_turn_is_remembered_witness :
  s_username alice_session = Some "alice"
  /\ clock_ahead empty_world "alice"
  /\ exists w1,
       V5.transcribe_and_chat sample_env {[ "audio_data" := "RIFF" ]} alice_session
         empty_world
       = (Ok (Jsonify {[ "user_transcript" := JStr "hello";
                         "ai_response_text" := JStr "At your service.";
                         "ai_response_audio" := JStr "base64:mp3:At your service." ]}
                200), w1)
       /\ remembered "alice" "hello" "At your service." empty_world w1.
Proof.
  split; [reflexivity|]. split; [exact (empty_world_clock_ahead "alice")|].
  eexists.
  assert (V5.transcribe_and_chat sample_env {[ "audio_data" := "RIFF" ]} alice_session
            empty_world
          = (Ok (Jsonify {[ "user_transcript" := JStr "hello";
                            "ai_response_text" := JStr "At your service.";
                            "ai_response_audio" := JStr "base64:mp3:At your service." ]}
                   200),
             (V5.transcribe_and_chat sample_env {[ "audio_data" := "RIFF" ]}
                alice_session empty_world).2))
    as Hrun by (vm_compute; reflexivity).
  split; [exact Hrun|].
  exact (voice_turn_is_remembered sample_env _ alice_session "alice" _ _ _ empty_world
           _ eq_refl (empty_world_clock_ahead "alice") Hrun).
Defined.

Lemma admin_form_feedback_witness :
  fault sample_env AtUsersStream = None
  /\ admin_create_user_page V5.ALLOWED_USERNAMES sample_env POST
       {[ "username" := "mallory"; "password" := "secret" ]} admin_session
       alice_registered
     = admin_page V5.ALLOWED_USERNAMES alice_registered
         "Error creating/updating user 'mallory': Unauthorized username." "danger"
         admin_session
  /\ admin_create_user_page V5.ALLOWED_USERNAMES sample_env POST
       {[ "username" := "add here" ]} admin_session alice_registered
     = admin_page V5.ALLOWED_USERNAMES alice_registered
         "Username and password are required." "danger" admin_session
  /\ admin_create_user_page V5.ALLOWED_USERNAMES sample_env POST
       {[ "username" := "add here"; "password" := long_password ]} admin_session
       alice_registered
     = (Raise "password cannot be longer than 72 bytes", alice_registered).
Proof.
  split; [reflexivity|]. split; [|split].
  - destruct (admin_form_feedback V5.ALLOWED_USERNAMES sample_env
                {[ "username" := "mallory"; "password" := "secret" ]} admin_session
                alice_registered eq_refl) as (_ & Hrefused & _).
    apply Hrefused; [discriminate|discriminate|].
    intros Hin. apply list_elem_of_singleton in Hin. discriminate Hin.
  - destruct (admin_form_feedback V5.ALLOWED_USERNAMES sample_env
                {[ "username" := "add here" ]} admin_session
                alice_registered eq_refl) as (Hrequired & _).
    apply Hrequired. right. reflexivity.
  - destruct (admin_form_feedback V5.ALLOWED_USERNAMES sample_env
                {[ "username" := "add here"; "password" := long_password ]}
                admin_session alice_registered eq_refl) as (_ & _ & Hallowed).
    assert (default "" (({[ "username" := "add here"; "password" := long_password ]}
                          : gmap string string) !! "password") <> "") as Hp.
    { intros Hempty. vm_compute in Hempty. discriminate Hempty. }
    destruct (Hallowed ltac:(discriminate) Hp ltac:(left)) as [Hraises _].
    exact (Hraises _ eq_refl).
Defined.

Lemma cleared_history_is_forgotten_witness :
  s_username alice_session = Some "alice"
  /\ exists w',
       clear_history sample_env alice_session eleven_turns
       = (Ok (Jsonify {[ "success" := JBool true; "deleted_count" := JInt 11 ]} 200),
          w')
       /\ turn_count eleven_turns "alice" = 11
       /\ turn_count w' "alice" = 0
       /\ spec_turn_list 10 (messages w' (Some "alice")) "Hi" = [Entry "user" "Hi"].
Proof.
  split; [reflexivity|]. eexists.
  assert (clear_history sample_env alice_session eleven_turns
          = (Ok (Jsonify {[ "success" := JBool true; "deleted_count" := JInt 11 ]} 200),
             (clear_history sample_env alice_session eleven_turns).2)) as Hrun
    by (vm_compute; reflexivity).
  split; [exact Hrun|]. split; [vm_compute; reflexivity|].
  destruct (cleared_history_is_forgotten sample_env alice_session "alice" eleven_turns
              _ 11 eq_refl Hrun) as (_ & Hzero & Hforgotten & _).
  split; [exact Hzero | exact (Hforgotten 10 "Hi")].
Defined.

Lemma fresh_system_no_admin : no_admin fresh_system.
Proof.
  split.
  - intros u _. reflexivity.
  - repeat constructor.
Defined.

Lemma admin_page_is_out_of_reach_witness :
  no_admin fresh_system
  /\ exists s',
       rtc step fresh_system s'
       /\ browsers s'
          = [flash "You do not have permission to access this page." "danger"
               anonymous; anonymous]
       /\ w_users (db s') = ∅
       /\ no_admin s'.
Proof.
  split; [exact fresh_system_no_admin|].
  pose (arrived := System (db fresh_system) (browsers fresh_system ++ [anonymous])).
  pose (request := AdminCreateUser POST
                     {[ "username" := "add here"; "password" := "secret" ]}).
  pose (refused :=
    System (serve sample_env request anonymous (db arrived)).2
           (<[0 := (serve sample_env request anonymous (db arrived)).1]>
              (browsers arrived))).
  assert (rtc step fresh_system refused) as Hsteps.
  { apply rtc_l with arrived; [apply step_arrive|].
    apply rtc_once. by apply (step_request arrived 0 anonymous sample_env request). }
  exists refused. split; [exact Hsteps|]. split; [reflexivity|].
  split; [reflexivity|].
  exact (proj1 (admin_page_is_out_of_reach _ _ fresh_system_no_admin Hsteps)).
Defined.
